(** * HR Sentiment Analysis dashboard: the view logic of [app.py]

    A shallow embedding of the Streamlit script [src/app.py].  The script is
    presentation logic over an [HRAnalyzer] object: every function of the
    script is a definition here with the same name, Streamlit calls append to
    a render log, and exceptions are explicit results.

    Layout: text and number formatting as Python does it, the fragment of
    Python values the script inspects, the analyzer object, the render monad,
    the functions of [app.py] up to its entry point [main], and then the
    theorems. *)

From Stdlib Require Import ZArith QArith String Ascii List Bool Lia DecimalString.
From stdpp Require Import base option list strings gmap.
Import ListNotations.

Close Scope Q_scope.
Local Open Scope string_scope.

(** ** Text *)

Module Text.

(** Text is the sequence of the bytes of its UTF-8 encoding. *)
Definition byte (n : nat) : ascii := ascii_of_nat n.

Definition is_byte (c : ascii) (n : nat) : bool := Nat.eqb (nat_of_ascii c) n.

(** [str.lower] on an ASCII character: the letters A to Z change. *)
Definition lower_char (c : ascii) : ascii :=
  let n := nat_of_ascii c in
  if (65 <=? n)%nat && (n <=? 90)%nat then ascii_of_nat (n + 32) else c.

(** [s.lower()], exact in the ASCII characters of its result.  Besides A
    to Z, two characters have an ASCII letter in their lower case: LATIN
    CAPITAL LETTER I WITH DOT ABOVE (U+0130, bytes C4 B0) becomes [i]
    followed by COMBINING DOT ABOVE (U+0307, bytes CC 87), and KELVIN SIGN
    (U+212A, bytes E2 84 AA) becomes [k].  Every other character outside
    ASCII is left as it is: Python gives it a lower case outside ASCII too,
    so the ASCII characters of the result and the places where they stand
    next to each other are the same, and with them every occurrence of a
    word written in ASCII. *)
Fixpoint lower (s : string) : string :=
  match s with
  | EmptyString => EmptyString
  | String c1 t1 =>
      match t1 with
      | EmptyString => String (lower_char c1) EmptyString
      | String c2 t2 =>
          if is_byte c1 196 && is_byte c2 176
          then String "i" (String (byte 204) (String (byte 135) (lower t2)))
          else
            match t2 with
            | EmptyString => String (lower_char c1) (lower t1)
            | String c3 t3 =>
                if is_byte c1 226 && is_byte c2 132 && is_byte c3 170
                then String "k" (lower t3)
                else String (lower_char c1) (lower t1)
            end
      end
  end.

(** [needle in hay] for two strings. *)
Fixpoint contains (needle hay : string) : bool :=
  String.prefix needle hay ||
  match hay with
  | EmptyString => false
  | String _ t => contains needle t
  end.

(** [sep.join(parts)]. *)
Fixpoint join (sep : string) (parts : list string) : string :=
  match parts with
  | [] => EmptyString
  | [p] => p
  | p :: rest => p +:+ sep +:+ join sep rest
  end.

Definition nl : string := String (ascii_of_nat 10) EmptyString.

(** [bool(s)] of a string. *)
Definition nonempty (s : string) : bool :=
  match s with EmptyString => false | String _ _ => true end.

(** [str(n)] of an [int]. *)
Definition str_int (z : Z) : string := NilZero.string_of_int (Z.to_int z).

(** [f"{x:.1f}"] of a finite number, given as the exact rational it
    denotes: one digit after the point, correctly rounded, ties to even,
    the sign kept even when the digits round to zero. *)
Definition format_1f (q : Q) : string :=
  let n := (Z.abs (Qnum q) * 10)%Z in
  let d := Zpos (Qden q) in
  let f := (n / d)%Z in
  let r := (n mod d)%Z in
  let t := if (2 * r <? d)%Z then f
           else if (d <? 2 * r)%Z then (f + 1)%Z
           else if Z.even f then f else (f + 1)%Z in
  (if (Qnum q <? 0)%Z then "-" else EmptyString)
    +:+ str_int (t / 10) +:+ "." +:+ str_int (t mod 10).

(** [a > b] on numbers. *)
Definition gt (a b : Q) : bool := negb (Qle_bool a b).

End Text.

Import Text.

(** ** Python values and exceptions *)

(** An exception object: the name of its class, names of classes that
    class derives from, and [str(e)].  Every exception of the model derives
    from [Exception]; interrupts and script-control signals are kept apart
    (see [outcome]).  The one base class the script can tell, through
    [hasattr], is [AttributeError]: an exception derives from it exactly
    when it is listed. *)
Record exn := Exception {
  exn_class : string;
  exn_bases : list string;
  exn_msg : string
}.

(** An exception with no base class listed: one that does not derive from
    [AttributeError], unless that is its own class. *)
Definition Exn (cls msg : string) : exn := Exception cls [] msg.

(** [isinstance(e, cls)] for an exception class [cls]. *)
Definition is_a (e : exn) (cls : string) : bool :=
  String.eqb (exn_class e) cls || existsb (String.eqb cls) (exn_bases e).

(** What running a piece of the script yields: a value, an exception on
    its way up, or the [st.rerun()] signal, which no [except Exception]
    clause intercepts. *)
Inductive outcome (A : Type) : Type :=
| Ret (a : A)
| Raise (e : exn)
| Rerun.
Arguments Ret {A} a.
Arguments Raise {A} e.
Arguments Rerun {A}.

(** The values the script handles.  An object carries its class name and
    its attributes in definition order; an attribute is a stored value or a
    property whose getter raises. *)
#[warnings="-register-all"]
Inductive pyval : Type :=
| VNone
| VBool (b : bool)
| VInt (z : Z)
| VFloat (q : Q)
| VStr (s : string)
| VList (l : list pyval)
| VObj (cls : string) (attrs : list (string * pyattr))
with pyattr : Type :=
| Stored (v : pyval)
| Faulty (e : exn).

Module Py.

Definition type_name (v : pyval) : string :=
  match v with
  | VNone => "NoneType"
  | VBool _ => "bool"
  | VInt _ => "int"
  | VFloat _ => "float"
  | VStr _ => "str"
  | VList _ => "list"
  | VObj cls _ => cls
  end.

(** [bool(v)].  Instances of plain classes are true. *)
Definition truthy (v : pyval) : bool :=
  match v with
  | VNone => false
  | VBool b => b
  | VInt z => negb (z =? 0)%Z
  | VFloat q => negb (Qeq_bool q 0)
  | VStr s => nonempty s
  | VList l => match l with [] => false | _ :: _ => true end
  | VObj _ _ => true
  end.

Definition isinstance_str (v : pyval) : bool :=
  match v with VStr _ => true | _ => false end.

Definition AttributeError (v : pyval) (name : string) : exn :=
  Exn "AttributeError"
      ("'" +:+ type_name v +:+ "' object has no attribute '" +:+ name +:+ "'").

Fixpoint assoc {A : Type} (name : string) (l : list (string * A)) : option A :=
  match l with
  | [] => None
  | (k, a) :: rest => if String.eqb k name then Some a else assoc name rest
  end.

(** [v.name], for the attribute names the script reads ([candidates],
    [content], [parts], [text]); no built-in type defines any of them. *)
Definition getattr (v : pyval) (name : string) : outcome pyval :=
  match v with
  | VObj _ attrs =>
      match assoc name attrs with
      | Some (Stored x) => Ret x
      | Some (Faulty e) => Raise e
      | None => Raise (AttributeError v name)
      end
  | _ => Raise (AttributeError v name)
  end.

(** [hasattr(v, name)]: false when the getter raises [AttributeError] or
    an exception of a class derived from it, any other exception of the
    getter passes through. *)
Definition hasattr (v : pyval) (name : string) : outcome bool :=
  match getattr v name with
  | Ret _ => Ret true
  | Raise e => if is_a e "AttributeError" then Ret false else Raise e
  | Rerun => Rerun
  end.

(** [v[0]]. *)
Definition first_item (v : pyval) : outcome pyval :=
  match v with
  | VList (x :: _) => Ret x
  | VList [] => Raise (Exception "IndexError" ["LookupError"] "list index out of range")
  | VStr (String c _) => Ret (VStr (String c EmptyString))
  | VStr EmptyString =>
      Raise (Exception "IndexError" ["LookupError"] "string index out of range")
  | _ => Raise (Exn "TypeError" ("'" +:+ type_name v +:+ "' object is not subscriptable"))
  end.

(** [str(v)].  The text of a float, a list or an object is not fixed by
    the script; [other] supplies it. *)
Definition str (other : pyval -> string) (v : pyval) : string :=
  match v with
  | VNone => "None"
  | VBool true => "True"
  | VBool false => "False"
  | VInt z => str_int z
  | VStr s => s
  | _ => other v
  end.

(** [float(z)] of an [int], as the integer the float denotes: the nearest
    number with 53 significant bits, ties to even, and [OverflowError] when
    that number does not fit the exponent range of a float. *)
Definition float_of_int (z : Z) : outcome Z :=
  let n := Z.abs z in
  let bits := if (n =? 0)%Z then 0%Z else (Z.log2 n + 1)%Z in
  let shift := (bits - 53)%Z in
  if (shift <=? 0)%Z then Ret z
  else
    let unit := (2 ^ shift)%Z in
    let m := (n / unit)%Z in
    let r := (n mod unit)%Z in
    let m' := if (2 * r <? unit)%Z then m
              else if (unit <? 2 * r)%Z then (m + 1)%Z
              else if Z.even m then m else (m + 1)%Z in
    let v := (m' * unit)%Z in
    if (2 ^ 1024 <=? v)%Z
    then Raise (Exception "OverflowError" ["ArithmeticError"]
                          "int too large to convert to float")
    else Ret (Z.sgn z * v)%Z.

(** [f"{v:.1f}"].  An [int] or a [bool] is converted to a float first. *)
Definition format_1f (v : pyval) : outcome string :=
  match v with
  | VInt z =>
      match float_of_int z with
      | Ret x => Ret (Text.format_1f (inject_Z x))
      | Raise e => Raise e
      | Rerun => Rerun
      end
  | VFloat q => Ret (Text.format_1f q)
  | VBool b => Ret (Text.format_1f (if b then 1%Q else 0%Q))
  | VStr _ => Raise (Exn "ValueError" "Unknown format code 'f' for object of type 'str'")
  | _ => Raise (Exn "TypeError"
                    ("unsupported format string passed to " +:+ type_name v +:+ ".__format__"))
  end.

(** [a == b] where [b] is a string. *)
Definition eq_str (a : pyval) (b : string) : bool :=
  match a with VStr s => String.eqb s b | _ => false end.

End Py.

(** Sequencing of [outcome]s, with stdpp's monad notation. *)
#[global] Instance outcome_ret : MRet outcome := fun _ a => Ret a.
#[global] Instance outcome_bind : MBind outcome := fun _ _ f m =>
  match m with
  | Ret a => f a
  | Raise e => Raise e
  | Rerun => Rerun
  end.

(** ** The analyzer object *)

(** An employee record is a [dict] with string keys, read with [.get]. *)
Abbreviation employee := (gmap string pyval).

(** [emp.get(key, fallback)]. *)
Definition dict_get (emp : employee) (key : string) (fallback : pyval) : pyval :=
  default fallback (emp !! key).

(** Modelled from the spec: the mapping returned by
    [HRAnalyzer.get_analytics_summary()], whose class is defined in
    [main.py], not among the sources.  It has the four keys the script
    reads, with the value types the spec gives them; the two inner mappings
    are kept in iteration order. *)
Record summary := {
  total_employees : Z;
  average_sentiment : Q;
  quadrant_distribution : list (string * Z);
  sentiment_by_role : list (string * Q)
}.

(** [mapping.get(key, 0)] on a mapping kept in iteration order. *)
Definition count_get (m : list (string * Z)) (key : string) : Z :=
  default 0%Z (Py.assoc key m).

(** The attributes of an [HRAnalyzer] instance that the script reads
    ([analyzer.data], and the two clients through [getattr]).  [None] stands
    for an attribute the instance does not have; an instance is true as any
    plain object, and [data], when present, is the list of loaded records. *)
Record HRAnalyzer := {
  data : option (list employee);
  gemini_client : option pyval;
  qdrant_client : option pyval
}.

(** [analyzer.data]. *)
Definition attr_data (a : HRAnalyzer) : outcome (list employee) :=
  match data a with
  | Some d => Ret d
  | None => Raise (Exn "AttributeError" "'HRAnalyzer' object has no attribute 'data'")
  end.

(** [getattr(analyzer, name, None)] for the two client attributes. *)
Definition getattr_or_None (field : option pyval) : pyval := default VNone field.

(** What the record store answers when [load_data] asks it. *)
Inductive store_reply :=
| Loaded (rows : list employee)
| NothingLoaded
| StoreFault (e : exn).

(** Modelled from the spec: [HRAnalyzer.load_data] is defined in [main.py],
    which is not among the sources.  The spec gives it as
    [load_data() -> success: bool], replacing the in-memory record set only
    on success; a failure is a false result or an exception. *)
Definition load_data (reply : store_reply) (a : HRAnalyzer) : outcome bool * HRAnalyzer :=
  match reply with
  | Loaded rows =>
      (Ret true, {| data := Some rows;
                    gemini_client := gemini_client a;
                    qdrant_client := qdrant_client a |})
  | NothingLoaded => (Ret false, a)
  | StoreFault e => (Raise e, a)
  end.

(** [counts[k] += 1] on a mapping kept in iteration order. *)
Fixpoint bump (k : string) (m : list (string * Z)) : list (string * Z) :=
  match m with
  | [] => [(k, 1%Z)]
  | (k', n) :: rest =>
      if String.eqb k' k then (k', (n + 1)%Z) :: rest else (k', n) :: bump k rest
  end.

(** Modelled from the spec: [HRAnalyzer.get_quadrant_distribution] is
    defined in [main.py], which is not among the sources.  The spec gives it
    as the mapping quadrant -> count derived from the current record set. *)
Definition get_quadrant_distribution (a : HRAnalyzer) : list (string * Z) :=
  fold_left (fun m emp =>
               match emp !! "quadrant" with
               | Some (VStr q) => bump q m
               | _ => m
               end)
            (default [] (data a)) [].

(** The answer of [analyze_with_ai]: a response value, or an exception. *)
Inductive ai_reply :=
| Answer (response : pyval)
| Failure (e : exn).

(** ** Rendering *)

Inductive place := Page | Sidebar | Column (i : nat).

Inductive element :=
| Header (s : string)
| Subheader (s : string)
| Markdown (s : string)
| Write (v : pyval)
| Info (s : string)
| Success (s : string)
| Warning (s : string)
| Error (s : string)
| Metric (label value : string) (delta : option string)
| Columns (widths : list nat)
| Button (label : string)
| TextArea (label : string)
| Spinner (text : string)
| Pie (values : list Z) (names : list string) (color_discrete_map : list (string * string))
| Bar (x : list string) (y : list Q) (marker_color : list string) (text : list string).

Inductive method :=
| m_load_data
| m_get_analytics_summary
| m_get_average_sentiment
| m_get_quadrant_distribution
| m_analyze_with_ai (question context : string).

(** One entry of the log of a run: something drawn, or a call of a method
    of the analyzer. *)
Inductive event :=
| Draw (p : place) (e : element)
| Call (m : method).

(** What [st.cache_resource] keeps of a call of [initialize_analyzer]: the
    tuple the call returned, and the sidebar elements the call drew, which
    Streamlit draws again on every later call. *)
Record cached := {
  cached_result : option HRAnalyzer * bool;
  cached_elements : list element
}.

(** Everything the script takes from outside during one run: the widget
    inputs of the browser, the behaviour of the analyzer's methods, and
    what the resource cache of the server holds for [initialize_analyzer]
    when the run starts ([None] before the first call in the process). *)
Record world := {
  clicked : string -> bool;
  text_area_value : string;
  get_analytics_summary : HRAnalyzer -> summary;
  get_average_sentiment : HRAnalyzer -> Q;
  analyze_with_ai : HRAnalyzer -> string -> string -> ai_reply;
  mysql : store_reply;
  str_other : pyval -> string;
  resource_cache : option cached
}.

(** [st.session_state]. *)
Record session := {
  analyzer : option HRAnalyzer;
  data_loaded : bool
}.

(** A piece of the script: reads the world, may change the session, logs
    what it draws and calls. *)
Definition UI (A : Type) : Type :=
  world -> session -> outcome A * session * list event.

#[global] Instance UI_ret : MRet UI := fun _ a _ s => (Ret a, s, []).
#[global] Instance UI_bind : MBind UI := fun _ _ f m w s =>
  match m w s with
  | (Ret a, s1, ev1) => let '(r, s2, ev2) := f a w s1 in (r, s2, (ev1 ++ ev2)%list)
  | (Raise e, s1, ev1) => (Raise e, s1, ev1)
  | (Rerun, s1, ev1) => (Rerun, s1, ev1)
  end.

Definition lift {A : Type} (r : outcome A) : UI A := fun _ s => (r, s, []).
Definition ask {A : Type} (f : world -> A) : UI A := fun w s => (Ret (f w), s, []).
Definition log (e : event) : UI unit := fun _ s => (Ret tt, s, [e]).
Definition draw (p : place) (e : element) : UI unit := log (Draw p e).

(** [try: body  except Exception as e: handler(e)]. *)
Definition try_except {A : Type} (body : UI A) (handler : exn -> UI A) : UI A :=
  fun w s =>
    match body w s with
    | (Raise e, s1, ev1) => let '(r, s2, ev2) := handler e w s1 in (r, s2, (ev1 ++ ev2)%list)
    | other => other
    end.

(** [for x in xs: body(x)]. *)
Fixpoint for_each {A : Type} (xs : list A) (body : A -> UI unit) : UI unit :=
  match xs with
  | [] => mret tt
  | x :: rest => body x ;; for_each rest body
  end.

Definition session_get_analyzer : UI (option HRAnalyzer) :=
  fun _ s => (Ret (analyzer s), s, []).

Definition set_data_loaded (b : bool) : UI unit :=
  fun _ s => (Ret tt, {| analyzer := analyzer s; data_loaded := b |}, []).

(** [st.button(label, key=...)]: draws the button and tells whether it was
    the one pressed.  [ident] is the [key], or the label when no key is
    given. *)
Definition st_button (p : place) (label ident : string) : UI bool :=
  draw p (Button label) ;; ask (fun w => clicked w ident).

Definition st_text_area (label : string) : UI string :=
  draw Page (TextArea label) ;; ask text_area_value.

Definition st_rerun : UI unit := fun _ s => (Rerun, s, []).

(** [f"{v}"]. *)
Definition fstr (v : pyval) : UI string := ask (fun w => Py.str (str_other w) v).

(** Calls of the analyzer's methods. *)
Definition call_get_analytics_summary (a : HRAnalyzer) : UI summary :=
  log (Call m_get_analytics_summary) ;; ask (fun w => get_analytics_summary w a).

Definition call_get_average_sentiment (a : HRAnalyzer) : UI Q :=
  log (Call m_get_average_sentiment) ;; ask (fun w => get_average_sentiment w a).

Definition call_get_quadrant_distribution (a : HRAnalyzer) : UI (list (string * Z)) :=
  log (Call m_get_quadrant_distribution) ;; mret (get_quadrant_distribution a).

Definition call_analyze_with_ai (a : HRAnalyzer) (question context : string) : UI pyval :=
  log (Call (m_analyze_with_ai question context)) ;;
  reply ← ask (fun w => analyze_with_ai w a question context);
  match reply with
  | Answer r => mret r
  | Failure e => lift (Raise e)
  end.

(** [analyzer.load_data()] on the analyzer held by the session: the object
    is shared, so what the call does to it is seen through the session. *)
Definition call_load_data (a : HRAnalyzer) : UI bool :=
  fun w s =>
    let '(r, a') := load_data (mysql w) a in
    (r, {| analyzer := Some a'; data_loaded := data_loaded s |}, [Call m_load_data]).

(** ** The functions of [app.py] *)

(** [get_employees_by_quadrant(analyzer, quadrant_name)].  The first
    argument is an analyzer or [None]. *)
Definition get_employees_by_quadrant
    (analyzer : option HRAnalyzer) (quadrant_name : string) : list employee :=
  match analyzer with
  | None => []
  | Some a =>
      match data a with
      | None => []
      | Some [] => []
      | Some d =>
          List.filter (fun emp => Py.eq_str (dict_get emp "quadrant" VNone) quadrant_name) d
      end
  end.

(** [display_employees(employees)]. *)
Definition display_employees (employees : list employee) : UI unit :=
  match employees with
  | [] => draw Page (Info "No employees found in this category.")
  | _ =>
      for_each employees (fun emp =>
        draw Page (Columns [1; 2; 1; 6]%nat) ;;
        id ← fstr (dict_get emp "id" (VStr "-"));
        draw (Column 0) (Markdown ("**ID:** " +:+ id)) ;;
        role ← fstr (dict_get emp "role" (VStr "-"));
        draw (Column 1) (Markdown ("**Role:** " +:+ role)) ;;
        score ← lift (Py.format_1f (dict_get emp "sentiment_score" (VInt 0)));
        draw (Column 2) (Markdown ("**Sentiment:** " +:+ score +:+ "%")) ;;
        draw (Column 3) (Write (dict_get emp "content" (VStr "-"))))
  end.

(** The body of the [try] of [extract_ai_text]. *)
Definition extract_ai_text_try (response : pyval) : outcome pyval :=
  if negb (Py.truthy response) then Ret VNone
  else if Py.isinstance_str response then Ret response
  else
    has_candidates ← Py.hasattr response "candidates";
    nonempty_candidates ←
      (if has_candidates : bool
       then c ← Py.getattr response "candidates"; mret (Py.truthy c)
       else mret false);
    found ←
      (if nonempty_candidates : bool
       then
         candidates ← Py.getattr response "candidates";
         candidate ← Py.first_item candidates;
         content ← Py.getattr candidate "content";
         parts ← Py.getattr content "parts";
         if Py.truthy parts
         then
           part ← Py.first_item parts;
           has_text ← Py.hasattr part "text";
           if has_text : bool
           then
             part' ← Py.first_item parts;
             text ← Py.getattr part' "text";
             mret (Some text)
           else mret None
         else mret None
       else mret None);
    match found with
    | Some text => Ret text
    | None =>
        has_text ← Py.hasattr response "text";
        if has_text : bool then Py.getattr response "text" else Ret VNone
    end.

(** [extract_ai_text(response)]: the body above under
    [except Exception as e]. *)
Definition extract_ai_text (response : pyval) : outcome pyval :=
  match extract_ai_text_try response with
  | Raise e => Ret (VStr ("⚠️ Extraction failed: " +:+ exn_msg e))
  | other => other
  end.

(** The text of one record in the context, [f"\n- {name} ({role}): ..."]. *)
Definition context_line (emp : employee) : UI string :=
  name ← fstr (dict_get emp "employee_name" (VStr "Unknown"));
  role ← fstr (dict_get emp "role" (VStr "-"));
  score ← lift (Py.format_1f (dict_get emp "sentiment_score" (VInt 0)));
  quadrant ← fstr (dict_get emp "quadrant" (VStr "-"));
  mret (nl +:+ "- " +:+ name +:+ " (" +:+ role +:+ "): " +:+ score +:+ "%, " +:+ quadrant).

(** The loop [for emp in ...: context += ...]. *)
Fixpoint context_loop (emps : list employee) (context : string) : UI string :=
  match emps with
  | [] => mret context
  | emp :: rest =>
      line ← context_line emp;
      context_loop rest (context +:+ line)
  end.

(** The head of the context, from the summary. *)
Definition context_head (s : summary) : string :=
  let quadrant_info :=
    join ", " (map (fun '(k, v) => k +:+ ": " +:+ str_int v) (quadrant_distribution s)) in
  let role_info :=
    join ", " (map (fun '(role, sent) => role +:+ ": " +:+ Text.format_1f sent +:+ "%")
                   (sentiment_by_role s)) in
  nl +:+ "    Total Employees: " +:+ str_int (total_employees s) +:+
  nl +:+ "    Average Sentiment: " +:+ Text.format_1f (average_sentiment s) +:+ "%" +:+
  nl +:+ "    Quadrant Distribution: " +:+ quadrant_info +:+
  nl +:+ "    Sentiment by Role: " +:+ role_info +:+
  nl +:+
  nl +:+ "    Example Employee Records:" +:+
  nl +:+ "    ".

(** [build_context(analyzer)]. *)
Definition build_context (a : HRAnalyzer) : UI string :=
  s ← call_get_analytics_summary a;
  let context := context_head s in
  d ← lift (attr_data a);
  context_loop (firstn 21 d) context.

(** [show_environment_status()]. *)
Definition show_environment_status : UI unit :=
  draw Sidebar (Subheader "🔧 System Status") ;;
  analyzer ← session_get_analyzer;
  match analyzer with
  | Some a =>
      draw Sidebar (Success "✅ Environment configured") ;;
      (if Py.truthy (getattr_or_None (gemini_client a))
       then draw Sidebar (Success "✅ Gemini AI connected")
       else mret tt) ;;
      (if Py.truthy (getattr_or_None (qdrant_client a))
       then draw Sidebar (Success "✅ Vector database connected")
       else draw Sidebar (Info "ℹ️ Vector database offline (optional)"))
  | None => draw Sidebar (Warning "ℹ️ Analyzer not initialized")
  end.

(** [bool(l)] of a list. *)
Definition nonempty_list {A : Type} (l : list A) : bool :=
  match l with [] => false | _ :: _ => true end.

(** [analyzer and analyzer.data], as a truth value. *)
Definition has_records (analyzer : option HRAnalyzer) : UI bool :=
  match analyzer with
  | None => mret false
  | Some a => d ← lift (attr_data a); mret (nonempty_list d)
  end.

(** [data_management_section()]. *)
Definition data_management_section : UI unit :=
  draw Page (Header "📂 Data Management") ;;
  analyzer ← session_get_analyzer;
  loaded ← has_records analyzer;
  match analyzer with
  | Some a =>
      if loaded : bool then
        d ← lift (attr_data a);
        let data_count := Z.of_nat (length d) in
        avg_sentiment ← call_get_average_sentiment a;
        draw Page (Columns [1; 1; 1]%nat) ;;
        draw (Column 0) (Metric "📊 Records Loaded" (str_int data_count) None) ;;
        draw (Column 1) (Metric "😊 Average Sentiment"
                                (Text.format_1f avg_sentiment +:+ "%") None) ;;
        quadrants ← call_get_quadrant_distribution a;
        let at_risk := count_get quadrants "At Risk" in
        draw (Column 2) (Metric "⚠️ At Risk Employees" (str_int at_risk) None)
      else mret tt
  | None => mret tt
  end ;;
  draw Page (Subheader "🔄 Refresh Data from MySQL") ;;
  pressed ← st_button Page "🔄 Reload Data" "🔄 Reload Data";
  if pressed : bool then
    match analyzer with
    | Some a =>
        try_except
          (reloaded ← call_load_data a;
           if reloaded : bool then
             set_data_loaded true ;;
             draw Page (Success "✅ Data reloaded successfully from MySQL!") ;;
             st_rerun
           else
             draw Page (Warning "⚠️ No data returned from MySQL or reload failed."))
          (fun e => draw Page (Error ("❌ Failed to reload: " +:+ exn_msg e)))
    | None => draw Page (Error "❌ Analyzer not initialized")
    end
  else mret tt.

(** The colour of one bar of the per-role chart. *)
Definition bar_color (s : Q) : string :=
  if gt s 70 then "#28a745" else if gt s 50 then "#ffc107" else "#dc3545".

(** The label under the average-sentiment metric. *)
Definition sentiment_label (average : Q) : string :=
  if gt average 60 then "Healthy" else "Needs Attention".

(** What the dashboard draws once the guard is passed. *)
Definition analytics_dashboard_body (a : HRAnalyzer) : UI unit :=
  s ← call_get_analytics_summary a;
  draw Page (Header "📊 Analytics Dashboard") ;;
  draw Page (Columns [1; 1; 1; 1]%nat) ;;
  draw (Column 0) (Metric "👥 Total Employees" (str_int (total_employees s)) None) ;;
  draw (Column 1) (Metric "😊 Average Sentiment"
                          (Text.format_1f (average_sentiment s) +:+ "%")
                          (Some (sentiment_label (average_sentiment s)))) ;;
  draw (Column 2) (Metric "🏆 Champions"
                          (str_int (count_get (quadrant_distribution s) "Champion")) None) ;;
  draw (Column 3) (Metric "⚠️ At Risk"
                          (str_int (count_get (quadrant_distribution s) "At Risk")) None) ;;
  draw Page (Columns [1; 1]%nat) ;;
  draw (Column 0) (Subheader "🥧 Employee Quadrant Distribution") ;;
  (let quadrant_data := quadrant_distribution s in
   if nonempty_list quadrant_data
   then draw (Column 0) (Pie (map snd quadrant_data) (map fst quadrant_data)
                             [ ("Champion", "#28a745");
                               ("Concerned but active", "#ffc107");
                               ("Potentially Isolated", "#fd7e14");
                               ("At Risk", "#dc3545") ])
   else mret tt) ;;
  draw (Column 1) (Subheader "📊 Sentiment by Role") ;;
  (let role_data := sentiment_by_role s in
   if nonempty_list role_data
   then
     let roles := map fst role_data in
     let sentiments := map snd role_data in
     let colors := map bar_color sentiments in
     draw (Column 1) (Bar roles sentiments colors
                          (map (fun s => Text.format_1f s +:+ "%") sentiments))
   else mret tt).

(** [analytics_dashboard()]. *)
Definition analytics_dashboard : UI unit :=
  analyzer ← session_get_analyzer;
  loaded ← has_records analyzer;
  match analyzer with
  | Some a =>
      if loaded : bool then analytics_dashboard_body a
      else draw Page (Info "📊 Load data from MySQL to see analytics dashboard")
  | None => draw Page (Info "📊 Load data from MySQL to see analytics dashboard")
  end.

(** The block the script repeats for the two AI quick queries and for the
    free-text query: call the AI under [try], unwrap, draw the result or
    the error under the given title. *)
Definition ai_answer (a : HRAnalyzer) (query context title : string) : UI unit :=
  try_except
    (response ← call_analyze_with_ai a query context;
     result ← lift (extract_ai_text response);
     draw Page (Subheader title) ;;
     if Py.truthy result
     then text ← fstr result; draw Page (Markdown text)
     else draw Page (Error "❌ AI analysis returned no content."))
    (fun e =>
       draw Page (Subheader title) ;;
       draw Page (Error ("❌ AI analysis failed: " +:+ exn_msg e))).

(** The heading and table of one quadrant. *)
Definition show_quadrant (a : HRAnalyzer) (heading quadrant : string) : UI unit :=
  let employees := get_employees_by_quadrant (Some a) quadrant in
  draw Page (Subheader (heading +:+ " Employees (" +:+
                        str_int (Z.of_nat (length employees)) +:+ ")")) ;;
  display_employees employees.

(** The dictionary [quadrant_keywords], in the order it is written. *)
Definition quadrant_keywords : list (string * string) :=
  [ ("champion", "Champion");
    ("at risk", "At Risk");
    ("concerned", "Concerned but active");
    ("isolated", "Potentially Isolated") ].

(** The loop over [quadrant_keywords.items()], left at the first keyword
    found in the query; the result is [quadrant_found]. *)
Fixpoint keyword_loop (a : HRAnalyzer) (items : list (string * string))
    (query : string) : UI bool :=
  match items with
  | [] => mret false
  | (kw, quad) :: rest =>
      if contains (lower kw) (lower query)
      then show_quadrant a ("📌 " +:+ quad) quad ;; mret true
      else keyword_loop a rest query
  end.

(** The part of [ai_analysis_interface] under [# Custom Query Section]. *)
Definition custom_query_section (a : HRAnalyzer) (context : string) : UI unit :=
  draw Page (Subheader "💬 Ask Custom Questions") ;;
  query ← st_text_area "Enter your question:";
  submitted ← (if nonempty query
               then st_button Page "🤖 Analyze" "custom_analysis"
               else mret false);
  if submitted : bool then
    quadrant_found ← keyword_loop a quadrant_keywords query;
    if negb quadrant_found then
      draw Page (Spinner "🤖 Generating AI insights...") ;;
      ai_answer a query context "🎯 AI Analysis Results"
    else mret tt
  else mret tt.

(** What the AI tab draws once the guard is passed. *)
Definition ai_analysis_interface_body (a : HRAnalyzer) : UI unit :=
  draw Page (Header "🤖 AI-Powered Analysis") ;;
  context ← build_context a;
  draw Page (Columns [1; 1; 1; 1]%nat) ;;
  show_champions ← st_button (Column 0) "🏆 Show Champions" "qa_champions";
  show_at_risk ← st_button (Column 1) "⚠️ Show At Risk" "qa_at_risk";
  show_engagement ← st_button (Column 2) "📈 Engagement Summary" "qa_engagement";
  show_retention ← st_button (Column 3) "🎯 Retention Insights" "qa_retention";
  (if show_champions : bool then show_quadrant a "🏆 Champion" "Champion" else mret tt) ;;
  (if show_at_risk : bool then show_quadrant a "⚠️ At Risk" "At Risk" else mret tt) ;;
  (if show_engagement : bool then
     draw Page (Spinner "🧠 Analyzing engagement...") ;;
     ai_answer a
       "What is the overall employee engagement status and key factors affecting it?"
       context "📈 Engagement Analysis"
   else mret tt) ;;
  (if show_retention : bool then
     draw Page (Spinner "🧠 Analyzing retention factors...") ;;
     ai_answer a
       "What factors might affect employee retention and what are your recommendations?"
       context "🎯 Retention Analysis"
   else mret tt) ;;
  custom_query_section a context.

(** [ai_analysis_interface()]. *)
Definition ai_analysis_interface : UI unit :=
  analyzer ← session_get_analyzer;
  loaded ← has_records analyzer;
  match analyzer with
  | Some a =>
      if loaded : bool then ai_analysis_interface_body a
      else draw Page (Info "🤖 Load data from MySQL to enable AI analysis")
  | None => draw Page (Info "🤖 Load data from MySQL to enable AI analysis")
  end.

(** ** The entry point *)

(** What [HRAnalyzer()] yields: an instance, or an exception. *)
Inductive construction :=
| Built (a : HRAnalyzer)
| ConstructionFault (e : exn).

(** [analyzer.load_data()] on an analyzer that no session holds yet: the
    call's result together with the object as the call leaves it. *)
Definition call_load_data_on (a : HRAnalyzer) : UI (bool * HRAnalyzer) :=
  fun w s =>
    let '(r, a') := load_data (mysql w) a in
    (match r with
     | Ret loaded => Ret (loaded, a')
     | Raise e => Raise e
     | Rerun => Rerun
     end, s, [Call m_load_data]).

(** The body of [initialize_analyzer], which runs when the resource cache
    holds no result yet.  [made] is what the constructor yields. *)
Definition initialize_analyzer (made : construction) : UI (option HRAnalyzer * bool) :=
  try_except
    (analyzer ← lift (match made with
                      | Built a => Ret a
                      | ConstructionFault e => Raise e
                      end);
     '(loaded, analyzer) ← call_load_data_on analyzer;
     if loaded : bool then
       draw Sidebar (Success "✅ Data loaded from MySQL successfully") ;;
       mret (Some analyzer, true)
     else
       draw Sidebar (Info "ℹ️ No data found in MySQL database") ;;
       mret (Some analyzer, false))
    (fun e =>
       draw Sidebar (Error ("❌ Failed to initialize: " +:+ exn_msg e)) ;;
       mret (None, false)).

(** The call [initialize_analyzer()] of the function as decorated with
    [@st.cache_resource]: the body runs only when the cache holds no result;
    otherwise the cached tuple is returned, neither the constructor nor
    [load_data] is called, and the elements recorded with the tuple are
    drawn again. *)
Definition cached_initialize_analyzer (made : construction) :
    UI (option HRAnalyzer * bool) :=
  kept ← ask resource_cache;
  match kept with
  | Some entry =>
      for_each (cached_elements entry) (draw Sidebar) ;;
      mret (cached_result entry)
  | None => initialize_analyzer made
  end.

(** The browser session as [main] sees it: whether the key [analyzer] is
    in [st.session_state] yet, and the state the views read. *)
Record browser := {
  initialized : bool;
  state : session
}.

(** What [main] puts on the page: the title, raw HTML, the tab bar, and
    what the functions above draw or call, outside the tabs or inside one. *)
Inductive page_event :=
| PageTitle (s : string)
| Html (s : string)
| Tabs (labels : list string)
| Outside (e : event)
| InTab (i : nat) (e : event).

(** A piece of [main]. *)
Definition Script (A : Type) : Type :=
  world -> browser -> outcome A * browser * list page_event.

#[global] Instance Script_ret : MRet Script := fun _ a _ b => (Ret a, b, []).
#[global] Instance Script_bind : MBind Script := fun _ _ f m w b =>
  match m w b with
  | (Ret a, b1, ev1) => let '(r, b2, ev2) := f a w b1 in (r, b2, (ev1 ++ ev2)%list)
  | (Raise e, b1, ev1) => (Raise e, b1, ev1)
  | (Rerun, b1, ev1) => (Rerun, b1, ev1)
  end.

Definition put (e : page_event) : Script unit := fun _ b => (Ret tt, b, [e]).

(** A function of the script run from [main], its log placed by [wrap]. *)
Definition embed {A : Type} (wrap : event -> page_event) (m : UI A) : Script A :=
  fun w b =>
    let '(r, s, ev) := m w (state b) in
    (r, {| initialized := initialized b; state := s |}, map wrap ev).

(** ['analyzer' not in st.session_state]. *)
Definition analyzer_not_in_session_state : Script bool :=
  fun _ b => (Ret (negb (initialized b)), b, []).

(** The two assignments to [st.session_state] in [main]. *)
Definition set_session (analyzer : option HRAnalyzer) (data_loaded : bool) : Script unit :=
  fun _ _ =>
    (Ret tt,
     {| initialized := true;
        state := {| analyzer := analyzer; data_loaded := data_loaded |} |},
     []).

(** [main()]. *)
Definition main (made : construction) : Script unit :=
  put (PageTitle "📊 HR Sentiment Analysis with AI") ;;
  embed Outside
    (draw Page (Markdown "**Advanced employee feedback analysis using AI-powered insights**")) ;;
  fresh ← analyzer_not_in_session_state;
  (if fresh : bool then
     '(analyzer, data_loaded) ← embed Outside (cached_initialize_analyzer made);
     set_session analyzer data_loaded
   else mret tt) ;;
  embed Outside show_environment_status ;;
  put (Tabs ["📂 Data Management"; "📊 Analytics Dashboard"; "🤖 AI Analysis"]) ;;
  embed (InTab 0) data_management_section ;;
  embed (InTab 1) analytics_dashboard ;;
  embed (InTab 2) ai_analysis_interface ;;
  embed Outside (draw Page (Markdown "---")) ;;
  put (Html ("<div style='text-align: center; color: #666; padding: 20px;'>" +:+
             "💡 Load SQL • 📊 View Analytics • 🤖 Get AI Insights • 🎯 Make Data-Driven Decisions" +:+
             "</div>")).

(** ** Vocabulary of the statements *)

(** Running a piece of the script: its outcome, the session it leaves and
    its log. *)
Definition result_of {A : Type} (r : outcome A * session * list event) : outcome A := r.1.1.
Definition session_of {A : Type} (r : outcome A * session * list event) : session := r.1.2.
Definition log_of {A : Type} (r : outcome A * session * list event) : list event := r.2.

(** The in-memory record set of an analyzer. *)
Definition records_of (a : HRAnalyzer) : list employee := default [] (data a).

(** [needle] occurs in [hay] as a substring. *)
Definition occurs (needle hay : string) : Prop :=
  exists before after, hay = before +:+ needle +:+ after.

(** The character [x] is the character [y], or the capital of the letter
    [y]. *)
Definition same_letter (x y : ascii) : bool :=
  Ascii.eqb x y ||
  ((97 <=? nat_of_ascii y)%nat && (nat_of_ascii y <=? 122)%nat &&
   Nat.eqb (nat_of_ascii x + 32) (nat_of_ascii y)).

(** [word] spells [kw], a word given in lower case, in some mix of upper
    and lower case. *)
Fixpoint spells (word kw : string) : bool :=
  match word, kw with
  | EmptyString, EmptyString => true
  | String x word', String y kw' => same_letter x y && spells word' kw'
  | _, _ => false
  end.

(** A text of ASCII characters none of which is a capital letter. *)
Fixpoint plain (kw : string) : bool :=
  match kw with
  | EmptyString => true
  | String c kw' =>
      (nat_of_ascii c <? 128)%nat &&
      negb ((65 <=? nat_of_ascii c)%nat && (nat_of_ascii c <=? 90)%nat) &&
      plain kw'
  end.

(** The calls of [analyze_with_ai] in a log, and the calls of any method. *)
Definition is_ai_call (e : event) : bool :=
  match e with Call (m_analyze_with_ai _ _) => true | _ => false end.

Definition ai_calls (ev : list event) : nat := length (List.filter is_ai_call ev).

Definition is_call (e : event) : bool :=
  match e with Call _ => true | Draw _ _ => false end.

Definition analyzer_calls (ev : list event) : nat := length (List.filter is_call ev).

(** The record's sentiment score is absent or a value [f"{...:.1f}"]
    formats: a float, a bool, or an int that converts to a float. *)
Definition numeric_score (emp : employee) : bool :=
  match Py.format_1f (dict_get emp "sentiment_score" (VInt 0)) with
  | Ret _ => true
  | _ => false
  end.

(** The score of such a record with one decimal. *)
Definition score_text (emp : employee) : string :=
  match Py.format_1f (dict_get emp "sentiment_score" (VInt 0)) with
  | Ret text => text
  | _ => EmptyString
  end.

(** A record of the context in the format [name (role): score%, quadrant]. *)
Definition record_text (w : world) (emp : employee) : string :=
  Py.str (str_other w) (dict_get emp "employee_name" (VStr "Unknown")) +:+ " (" +:+
  Py.str (str_other w) (dict_get emp "role" (VStr "-")) +:+ "): " +:+
  score_text emp +:+ "%, " +:+
  Py.str (str_other w) (dict_get emp "quadrant" (VStr "-")).

(** The records of the context, one per line. *)
Fixpoint record_lines (w : world) (emps : list employee) : string :=
  match emps with
  | [] => EmptyString
  | emp :: rest => (nl +:+ "- " +:+ record_text w emp) +:+ record_lines w rest
  end.

(** One row of the table: the columns id, role, sentiment, content. *)
Definition table_row (w : world) (emp : employee) : list event :=
  [ Draw Page (Columns [1; 2; 1; 6]%nat);
    Draw (Column 0)
         (Markdown ("**ID:** " +:+ Py.str (str_other w) (dict_get emp "id" (VStr "-"))));
    Draw (Column 1)
         (Markdown ("**Role:** " +:+ Py.str (str_other w) (dict_get emp "role" (VStr "-"))));
    Draw (Column 2) (Markdown ("**Sentiment:** " +:+ score_text emp +:+ "%"));
    Draw (Column 3) (Write (dict_get emp "content" (VStr "-"))) ].

Definition table (w : world) (emps : list employee) : list event :=
  concat (map (table_row w) emps).

(** What [display_employees] draws for records whose scores the format
    accepts: the notice for none, the table otherwise. *)
Definition employee_view (w : world) (emps : list employee) : list event :=
  match emps with
  | [] => [Draw Page (Info "No employees found in this category.")]
  | _ => table w emps
  end.

(** What [ai_answer] draws after the call, for each reply of the AI. *)
Definition answer_view (w : world) (title : string) (reply : ai_reply) : list event :=
  match reply with
  | Answer response =>
      match extract_ai_text response with
      | Ret result =>
          [ Draw Page (Subheader title);
            if Py.truthy result
            then Draw Page (Markdown (Py.str (str_other w) result))
            else Draw Page (Error "❌ AI analysis returned no content.") ]
      | _ => []
      end
  | Failure e =>
      [ Draw Page (Subheader title);
        Draw Page (Error ("❌ AI analysis failed: " +:+ exn_msg e)) ]
  end.

(** The colours of the bars, by name. *)
Definition green : string := "#28a745".
Definition amber : string := "#ffc107".
Definition red : string := "#dc3545".

(** The status lines of a log: what the sidebar reports as success, notice,
    warning or error. *)
Definition is_status_line (e : event) : bool :=
  match e with
  | Draw Sidebar (Success _) | Draw Sidebar (Info _)
  | Draw Sidebar (Warning _) | Draw Sidebar (Error _) => true
  | _ => false
  end.

Definition status_lines (ev : list event) : list event := List.filter is_status_line ev.

(** The session holds no analyzer, or one whose record set is empty. *)
Definition no_records (s : session) : Prop :=
  analyzer s = None \/ exists a, analyzer s = Some a /\ data a = Some [].

(** The button with identifier [k] is the one pressed in this run. *)
Definition pressed_only (w : world) (k : string) : Prop :=
  forall i, clicked w i = String.eqb i k.

(** What the AI tab draws before the custom query is looked at, when no
    quick button is pressed. *)
Definition ai_tab_frame : list event :=
  [ Draw Page (Header "🤖 AI-Powered Analysis");
    Call m_get_analytics_summary;
    Draw Page (Columns [1; 1; 1; 1]%nat);
    Draw (Column 0) (Button "🏆 Show Champions");
    Draw (Column 1) (Button "⚠️ Show At Risk");
    Draw (Column 2) (Button "📈 Engagement Summary");
    Draw (Column 3) (Button "🎯 Retention Insights");
    Draw Page (Subheader "💬 Ask Custom Questions");
    Draw Page (TextArea "Enter your question:");
    Draw Page (Button "🤖 Analyze") ].

(** The response exposes the chain candidates -> content -> parts whose
    first part has the attribute [text]. *)
Definition nested_text (response text : pyval) : Prop :=
  exists candidates candidate content parts part,
    Py.getattr response "candidates" = Ret candidates /\
    Py.truthy candidates = true /\
    Py.first_item candidates = Ret candidate /\
    Py.getattr candidate "content" = Ret content /\
    Py.getattr content "parts" = Ret parts /\
    Py.truthy parts = true /\
    Py.first_item parts = Ret part /\
    Py.getattr part "text" = Ret text.

(** The response has no attribute [candidates], or an empty one. *)
Definition no_candidates (response : pyval) : Prop :=
  Py.hasattr response "candidates" = Ret false \/
  exists candidates,
    Py.getattr response "candidates" = Ret candidates /\ Py.truthy candidates = false.

(** The first candidate of the response has parts, but they are empty or
    the first has no attribute [text]. *)
Definition no_part_text (response : pyval) : Prop :=
  exists candidates candidate content parts,
    Py.getattr response "candidates" = Ret candidates /\
    Py.truthy candidates = true /\
    Py.first_item candidates = Ret candidate /\
    Py.getattr candidate "content" = Ret content /\
    Py.getattr content "parts" = Ret parts /\
    (Py.truthy parts = false \/
     exists part, Py.first_item parts = Ret part /\ Py.hasattr part "text" = Ret false).

(** The text of the extraction-failure message for a fault. *)
Definition extraction_failure (e : exn) : pyval :=
  VStr ("⚠️ Extraction failed: " +:+ exn_msg e).

(** An outcome that is not the rerun signal. *)
Definition settled {A : Type} (o : outcome A) : Prop := o <> Rerun.

(** What the view draws above the reload button. *)
Definition reload_header (w : world) (a : HRAnalyzer) (d : list employee) : list event :=
  [ Draw Page (Header "📂 Data Management");
    Call m_get_average_sentiment;
    Draw Page (Columns [1; 1; 1]%nat);
    Draw (Column 0) (Metric "📊 Records Loaded" (str_int (Z.of_nat (length d))) None);
    Draw (Column 1) (Metric "😊 Average Sentiment"
                            (Text.format_1f (get_average_sentiment w a) +:+ "%") None);
    Call m_get_quadrant_distribution;
    Draw (Column 2) (Metric "⚠️ At Risk Employees"
                            (str_int (count_get (get_quadrant_distribution a) "At Risk"))
                            None);
    Draw Page (Subheader "🔄 Refresh Data from MySQL");
    Draw Page (Button "🔄 Reload Data") ].

(** The head of the AI tab: the heading, the summary call made for the
    context, and the row of the four quick buttons. *)
Definition quick_buttons : list event :=
  [ Draw Page (Header "🤖 AI-Powered Analysis");
    Call m_get_analytics_summary;
    Draw Page (Columns [1; 1; 1; 1]%nat);
    Draw (Column 0) (Button "🏆 Show Champions");
    Draw (Column 1) (Button "⚠️ Show At Risk");
    Draw (Column 2) (Button "📈 Engagement Summary");
    Draw (Column 3) (Button "🎯 Retention Insights") ].

(** The free-text box: the Analyze button is there only beside a
    non-empty text. *)
Definition custom_query_box (w : world) : list event :=
  [ Draw Page (Subheader "💬 Ask Custom Questions");
    Draw Page (TextArea "Enter your question:") ] ++
  (if nonempty (text_area_value w) then [Draw Page (Button "🤖 Analyze")] else []).

(** The two quick filters: button key, heading, quadrant. *)
Definition quick_filters : list (string * string * string) :=
  [ ("qa_champions", "🏆 Champion", "Champion");
    ("qa_at_risk", "⚠️ At Risk", "At Risk") ].

(** The two quick AI queries: button key, spinner text, question, title. *)
Definition quick_questions : list (string * string * string * string) :=
  [ ("qa_engagement", "🧠 Analyzing engagement...",
     "What is the overall employee engagement status and key factors affecting it?",
     "📈 Engagement Analysis");
    ("qa_retention", "🧠 Analyzing retention factors...",
     "What factors might affect employee retention and what are your recommendations?",
     "🎯 Retention Analysis") ].

(** The heading over a quadrant's employees. *)
Definition quadrant_heading (heading : string) (found : list employee) : event :=
  Draw Page (Subheader (heading +:+ " Employees (" +:+
                        str_int (Z.of_nat (length found)) +:+ ")")).

(** What a quick filter adds to the tab when its button is pressed. *)
Definition quick_filter_view (w : world) (a : HRAnalyzer)
    (key heading quadrant : string) : list event :=
  if clicked w key
  then quadrant_heading heading (get_employees_by_quadrant (Some a) quadrant)
       :: employee_view w (get_employees_by_quadrant (Some a) quadrant)
  else [].

(** What a quick AI query adds to the tab when its button is pressed. *)
Definition quick_answer_view (w : world) (a : HRAnalyzer)
    (context key spinner question title : string) : list event :=
  if clicked w key
  then Draw Page (Spinner spinner)
       :: Call (m_analyze_with_ai question context)
       :: answer_view w title (analyze_with_ai w a question context)
  else [].

(** The context built for an analyzer whose first 21 records have scores
    the format accepts. *)
Definition context_of (w : world) (a : HRAnalyzer) : string :=
  context_head (get_analytics_summary w a) +:+ record_lines w (firstn 21 (records_of a)).

(** The pieces of what [main] returns. *)
Definition page_result {A : Type} (r : outcome A * browser * list page_event) : outcome A :=
  r.1.1.
Definition page_browser {A : Type} (r : outcome A * browser * list page_event) : browser :=
  r.1.2.
Definition page_log {A : Type} (r : outcome A * browser * list page_event) :
    list page_event := r.2.


(** A call of [load_data] in the log of a view. *)
Definition is_load_call (e : event) : bool :=
  match e with Call m_load_data => true | _ => false end.

(** An error notice on the page. *)
Definition is_page_error (e : event) : bool :=
  match e with Draw Page (Error _) => true | _ => false end.

(** A chart. *)
Definition is_pie (e : event) : bool :=
  match e with Draw _ (Pie _ _ _) => true | _ => false end.
Definition is_bar (e : event) : bool :=
  match e with Draw _ (Bar _ _ _ _) => true | _ => false end.

(** A piece of the script whose outcome, log and final analyzer are the
    same in two sessions that hold the same analyzer, whatever their flags
    [data_loaded] are. *)
Definition ignores_flag {A : Type} (m : UI A) : Prop :=
  forall (w : world) (s1 s2 : session),
    analyzer s1 = analyzer s2 ->
    result_of (m w s1) = result_of (m w s2) /\
    log_of (m w s1) = log_of (m w s2) /\
    analyzer (session_of (m w s1)) = analyzer (session_of (m w s2)).

(** The part of [main] after the session is initialized: the status
    panel, the tabs and the footer. *)
Definition page_body : Script unit :=
  embed Outside show_environment_status ;;
  put (Tabs ["📂 Data Management"; "📊 Analytics Dashboard"; "🤖 AI Analysis"]) ;;
  embed (InTab 0) data_management_section ;;
  embed (InTab 1) analytics_dashboard ;;
  embed (InTab 2) ai_analysis_interface ;;
  embed Outside (draw Page (Markdown "---")) ;;
  put (Html ("<div style='text-align: center; color: #666; padding: 20px;'>" +:+
             "💡 Load SQL • 📊 View Analytics • 🤖 Get AI Insights • 🎯 Make Data-Driven Decisions" +:+
             "</div>")).

(** ** Sample data *)

Module Sample.

Definition record (id : Z) (name role : string) (score : Q) (quadrant : string) : employee :=
  <["id" := VInt id]> (<["employee_name" := VStr name]> (<["role" := VStr role]>
  (<["sentiment_score" := VFloat score]> (<["quadrant" := VStr quadrant]>
  (<["content" := VStr "Great team"]> ∅))))).

Definition ann := record 1 "Ann" "Engineer" (805 # 10)%Q "Champion".
Definition bob := record 2 "Bob" "Analyst" (30 # 1)%Q "At Risk".
Definition cho := record 3 "Cho" "Engineer" (545 # 10)%Q "Concerned but active".

Definition records : list employee := [ann; bob; cho].

Definition hr : HRAnalyzer :=
  {| data := Some records;
     gemini_client := Some (VObj "Client" []);
     qdrant_client := None |}.

Definition loaded : session := {| analyzer := Some hr; data_loaded := true |}.

Definition empty : session :=
  {| analyzer := Some {| data := Some []; gemini_client := None; qdrant_client := None |};
     data_loaded := false |}.

Definition uninitialized : session := {| analyzer := None; data_loaded := false |}.

Definition the_summary : summary :=
  {| total_employees := 3;
     average_sentiment := (55 # 1)%Q;
     quadrant_distribution := [("Champion", 1%Z); ("At Risk", 1%Z); ("Concerned but active", 1%Z)];
     sentiment_by_role := [("Engineer", (675 # 10)%Q); ("Analyst", (30 # 1)%Q)] |}.

(** A run in which the button [key] is pressed with [query] in the text
    area, and the record store answers [reply]. *)
Definition run (query key : string) (reply : store_reply) : world :=
  {| clicked := fun i => String.eqb i key;
     text_area_value := query;
     get_analytics_summary := fun _ => the_summary;
     get_average_sentiment := fun _ => (55 # 1)%Q;
     analyze_with_ai := fun _ _ _ => Answer (VStr "All is well.");
     mysql := reply;
     str_other := fun _ => "?";
     resource_cache := None |}.

(** A structured response with one candidate, and one whose only
    candidate has no content. *)
Definition structured : pyval :=
  VObj "GenerateContentResponse"
    [("candidates",
      Stored (VList [VObj "Candidate"
        [("content",
          Stored (VObj "Content"
            [("parts", Stored (VList [VObj "Part" [("text", Stored (VStr "leaf"))]]))]))]]))].

Definition broken : pyval :=
  VObj "GenerateContentResponse"
    [("candidates", Stored (VList [VObj "Candidate" []]));
     ("text", Stored (VStr "direct"))].

Definition text_only : pyval := VObj "Reply" [("text", Stored (VStr "direct"))].

Definition blocked : pyval :=
  VObj "GenerateContentResponse"
    [("text", Faulty (Exn "ValueError" "response has no valid part"))].

End Sample.

(** ** Further sample data *)

Module Scenario.

(** A run like [Sample.run] in which the AI gives [reply]. *)
Definition run (query key : string) (reply : ai_reply) (store : store_reply) : world :=
  {| clicked := fun i => String.eqb i key;
     text_area_value := query;
     get_analytics_summary := fun _ => Sample.the_summary;
     get_average_sentiment := fun _ => (55 # 1)%Q;
     analyze_with_ai := fun _ _ _ => reply;
     mysql := store;
     str_other := fun _ => "?";
     resource_cache := None |}.

Definition timeout : ai_reply := Failure (Exn "TimeoutError" "deadline exceeded").

(** A record without any of the keys the script reads, and one whose score
    is [None]. *)
Definition blank : employee := ∅.

Definition unscored : employee :=
  <["employee_name" := VStr "Dee"]> (<["role" := VStr "Analyst"]>
  (<["sentiment_score" := VNone]> (<["quadrant" := VStr "At Risk"]> ∅))).

(** A record whose score is the int 2^53 + 1, which no float denotes, and
    an analyzer that holds it. *)
Definition rounded : employee :=
  <["id" := VInt 7]> (<["role" := VStr "Analyst"]>
  (<["sentiment_score" := VInt 9007199254740993]> (<["quadrant" := VStr "Champion"]> ∅))).

Definition rounding : HRAnalyzer :=
  {| data := Some [rounded];
     gemini_client := Some (VObj "Client" []);
     qdrant_client := None |}.

(** An analyzer whose second record has the score [None], and a session
    that holds it. *)
Definition half_scored : HRAnalyzer :=
  {| data := Some [Sample.bob; unscored];
     gemini_client := Some (VObj "Client" []);
     qdrant_client := None |}.

Definition holding (a : HRAnalyzer) : session :=
  {| analyzer := Some a; data_loaded := true |}.

Definition with_records (records : list employee) : session :=
  {| analyzer := Some {| data := Some records;
                         gemini_client := Some (VObj "Client" []);
                         qdrant_client := None |};
     data_loaded := true |}.

(** A summary with nothing to chart. *)
Definition no_charts : summary :=
  {| total_employees := 0;
     average_sentiment := 0%Q;
     quadrant_distribution := [];
     sentiment_by_role := [] |}.

(** An analyzer as the constructor leaves it, a browser session before the
    first run of [main], and one whose initialization has failed. *)
Definition bare : HRAnalyzer :=
  {| data := Some []; gemini_client := Some (VObj "Client" []); qdrant_client := None |}.

(** A run of a later session of the same process: the resource cache
    holds the analyzer with its records and the success line of the first
    call, and the record store is not reachable any more. *)
Definition later : world :=
  {| clicked := fun _ => false;
     text_area_value := EmptyString;
     get_analytics_summary := fun _ => Sample.the_summary;
     get_average_sentiment := fun _ => (55 # 1)%Q;
     analyze_with_ai := fun _ _ _ => Answer (VStr "All is well.");
     mysql := StoreFault (Exn "ConnectionError" "database unreachable");
     str_other := fun _ => "?";
     resource_cache :=
       Some {| cached_result := (Some Sample.hr, true);
               cached_elements := [Success "✅ Data loaded from MySQL successfully"] |} |}.

Definition fresh : browser :=
  {| initialized := false; state := {| analyzer := None; data_loaded := false |} |}.

Definition failed : browser :=
  {| initialized := true; state := Sample.uninitialized |}.

Definition started : browser :=
  {| initialized := true; state := Sample.loaded |}.

End Scenario.

(** * Properties *)

(** ** The model on concrete inputs *)

Example format_1f_ties :
  Text.format_1f (1 # 4)%Q = "0.2" /\ Text.format_1f (3 # 4)%Q = "0.8" /\
  Text.format_1f (55 # 1)%Q = "55.0" /\ Text.format_1f (-1 # 25)%Q = "-0.0" /\
  Text.format_1f (7249 # 100)%Q = "72.5" /\ Text.format_1f (995 # 100)%Q = "10.0".
Proof. repeat split. Qed.

Example lower_query : lower "Show me At RISK employees" = "show me at risk employees".
Proof. reflexivity. Qed.

(** KELVIN SIGN (U+212A) becomes the letter k; LATIN CAPITAL LETTER I WITH
    DOT ABOVE (U+0130) becomes i followed by a combining dot. *)
Example lower_kelvin_sign :
  lower "Who is at risK?" = "who is at risk?" /\
  contains "at risk" (lower "Who is at risK?") = true /\
  contains "isolated" (lower "İSOLATED") = false.
Proof. repeat split. Qed.

Example format_1f_of_int :
  Py.format_1f (VInt 72) = Ret "72.0" /\
  Py.format_1f (VInt (2 ^ 53 + 1)) = Ret "9007199254740992.0" /\
  Py.format_1f (VInt (2 ^ 53 + 3)) = Ret "9007199254740996.0" /\
  Py.format_1f (VInt (- (2 ^ 60 + 1))) = Ret "-1152921504606846976.0" /\
  Py.format_1f (VInt (10 ^ 400))
  = Raise (Exception "OverflowError" ["ArithmeticError"]
                     "int too large to convert to float") /\
  Py.format_1f (VInt (2 ^ 1024 - 2 ^ 970))
  = Raise (Exception "OverflowError" ["ArithmeticError"]
                     "int too large to convert to float") /\
  Py.format_1f (VBool true) = Ret "1.0".
Proof. repeat split; vm_compute; reflexivity. Qed.

Example contains_keyword :
  contains "at risk" "show me at risk employees" = true /\
  contains "champion" "show me at risk employees" = false.
Proof. split; reflexivity. Qed.

Example sample_distribution :
  get_quadrant_distribution Sample.hr
  = [("Champion", 1%Z); ("At Risk", 1%Z); ("Concerned but active", 1%Z)].
Proof. reflexivity. Qed.

Example sample_free_text_goes_to_ai :
  ai_calls (log_of (ai_analysis_interface
                      (Sample.run "How is morale?" "custom_analysis" NothingLoaded)
                      Sample.loaded)) = 1%nat.
Proof. reflexivity. Qed.

Example sample_status_panel :
  log_of (show_environment_status (Sample.run EmptyString "none" NothingLoaded) Sample.loaded)
  = [ Draw Sidebar (Subheader "🔧 System Status");
      Draw Sidebar (Success "✅ Environment configured");
      Draw Sidebar (Success "✅ Gemini AI connected");
      Draw Sidebar (Info "ℹ️ Vector database offline (optional)") ].
Proof. reflexivity. Qed.

Example sample_reload_success :
  result_of (data_management_section
               (Sample.run EmptyString "🔄 Reload Data" (Loaded [Sample.ann]))
               Sample.loaded) = Rerun.
Proof. reflexivity. Qed.

(** ** Text *)

Section TextFacts.

Lemma app_cons (c : ascii) (s t : string) : String c s +:+ t = String c (s +:+ t).
Proof. reflexivity. Qed.

Lemma app_empty (t : string) : EmptyString +:+ t = t.
Proof. reflexivity. Qed.

Lemma prefix_app (needle hay : string) :
  String.prefix needle hay = true <-> exists after, hay = needle +:+ after.
Proof.
  revert hay. induction needle as [| c needle IH]; intros hay; simpl.
  - destruct hay; split; eauto.
  - destruct hay as [| c' hay]; simpl.
    + split; [discriminate | intros [after H]; discriminate].
    + destruct (ascii_dec c c') as [-> | Hne].
      * rewrite IH. split; intros [after H]; exists after;
          rewrite app_cons in *; congruence.
      * split; [discriminate | intros [after H]; rewrite app_cons in H; congruence].
Qed.

Lemma contains_cons (needle : string) (c : ascii) (hay : string) :
  contains needle (String c hay) =
  String.prefix needle (String c hay) || contains needle hay.
Proof. reflexivity. Qed.

Lemma contains_nil (needle : string) :
  contains needle EmptyString = String.prefix needle EmptyString.
Proof. unfold contains. apply orb_false_r. Qed.

Lemma contains_occurs (needle hay : string) :
  contains needle hay = true <-> occurs needle hay.
Proof.
  unfold occurs. split.
  - induction hay as [| c hay IH].
    + rewrite contains_nil. intros H. apply prefix_app in H as [after H].
      exists EmptyString, after. exact H.
    + rewrite contains_cons. intros H. apply orb_true_iff in H as [H | H].
      * apply prefix_app in H as [after H]. exists EmptyString, after. exact H.
      * destruct (IH H) as (before & after & ->).
        exists (String c before), after. reflexivity.
  - intros (before & after & ->). induction before as [| c before IH].
    + assert (Hp : String.prefix needle (needle +:+ after) = true)
        by (apply prefix_app; eauto).
      rewrite app_empty.
      destruct (needle +:+ after); [rewrite contains_nil | rewrite contains_cons];
        rewrite Hp; reflexivity.
    + rewrite app_cons, contains_cons, IH. apply orb_true_r.
Qed.

Lemma contains_not_occurs (needle hay : string) :
  contains needle hay = false <-> ~ occurs needle hay.
Proof.
  rewrite <- contains_occurs. destruct (contains needle hay); split; congruence.
Qed.

Lemma gt_spec (a b : Q) : gt a b = true <-> (b < a)%Q.
Proof.
  unfold gt. rewrite negb_true_iff. split.
  - intros H. apply Qnot_le_lt. intros Hle. apply Qle_bool_iff in Hle. congruence.
  - intros H. destruct (Qle_bool a b) eqn:E; [| reflexivity].
    apply Qle_bool_iff in E. exfalso. exact (Qlt_not_le _ _ H E).
Qed.

Lemma gt_false (a b : Q) : gt a b = false <-> (a <= b)%Q.
Proof.
  unfold gt. rewrite negb_false_iff. apply Qle_bool_iff.
Qed.

End TextFacts.

(** ** The render monad *)

Section RenderFacts.

Context {A B : Type}.

Lemma bind_ret (m : UI A) (f : A -> UI B) w s a s1 ev1 :
  m w s = (Ret a, s1, ev1) ->
  (m ≫= f) w s = (let '(r, s2, ev2) := f a w s1 in (r, s2, (ev1 ++ ev2)%list)).
Proof. intros H. unfold mbind, UI_bind. rewrite H. reflexivity. Qed.

Lemma for_each_log (xs : list A) (body : A -> UI unit) (rows : A -> list event) w s :
  Forall (fun x => body x w s = (Ret tt, s, rows x)) xs ->
  for_each xs body w s = (Ret tt, s, concat (map rows xs)).
Proof.
  induction 1 as [| x xs Hx _ IH]; [reflexivity |].
  simpl for_each. unfold mbind, UI_bind. rewrite Hx, IH. reflexivity.
Qed.

End RenderFacts.

(** ** Filtering and the table *)

Section Table.

Lemma format_1f_numeric (emp : employee) :
  numeric_score emp = true ->
  Py.format_1f (dict_get emp "sentiment_score" (VInt 0)) = Ret (score_text emp).
Proof.
  unfold numeric_score, score_text.
  destruct (Py.format_1f (dict_get emp "sentiment_score" (VInt 0)));
    try discriminate; reflexivity.
Qed.

Lemma display_row w s (emp : employee) :
  numeric_score emp = true ->
  (draw Page (Columns [1; 2; 1; 6]%nat) ;;
   id ← fstr (dict_get emp "id" (VStr "-"));
   draw (Column 0) (Markdown ("**ID:** " +:+ id)) ;;
   role ← fstr (dict_get emp "role" (VStr "-"));
   draw (Column 1) (Markdown ("**Role:** " +:+ role)) ;;
   score ← lift (Py.format_1f (dict_get emp "sentiment_score" (VInt 0)));
   draw (Column 2) (Markdown ("**Sentiment:** " +:+ score +:+ "%")) ;;
   draw (Column 3) (Write (dict_get emp "content" (VStr "-")))) w s
  = (Ret tt, s, table_row w emp).
Proof.
  intros H. unfold mbind, UI_bind, lift. rewrite (format_1f_numeric _ H). reflexivity.
Qed.

Lemma display_employees_empty w s :
  display_employees [] w s = (Ret tt, s, [Draw Page (Info "No employees found in this category.")]).
Proof. reflexivity. Qed.

Lemma display_employees_table w s (emps : list employee) :
  emps <> [] ->
  Forall (fun emp => numeric_score emp = true) emps ->
  display_employees emps w s = (Ret tt, s, table w emps).
Proof.
  intros Hne Hnum. destruct emps as [| e emps]; [congruence |].
  unfold display_employees, table. apply for_each_log.
  eapply Forall_impl; [exact Hnum |]. intros emp. apply display_row.
Qed.

Lemma format_1f_fault (emp : employee) :
  numeric_score emp = false ->
  exists e, Py.format_1f (dict_get emp "sentiment_score" (VInt 0)) = Raise e.
Proof.
  unfold numeric_score, Py.format_1f.
  destruct (dict_get emp "sentiment_score" (VInt 0)); try discriminate; eauto.
  unfold Py.float_of_int.
  repeat match goal with
         | |- context [if ?c then _ else _] => destruct c
         end; try discriminate; eauto.
Qed.

(** The table breaks off in the row of the first record whose score the
    format refuses. *)
Lemma display_employees_fault w s (good rest : list employee) (bad : employee) (e : exn) :
  Forall (fun emp => numeric_score emp = true) good ->
  Py.format_1f (dict_get bad "sentiment_score" (VInt 0)) = Raise e ->
  display_employees (good ++ bad :: rest) w s
  = (Raise e, s,
     (table w good ++
      [ Draw Page (Columns [1; 2; 1; 6]%nat);
        Draw (Column 0)
             (Markdown ("**ID:** " +:+ Py.str (str_other w) (dict_get bad "id" (VStr "-"))));
        Draw (Column 1)
             (Markdown ("**Role:** " +:+
                        Py.str (str_other w) (dict_get bad "role" (VStr "-")))) ])%list).
Proof.
  intros Hgood He.
  assert (Hloop : forall body,
             body = (fun emp : employee =>
               draw Page (Columns [1; 2; 1; 6]%nat) ;;
               id ← fstr (dict_get emp "id" (VStr "-"));
               draw (Column 0) (Markdown ("**ID:** " +:+ id)) ;;
               role ← fstr (dict_get emp "role" (VStr "-"));
               draw (Column 1) (Markdown ("**Role:** " +:+ role)) ;;
               score ← lift (Py.format_1f (dict_get emp "sentiment_score" (VInt 0)));
               draw (Column 2) (Markdown ("**Sentiment:** " +:+ score +:+ "%")) ;;
               draw (Column 3) (Write (dict_get emp "content" (VStr "-")))) ->
             for_each (good ++ bad :: rest) body w s
             = (Raise e, s,
                (table w good ++
                 [ Draw Page (Columns [1; 2; 1; 6]%nat);
                   Draw (Column 0)
                        (Markdown ("**ID:** " +:+
                                   Py.str (str_other w) (dict_get bad "id" (VStr "-"))));
                   Draw (Column 1)
                        (Markdown ("**Role:** " +:+
                                   Py.str (str_other w) (dict_get bad "role" (VStr "-")))) ])%list)).
  { intros body ->. induction Hgood as [| emp good Hemp _ IH].
    - simpl for_each. unfold mbind, UI_bind, fstr, ask, draw, log, lift.
      rewrite He. reflexivity.
    - simpl app. simpl for_each. unfold mbind at 1, UI_bind at 1.
      rewrite (display_row w s emp Hemp). rewrite IH. reflexivity. }
  unfold display_employees. destruct good; simpl app; apply Hloop; reflexivity.
Qed.

(** A list with a record the format refuses splits at the first such
    record. *)
Lemma first_bad_score (emps : list employee) (emp : employee) :
  In emp emps -> numeric_score emp = false ->
  exists good bad rest,
    emps = (good ++ bad :: rest)%list /\
    Forall (fun emp => numeric_score emp = true) good /\
    numeric_score bad = false.
Proof.
  induction emps as [| x emps IH]; intros Hin Hbad; [destruct Hin |].
  destruct (numeric_score x) eqn:Hx.
  - destruct Hin as [-> | Hin]; [congruence |].
    destruct (IH Hin Hbad) as (good & bad & rest & -> & Hgood & Hb).
    exists (x :: good), bad, rest. split; [reflexivity |]. split; [| exact Hb].
    constructor; assumption.
  - exists [], x, emps. split; [reflexivity |]. split; [constructor | exact Hx].
Qed.

Lemma filter_quadrant (a : HRAnalyzer) (d : list employee) (q : string) :
  data a = Some d ->
  get_employees_by_quadrant (Some a) q =
  List.filter (fun emp => Py.eq_str (dict_get emp "quadrant" VNone) q) d.
Proof.
  intros H. unfold get_employees_by_quadrant. rewrite H. destruct d; reflexivity.
Qed.

Lemma eq_str_spec (v : pyval) (q : string) : Py.eq_str v q = true <-> v = VStr q.
Proof.
  destruct v; simpl; try (split; [discriminate | congruence]).
  rewrite String.eqb_eq. split; congruence.
Qed.

End Table.

(** ** The quadrant distribution *)

Section Distribution.

Lemma count_get_bump (k q : string) (m : list (string * Z)) :
  count_get (bump k m) q = (count_get m q + (if String.eqb k q then 1 else 0))%Z.
Proof.
  unfold count_get. induction m as [| [k' n] m IH]; simpl.
  - destruct (String.eqb k q); reflexivity.
  - destruct (String.eqb k' k) eqn:Ek; simpl.
    + apply String.eqb_eq in Ek as ->. destruct (String.eqb k q); simpl; lia.
    + destruct (String.eqb k' q) eqn:Eq; [| exact IH].
      apply String.eqb_eq in Eq as ->.
      rewrite String.eqb_sym, Ek. simpl. lia.
Qed.

Lemma count_get_tally (d : list employee) (q : string) (m : list (string * Z)) :
  count_get
    (fold_left (fun m emp =>
                  match emp !! "quadrant" with
                  | Some (VStr q) => bump q m
                  | _ => m
                  end) d m) q
  = (count_get m q +
     Z.of_nat (length (List.filter
                         (fun emp => Py.eq_str (dict_get emp "quadrant" VNone) q) d)))%Z.
Proof.
  revert m. induction d as [| emp d IH]; intros m; simpl.
  - lia.
  - rewrite IH. unfold dict_get.
    destruct (emp !! "quadrant") as [[] |]; simpl; try lia.
    rewrite count_get_bump. destruct (String.eqb s q); simpl length; lia.
Qed.

End Distribution.

(** ** C5: the quadrant filter and the table *)

(** C5, as stated, fails: a filtered result that is not empty need not be
    drawn as a table.  Of the two At Risk records of this analyzer the
    second has the score [None]; the row of the first is drawn, and the row
    of the second breaks off after its role with the [TypeError] of the
    format. *)
Lemma quadrant_filter_counterexample :
  get_employees_by_quadrant (Some Scenario.half_scored) "At Risk"
  = [Sample.bob; Scenario.unscored] /\
  display_employees (get_employees_by_quadrant (Some Scenario.half_scored) "At Risk")
    (Sample.run EmptyString "qa_at_risk" NothingLoaded)
    (Scenario.holding Scenario.half_scored)
  = (Raise (Exn "TypeError" "unsupported format string passed to NoneType.__format__"),
     Scenario.holding Scenario.half_scored,
     (table (Sample.run EmptyString "qa_at_risk" NothingLoaded) [Sample.bob] ++
      [ Draw Page (Columns [1; 2; 1; 6]%nat);
        Draw (Column 0) (Markdown "**ID:** -");
        Draw (Column 1) (Markdown "**Role:** Analyst") ])%list).
Proof. split; reflexivity. Qed.

(** C5, amended.  For every quadrant name and record set,
    [get_employees_by_quadrant] returns exactly the records whose quadrant
    field equals the name, in load order; their number is the distribution's
    count for that quadrant; an empty result is drawn as the notice "No
    employees found in this category."; a non-empty one whose records all
    have a sentiment score that is absent or that the format accepts is
    drawn as rows with the columns id, role, sentiment, content; and when
    one of its records has another score, [display_employees] raises the
    format fault of such a record instead of completing the table. *)
Theorem quadrant_filter_exact (a : HRAnalyzer) (q : string) (w : world) (s : session) :
  let found := get_employees_by_quadrant (Some a) q in
  found = List.filter (fun emp => Py.eq_str (dict_get emp "quadrant" VNone) q) (records_of a) /\
  (forall emp : employee,
      In emp found <-> In emp (records_of a) /\ emp !! "quadrant" = Some (VStr q)) /\
  Z.of_nat (length found) = count_get (get_quadrant_distribution a) q /\
  (found = [] ->
   display_employees found w s =
   (Ret tt, s, [Draw Page (Info "No employees found in this category.")])) /\
  (found <> [] ->
   Forall (fun emp => numeric_score emp = true) found ->
   display_employees found w s = (Ret tt, s, table w found)) /\
  (forall emp : employee,
      In emp found -> numeric_score emp = false ->
      exists bad e,
        In bad found /\
        Py.format_1f (dict_get bad "sentiment_score" (VInt 0)) = Raise e /\
        result_of (display_employees found w s) = Raise e).
Proof.
  intros found.
  assert (Hfilter : found =
            List.filter (fun emp => Py.eq_str (dict_get emp "quadrant" VNone) q) (records_of a)).
  { subst found. unfold records_of, get_employees_by_quadrant.
    destruct (data a) as [[| e d] |]; reflexivity. }
  split; [exact Hfilter |]. split; [| split; [| split; [| split]]].
  - intros emp. rewrite Hfilter, filter_In, eq_str_spec. unfold dict_get.
    destruct (emp !! "quadrant") as [v |]; simpl;
      split; intros [Hin Hq]; split; try assumption; congruence.
  - rewrite Hfilter. unfold get_quadrant_distribution, records_of.
    rewrite count_get_tally. reflexivity.
  - intros ->. apply display_employees_empty.
  - apply display_employees_table.
  - intros emp Hin Hbad.
    destruct (first_bad_score found emp Hin Hbad) as (good & bad & rest & -> & Hgood & Hb).
    destruct (format_1f_fault bad Hb) as [e He]. exists bad, e.
    split; [apply in_elt |]. split; [exact He |].
    rewrite (display_employees_fault w s good rest bad e Hgood He). reflexivity.
Qed.

(** The Champion table of the sample analyzer: one row, as the distribution
    counts.  And the row of a record whose score is the int 2^53 + 1: the
    format converts it to the nearest float first. *)
Lemma quadrant_filter_exact_witness :
  get_employees_by_quadrant (Some Sample.hr) "Champion" = [Sample.ann] /\
  count_get (get_quadrant_distribution Sample.hr) "Champion" = 1%Z /\
  display_employees (get_employees_by_quadrant (Some Sample.hr) "Champion")
    (Sample.run EmptyString "qa_champions" NothingLoaded) Sample.loaded
  = (Ret tt, Sample.loaded,
     [ Draw Page (Columns [1; 2; 1; 6]%nat);
       Draw (Column 0) (Markdown "**ID:** 1");
       Draw (Column 1) (Markdown "**Role:** Engineer");
       Draw (Column 2) (Markdown "**Sentiment:** 80.5%");
       Draw (Column 3) (Write (VStr "Great team")) ]) /\
  display_employees (get_employees_by_quadrant (Some Scenario.rounding) "Champion")
    (Sample.run EmptyString "qa_champions" NothingLoaded)
    (Scenario.holding Scenario.rounding)
  = (Ret tt, Scenario.holding Scenario.rounding,
     [ Draw Page (Columns [1; 2; 1; 6]%nat);
       Draw (Column 0) (Markdown "**ID:** 7");
       Draw (Column 1) (Markdown "**Role:** Analyst");
       Draw (Column 2) (Markdown "**Sentiment:** 9007199254740992.0%");
       Draw (Column 3) (Write (VStr "-")) ]).
Proof.
  pose proof (quadrant_filter_exact Sample.hr "Champion"
                (Sample.run EmptyString "qa_champions" NothingLoaded) Sample.loaded)
    as (_ & _ & Hcount & _ & Htable & _).
  pose proof (quadrant_filter_exact Scenario.rounding "Champion"
                (Sample.run EmptyString "qa_champions" NothingLoaded)
                (Scenario.holding Scenario.rounding))
    as (_ & _ & _ & _ & Hrounded & _).
  split; [reflexivity |]. split; [| split].
  - rewrite <- Hcount. reflexivity.
  - rewrite Htable; [reflexivity | discriminate | repeat constructor].
  - rewrite Hrounded; [reflexivity | discriminate | repeat constructor].
Defined.

(** ** C10: the filter needs no populated analyzer *)

(** C10.  [get_employees_by_quadrant] returns the empty list, and raises
    nothing, when the analyzer is [None], has no attribute [data], or has
    empty data. *)
Theorem get_employees_by_quadrant_total (analyzer : option HRAnalyzer) (q : string) :
  (analyzer = None \/
   exists a, analyzer = Some a /\ (data a = None \/ data a = Some [])) ->
  get_employees_by_quadrant analyzer q = [].
Proof.
  intros [-> | (a & -> & [H | H])]; unfold get_employees_by_quadrant;
    [reflexivity | rewrite H; reflexivity | rewrite H; reflexivity].
Qed.

Lemma get_employees_by_quadrant_total_witness :
  get_employees_by_quadrant None "Champion" = [] /\
  get_employees_by_quadrant
    (Some {| data := None; gemini_client := None; qdrant_client := None |}) "At Risk" = [] /\
  get_employees_by_quadrant (analyzer Sample.empty) "Champion" = [].
Proof.
  split; [| split]; apply get_employees_by_quadrant_total.
  - left. reflexivity.
  - right. eexists. split; [reflexivity |]. left. reflexivity.
  - right. eexists. split; [reflexivity |]. right. reflexivity.
Defined.

(** ** C7: the two guarded views without records *)

(** C7.  When the session holds no analyzer, or one with an empty record
    set, the dashboard and the AI tab each draw their placeholder and
    nothing else, return normally, leave the session as it is and call no
    method of the analyzer; no context is built. *)
Theorem placeholder_without_records (w : world) (s : session) :
  no_records s ->
  analytics_dashboard w s =
    (Ret tt, s, [Draw Page (Info "📊 Load data from MySQL to see analytics dashboard")]) /\
  ai_analysis_interface w s =
    (Ret tt, s, [Draw Page (Info "🤖 Load data from MySQL to enable AI analysis")]) /\
  analyzer_calls (log_of (analytics_dashboard w s)) = 0%nat /\
  analyzer_calls (log_of (ai_analysis_interface w s)) = 0%nat.
Proof.
  intros Hs.
  assert (Hd : analytics_dashboard w s =
    (Ret tt, s, [Draw Page (Info "📊 Load data from MySQL to see analytics dashboard")])).
  { unfold analytics_dashboard, session_get_analyzer, has_records, attr_data,
      mbind, UI_bind, lift.
    destruct Hs as [H | (a & H & Ha)]; rewrite H; [| rewrite Ha]; reflexivity. }
  assert (Hi : ai_analysis_interface w s =
    (Ret tt, s, [Draw Page (Info "🤖 Load data from MySQL to enable AI analysis")])).
  { unfold ai_analysis_interface, session_get_analyzer, has_records, attr_data,
      mbind, UI_bind, lift.
    destruct Hs as [H | (a & H & Ha)]; rewrite H; [| rewrite Ha]; reflexivity. }
  rewrite Hd, Hi. repeat split.
Qed.

Lemma placeholder_without_records_witness :
  analytics_dashboard (Sample.run "Who is at risk?" "custom_analysis" NothingLoaded)
                      Sample.uninitialized
  = (Ret tt, Sample.uninitialized,
     [Draw Page (Info "📊 Load data from MySQL to see analytics dashboard")]) /\
  ai_analysis_interface (Sample.run "Who is at risk?" "custom_analysis" NothingLoaded)
                        Sample.empty
  = (Ret tt, Sample.empty,
     [Draw Page (Info "🤖 Load data from MySQL to enable AI analysis")]).
Proof.
  split.
  - apply (placeholder_without_records _ Sample.uninitialized). left. reflexivity.
  - apply (placeholder_without_records _ Sample.empty).
    right. eexists. split; reflexivity.
Defined.

(** ** C6: the labels and colours of the dashboard *)

Section Dashboard.

Lemma has_records_loaded (a : HRAnalyzer) (d : list employee) w s :
  data a = Some d -> d <> [] ->
  has_records (Some a) w s = (Ret true, s, []).
Proof.
  intros Hd Hne. unfold has_records, attr_data, mbind, UI_bind, lift. rewrite Hd.
  destruct d; [congruence | reflexivity].
Qed.

Lemma dashboard_guard_passed (a : HRAnalyzer) (d : list employee) w s :
  analyzer s = Some a -> data a = Some d -> d <> [] ->
  analytics_dashboard w s = analytics_dashboard_body a w s.
Proof.
  intros Ha Hd Hne. unfold analytics_dashboard.
  unfold mbind at 1, UI_bind at 1. unfold session_get_analyzer at 1. rewrite Ha.
  unfold mbind at 1, UI_bind at 1. rewrite (has_records_loaded a d w s Hd Hne).
  destruct (analytics_dashboard_body a w s) as [[r s'] ev]. reflexivity.
Qed.

Lemma sentiment_label_spec (average : Q) :
  (sentiment_label average = "Healthy" <-> (60 < average)%Q) /\
  (sentiment_label average = "Needs Attention" <-> (average <= 60)%Q).
Proof.
  unfold sentiment_label. rewrite <- gt_spec, <- gt_false.
  destruct (gt average 60); repeat split; intros; congruence.
Qed.

Lemma bar_color_spec (x : Q) :
  (bar_color x = green <-> (70 < x)%Q) /\
  (bar_color x = amber <-> (50 < x)%Q /\ (x <= 70)%Q) /\
  (bar_color x = red <-> (x <= 50)%Q).
Proof.
  unfold bar_color, green, amber, red.
  rewrite <- !gt_spec, <- !gt_false.
  destruct (gt x 70) eqn:E70, (gt x 50) eqn:E50;
    repeat split; intros; try congruence; try (destruct_and?; congruence).
  exfalso. apply gt_spec in E70. apply gt_false in E50.
  apply (Qlt_irrefl 50). apply Qlt_le_trans with x; [| exact E50].
  apply Qlt_trans with 70%Q; [reflexivity | exact E70].
Qed.

End Dashboard.

(** C6.  With records loaded, the dashboard draws the average-sentiment
    metric with the label "Healthy" exactly when the average is above 60 and
    "Needs Attention" otherwise, and, when there are roles to chart, the bar
    chart whose bar for each role is green exactly when its sentiment is
    above 70, amber when it is above 50 and at most 70, and red otherwise. *)
Theorem dashboard_labels_and_colours
    (w : world) (s : session) (a : HRAnalyzer) (d : list employee) :
  analyzer s = Some a -> data a = Some d -> d <> [] ->
  let sm := get_analytics_summary w a in
  let average := average_sentiment sm in
  let sentiments := map snd (sentiment_by_role sm) in
  result_of (analytics_dashboard w s) = Ret tt /\
  In (Draw (Column 1)
           (Metric "😊 Average Sentiment" (Text.format_1f average +:+ "%")
                   (Some (sentiment_label average))))
     (log_of (analytics_dashboard w s)) /\
  (sentiment_label average = "Healthy" <-> (60 < average)%Q) /\
  (sentiment_label average = "Needs Attention" <-> (average <= 60)%Q) /\
  (sentiment_by_role sm <> [] ->
   In (Draw (Column 1)
            (Bar (map fst (sentiment_by_role sm)) sentiments (map bar_color sentiments)
                 (map (fun x => Text.format_1f x +:+ "%") sentiments)))
      (log_of (analytics_dashboard w s))) /\
  (forall x : Q,
      (bar_color x = green <-> (70 < x)%Q) /\
      (bar_color x = amber <-> (50 < x)%Q /\ (x <= 70)%Q) /\
      (bar_color x = red <-> (x <= 50)%Q)).
Proof.
  intros Ha Hd Hne sm average sentiments.
  rewrite (dashboard_guard_passed a d w s Ha Hd Hne).
  pose proof (sentiment_label_spec average) as [Hh Hn].
  split; [| split; [| split; [exact Hh | split; [exact Hn | split; [| apply bar_color_spec]]]]].
  - unfold analytics_dashboard_body, call_get_analytics_summary, draw, log, ask,
      mbind, UI_bind, result_of.
    destruct (quadrant_distribution (get_analytics_summary w a));
      destruct (sentiment_by_role (get_analytics_summary w a)); reflexivity.
  - unfold analytics_dashboard_body, call_get_analytics_summary, draw, log, ask,
      mbind, UI_bind, log_of.
    destruct (quadrant_distribution (get_analytics_summary w a));
      destruct (sentiment_by_role (get_analytics_summary w a));
      simpl; subst average sm; tauto.
  - intros Hroles. subst sentiments sm.
    unfold analytics_dashboard_body, call_get_analytics_summary, draw, log, ask,
      mbind, UI_bind, log_of.
    destruct (sentiment_by_role (get_analytics_summary w a)) as [| r roles] eqn:Er;
      [congruence |].
    destruct (quadrant_distribution (get_analytics_summary w a));
      simpl; tauto.
Qed.

(** The sample dashboard: an average of 55 is labelled "Needs Attention";
    the bars at 67.5 and 30 are amber and red. *)
Lemma dashboard_labels_and_colours_witness :
  In (Draw (Column 1) (Metric "😊 Average Sentiment" "55.0%" (Some "Needs Attention")))
     (log_of (analytics_dashboard (Sample.run EmptyString "none" NothingLoaded)
                                  Sample.loaded)) /\
  In (Draw (Column 1)
           (Bar ["Engineer"; "Analyst"] [(675 # 10)%Q; (30 # 1)%Q] [amber; red]
                ["67.5%"; "30.0%"]))
     (log_of (analytics_dashboard (Sample.run EmptyString "none" NothingLoaded)
                                  Sample.loaded)).
Proof.
  pose proof (dashboard_labels_and_colours
                (Sample.run EmptyString "none" NothingLoaded) Sample.loaded
                Sample.hr Sample.records eq_refl eq_refl ltac:(discriminate))
    as (_ & Hmetric & _ & _ & Hbar & _).
  split; [exact Hmetric | apply Hbar; discriminate].
Defined.

(** ** C9: the status panel *)

(** Membership of a drawn element in an explicit log. *)
Ltac refute_shown H :=
  simpl in H; repeat (destruct H as [H | H]; [discriminate H |]); destruct H.

Ltac decide_shown :=
  let H := fresh "H" in
  split;
  [ intros H;
    first [ solve [reflexivity | eexists; reflexivity
                   | eexists; split; [reflexivity | assumption]]
          | refute_shown H ]
  | intros H;
    first [ solve [simpl; tauto]
          | discriminate H
          | let a' := fresh in let Heq := fresh in let Ht := fresh in
            destruct H as (a' & Heq & Ht); first [discriminate Heq
                                                  | injection Heq as <-; congruence]
          | let a' := fresh in let Heq := fresh in
            destruct H as (a' & Heq); discriminate Heq ] ].

(** C9, as stated, fails: the panel does not show three signals in every
    session.  Without an analyzer it shows the single warning and nothing
    about the AI client or the vector client; with an analyzer that has
    neither client it shows two lines, none of them about the AI client. *)
Lemma status_panel_counterexample :
  status_lines (log_of (show_environment_status
                          (Sample.run EmptyString "none" NothingLoaded)
                          Sample.uninitialized))
  = [Draw Sidebar (Warning "ℹ️ Analyzer not initialized")] /\
  status_lines (log_of (show_environment_status
                          (Sample.run EmptyString "none" NothingLoaded)
                          Sample.empty))
  = [Draw Sidebar (Success "✅ Environment configured");
     Draw Sidebar (Info "ℹ️ Vector database offline (optional)")].
Proof. split; reflexivity. Qed.

(** C9, amended.  The status panel only reads the session: it returns
    normally, leaves the session as it is, calls no method of the analyzer
    and does not depend on the rest of the world.  Under its heading it
    draws status lines and nothing else.  Without an analyzer the only line
    is the warning "Analyzer not initialized".  With an analyzer the lines
    are "Environment configured", then "Gemini AI connected" when the AI
    client is set and no line at all about the AI client when it is not,
    then "Vector database connected" when the vector client is set and the
    notice "Vector database offline (optional)" when it is not.  No status
    line is an error. *)
Theorem status_panel_reads_session (w : world) (s : session) :
  let r := show_environment_status w s in
  let shown (e : element) := In (Draw Sidebar e) (log_of r) in
  result_of r = Ret tt /\
  session_of r = s /\
  analyzer_calls (log_of r) = 0%nat /\
  (forall w', show_environment_status w' s = r) /\
  log_of r = Draw Sidebar (Subheader "🔧 System Status") :: status_lines (log_of r) /\
  (shown (Warning "ℹ️ Analyzer not initialized") <-> analyzer s = None) /\
  (analyzer s = None ->
   status_lines (log_of r) = [Draw Sidebar (Warning "ℹ️ Analyzer not initialized")]) /\
  (forall a, analyzer s = Some a ->
   status_lines (log_of r) =
   (Draw Sidebar (Success "✅ Environment configured")
    :: (if Py.truthy (getattr_or_None (gemini_client a))
        then [Draw Sidebar (Success "✅ Gemini AI connected")]
        else [])
    ++ [if Py.truthy (getattr_or_None (qdrant_client a))
        then Draw Sidebar (Success "✅ Vector database connected")
        else Draw Sidebar (Info "ℹ️ Vector database offline (optional)")])%list) /\
  (shown (Success "✅ Environment configured") <-> exists a, analyzer s = Some a) /\
  (shown (Success "✅ Gemini AI connected") <->
   exists a, analyzer s = Some a /\ Py.truthy (getattr_or_None (gemini_client a)) = true) /\
  (shown (Success "✅ Vector database connected") <->
   exists a, analyzer s = Some a /\ Py.truthy (getattr_or_None (qdrant_client a)) = true) /\
  (shown (Info "ℹ️ Vector database offline (optional)") <->
   exists a, analyzer s = Some a /\ Py.truthy (getattr_or_None (qdrant_client a)) = false) /\
  (forall msg, ~ shown (Error msg)).
Proof.
  unfold show_environment_status, session_get_analyzer, draw, log,
    mbind, UI_bind, mret, UI_ret, result_of, session_of, log_of.
  destruct (analyzer s) as [a |] eqn:Ha; simpl.
  - destruct (Py.truthy (getattr_or_None (gemini_client a))) eqn:Eg;
      destruct (Py.truthy (getattr_or_None (qdrant_client a))) eqn:Eq; simpl;
      (split; [reflexivity |]); (split; [reflexivity |]); (split; [reflexivity |]);
      (split; [reflexivity |]); (split; [reflexivity |]);
      (split; [decide_shown |]); (split; [discriminate |]);
      (split; [intros a' Heq; injection Heq as <-; rewrite Eg, Eq; reflexivity |]);
      (split; [decide_shown |]); (split; [decide_shown |]); (split; [decide_shown |]);
      (split; [decide_shown |]); intros msg H; refute_shown H.
  - (split; [reflexivity |]); (split; [reflexivity |]); (split; [reflexivity |]);
      (split; [reflexivity |]); (split; [reflexivity |]);
      (split; [decide_shown |]); (split; [reflexivity |]);
      (split; [discriminate |]);
      (split; [decide_shown |]); (split; [decide_shown |]); (split; [decide_shown |]);
      (split; [decide_shown |]); intros msg H; refute_shown H.
Qed.

(** ** C4: a failed reload *)

Section Reload.

Variables (w : world) (s : session) (a : HRAnalyzer) (d : list employee).
Hypothesis Ha : analyzer s = Some a.
Hypothesis Hd : data a = Some d.
Hypothesis Hne : d <> [].

Lemma reload_run :
  data_management_section w s =
  if clicked w "🔄 Reload Data" then
    match mysql w with
    | Loaded rows =>
        (Rerun,
         {| analyzer := Some {| data := Some rows;
                                gemini_client := gemini_client a;
                                qdrant_client := qdrant_client a |};
            data_loaded := true |},
         (reload_header w a d ++
          [Call m_load_data;
           Draw Page (Success "✅ Data reloaded successfully from MySQL!")])%list)
    | NothingLoaded =>
        (Ret tt, {| analyzer := Some a; data_loaded := data_loaded s |},
         (reload_header w a d ++
          [Call m_load_data;
           Draw Page (Warning "⚠️ No data returned from MySQL or reload failed.")])%list)
    | StoreFault e =>
        (Ret tt, {| analyzer := Some a; data_loaded := data_loaded s |},
         (reload_header w a d ++
          [Call m_load_data;
           Draw Page (Error ("❌ Failed to reload: " +:+ exn_msg e))])%list)
    end
  else (Ret tt, s, reload_header w a d).
Proof.
  unfold data_management_section, session_get_analyzer, has_records, attr_data,
    call_get_average_sentiment, call_get_quadrant_distribution, st_button,
    try_except, call_load_data, set_data_loaded, st_rerun, draw, log, ask, lift,
    mbind, UI_bind, mret, UI_ret, reload_header.
  rewrite Ha, Hd. destruct d as [| e0 d0]; [congruence |]. cbn [nonempty_list].
  destruct (clicked w "🔄 Reload Data"); [| reflexivity].
  destruct (mysql w); reflexivity.
Qed.

End Reload.

(** C4.  With records loaded and the reload button pressed: when
    [load_data] returns false or raises, the view returns normally with a
    warning or an error on the page, and the session is the one it started
    from, so the record set, its count and the flag [data_loaded] are
    unchanged and the next render reports the same number of records; the
    flag is assigned, to true, only when [load_data] succeeds. *)
Theorem reload_failure_keeps_records
    (w : world) (s : session) (a : HRAnalyzer) (d : list employee) :
  analyzer s = Some a -> data a = Some d -> d <> [] ->
  clicked w "🔄 Reload Data" = true ->
  let r := data_management_section w s in
  (mysql w = NothingLoaded ->
   result_of r = Ret tt /\ session_of r = s /\
   In (Draw Page (Warning "⚠️ No data returned from MySQL or reload failed.")) (log_of r)) /\
  (forall e, mysql w = StoreFault e ->
   result_of r = Ret tt /\ session_of r = s /\
   In (Draw Page (Error ("❌ Failed to reload: " +:+ exn_msg e))) (log_of r)) /\
  (forall rows, mysql w = Loaded rows ->
   result_of r = Rerun /\ data_loaded (session_of r) = true /\
   (records_of <$> analyzer (session_of r)) = Some rows) /\
  ((forall rows, mysql w <> Loaded rows) ->
   (records_of <$> analyzer (session_of r)) = Some d /\
   data_loaded (session_of r) = data_loaded s /\
   forall w', In (Draw (Column 0)
                       (Metric "📊 Records Loaded" (str_int (Z.of_nat (length d))) None))
                 (log_of (data_management_section w' (session_of r)))).
Proof.
  intros Ha Hd Hne Hclick r.
  assert (Hs : s = {| analyzer := Some a; data_loaded := data_loaded s |})
    by (destruct s; simpl in *; congruence).
  assert (Hshown : forall w',
             In (Draw (Column 0)
                      (Metric "📊 Records Loaded" (str_int (Z.of_nat (length d))) None))
                (log_of (data_management_section w' s))).
  { intros w'. rewrite (reload_run w' s a d Ha Hd Hne).
    destruct (clicked w' "🔄 Reload Data"); [destruct (mysql w') |];
      unfold log_of, reload_header; simpl; tauto. }
  subst r. rewrite (reload_run w s a d Ha Hd Hne), Hclick.
  unfold result_of, session_of, log_of.
  split; [| split; [| split]].
  - intros ->. simpl. rewrite <- Hs. split; [reflexivity | split; [reflexivity | tauto]].
  - intros e ->. simpl. rewrite <- Hs. split; [reflexivity | split; [reflexivity | tauto]].
  - intros rows ->. simpl. repeat split.
  - intros Hfail. destruct (mysql w) as [rows | | e] eqn:Em.
    + exfalso. exact (Hfail rows eq_refl).
    + simpl. unfold records_of. rewrite Hd. simpl. rewrite <- Hs.
      split; [reflexivity | split; [reflexivity | exact Hshown]].
    + simpl. unfold records_of. rewrite Hd. simpl. rewrite <- Hs.
      split; [reflexivity | split; [reflexivity | exact Hshown]].
Qed.

(** Three records loaded, the store answers with nothing: the warning is
    drawn and the session is the one before. *)
Lemma reload_failure_keeps_records_witness :
  result_of (data_management_section (Sample.run EmptyString "🔄 Reload Data" NothingLoaded)
                                     Sample.loaded) = Ret tt /\
  session_of (data_management_section (Sample.run EmptyString "🔄 Reload Data" NothingLoaded)
                                      Sample.loaded) = Sample.loaded /\
  In (Draw Page (Warning "⚠️ No data returned from MySQL or reload failed."))
     (log_of (data_management_section
                (Sample.run EmptyString "🔄 Reload Data" NothingLoaded) Sample.loaded)).
Proof.
  pose proof (reload_failure_keeps_records
                (Sample.run EmptyString "🔄 Reload Data" NothingLoaded) Sample.loaded
                Sample.hr Sample.records eq_refl eq_refl ltac:(discriminate) eq_refl)
    as (Hnone & _).
  exact (Hnone eq_refl).
Defined.

(** ** C8 and C2: unwrapping the AI response *)

Section Unwrapping.

Lemma settled_bind {A B : Type} (m : outcome A) (f : A -> outcome B) :
  settled m -> (forall a, settled (f a)) -> settled (m ≫= f).
Proof.
  unfold settled, mbind, outcome_bind. intros Hm Hf. destruct m; auto; discriminate.
Qed.

Lemma settled_ret {A : Type} (a : A) : settled (Ret a).
Proof. discriminate. Qed.

Lemma settled_getattr (v : pyval) (name : string) : settled (Py.getattr v name).
Proof.
  unfold settled, Py.getattr. destruct v; try discriminate.
  destruct (Py.assoc name attrs) as [[] |]; discriminate.
Qed.

Lemma settled_hasattr (v : pyval) (name : string) : settled (Py.hasattr v name).
Proof.
  unfold Py.hasattr. pose proof (settled_getattr v name) as H.
  destruct (Py.getattr v name); [apply settled_ret | | contradiction].
  destruct (is_a e "AttributeError"); discriminate.
Qed.

Lemma hasattr_of_getattr (v x : pyval) (name : string) :
  Py.getattr v name = Ret x -> Py.hasattr v name = Ret true.
Proof. intros H. unfold Py.hasattr. rewrite H. reflexivity. Qed.

Lemma settled_first_item (v : pyval) : settled (Py.first_item v).
Proof.
  unfold settled, Py.first_item. destruct v; try discriminate.
  - destruct s; discriminate.
  - destruct l; discriminate.
Qed.

Lemma settled_try (response : pyval) : settled (extract_ai_text_try response).
Proof.
  unfold extract_ai_text_try.
  destruct (negb (Py.truthy response)); [apply settled_ret |].
  destruct (Py.isinstance_str response); [apply settled_ret |].
  repeat first
    [ apply settled_ret
    | apply settled_getattr
    | apply settled_hasattr
    | apply settled_first_item
    | apply settled_bind; [| intros ?]
    | match goal with
      | |- settled (if ?b then _ else _) => destruct b
      | |- settled (match ?o with Some _ => _ | None => _ end) => destruct o
      end ].
Qed.

End Unwrapping.

(** C8.  [extract_ai_text] returns a value for every response: the value
    its [try] body produced, or, when any step of the probing raised, the
    extraction-failure message with the text of the fault; no exception
    leaves the function. *)
Theorem extract_ai_text_never_raises (response : pyval) :
  exists v : pyval,
    extract_ai_text response = Ret v /\
    match extract_ai_text_try response with
    | Ret v' => v = v'
    | Raise e => v = extraction_failure e
    | Rerun => False
    end.
Proof.
  pose proof (settled_try response) as Hs. unfold extract_ai_text, extraction_failure.
  destruct (extract_ai_text_try response) as [v | e |].
  - exists v. split; reflexivity.
  - eexists. split; reflexivity.
  - contradiction.
Qed.

(** A response whose [text] accessor raises, and one whose candidate has no
    content: the fault comes back as text. *)
Lemma extract_ai_text_never_raises_witness :
  extract_ai_text Sample.blocked
  = Ret (VStr "⚠️ Extraction failed: response has no valid part") /\
  extract_ai_text Sample.broken
  = Ret (VStr "⚠️ Extraction failed: 'Candidate' object has no attribute 'content'").
Proof.
  split.
  - destruct (extract_ai_text_never_raises Sample.blocked) as (v & Hv & Htry).
    rewrite Hv. simpl in Htry. rewrite Htry. reflexivity.
  - destruct (extract_ai_text_never_raises Sample.broken) as (v & Hv & Htry).
    rewrite Hv. simpl in Htry. rewrite Htry. reflexivity.
Defined.

(** C2, as stated, fails on two responses: the empty text is not returned
    unchanged but as the no-content sentinel; and an object whose candidates
    do not lead to parts is not answered with its direct [text] attribute
    but with the extraction-failure message. *)
Lemma extract_ai_text_counterexample :
  extract_ai_text (VStr EmptyString) = Ret VNone /\
  VNone <> VStr EmptyString /\
  Py.getattr Sample.broken "text" = Ret (VStr "direct") /\
  (forall text, ~ nested_text Sample.broken text) /\
  extract_ai_text Sample.broken
  = Ret (VStr "⚠️ Extraction failed: 'Candidate' object has no attribute 'content'").
Proof.
  split; [reflexivity |]. split; [discriminate |]. split; [reflexivity |].
  split; [| reflexivity].
  intros text (cs & c & ct & ps & p & Hcs & _ & Hc & Hct & _).
  injection Hcs as <-. injection Hc as <-. discriminate Hct.
Qed.

(** C2, amended.  A non-empty text is returned unchanged, and a false value
    (None, the empty text, an empty list, zero) gives the no-content
    sentinel.  An object exposing the chain candidates -> content -> parts
    whose first part has a [text] attribute gives that leaf text.  A value
    that is not text and has no candidates (no such attribute, or an empty
    one), or whose first candidate's parts are empty or start with a part
    without [text], gives its direct [text] attribute when it has one and
    the no-content sentinel when it has none.  (When the probing raises, the
    result is the extraction-failure message: C8.) *)
Theorem extract_ai_text_shapes (response : pyval) :
  (forall s, response = VStr s -> s <> EmptyString ->
             extract_ai_text response = Ret response) /\
  (Py.truthy response = false -> extract_ai_text response = Ret VNone) /\
  (forall text, nested_text response text -> extract_ai_text response = Ret text) /\
  (Py.isinstance_str response = false ->
   no_candidates response \/ no_part_text response ->
   (forall text, Py.getattr response "text" = Ret text ->
                 extract_ai_text response = Ret text) /\
   (Py.hasattr response "text" = Ret false -> extract_ai_text response = Ret VNone)).
Proof.
  split; [| split; [| split]].
  - intros s -> Hs. destruct s; [congruence | reflexivity].
  - intros Hf. unfold extract_ai_text, extract_ai_text_try. rewrite Hf. reflexivity.
  - intros text (cs & c & ct & ps & p & Hcs & Tcs & Hc & Hct & Hps & Tps & Hp & Ht).
    destruct response; try discriminate Hcs.
    unfold extract_ai_text, extract_ai_text_try, Py.hasattr, mbind, outcome_bind.
    cbn [Py.truthy Py.isinstance_str negb].
    rewrite Hcs, Tcs, Hc, Hct, Hps, Tps, Hp, Ht. reflexivity.
  - intros Hstr Hshape.
    assert (Hfall : extract_ai_text response =
              if negb (Py.truthy response) then Ret VNone
              else match Py.hasattr response "text" ≫=
                         (fun has_text : bool =>
                            if has_text then Py.getattr response "text" else Ret VNone) with
                   | Raise e => Ret (extraction_failure e)
                   | other => other
                   end).
    { unfold extract_ai_text, extract_ai_text_try. rewrite Hstr.
      destruct (negb (Py.truthy response)); [reflexivity |].
      destruct Hshape as [[Hno | (cs & Hcs & Tcs)] | (cs & c & ct & ps & Hcs & Tcs & Hc & Hct & Hps & Hparts)].
      - rewrite Hno. reflexivity.
      - rewrite (hasattr_of_getattr _ _ _ Hcs).
        unfold mbind, outcome_bind, mret, outcome_ret. rewrite Hcs, Tcs. reflexivity.
      - rewrite (hasattr_of_getattr _ _ _ Hcs).
        unfold mbind, outcome_bind, mret, outcome_ret. rewrite Hcs, Tcs, Hc, Hct, Hps.
        destruct Hparts as [Tps | (p & Hp & Hno)].
        + rewrite Tps. reflexivity.
        + destruct (Py.truthy ps); [| reflexivity]. rewrite Hp, Hno. reflexivity. }
    split.
    + intros text Ht. rewrite Hfall. destruct response; try discriminate Ht.
      unfold Py.hasattr. rewrite Ht. reflexivity.
    + intros Hno. rewrite Hfall, Hno. destruct (negb (Py.truthy response)); reflexivity.
Qed.

(** The structured sample gives its leaf text, and the text-only sample its
    direct text. *)
Lemma extract_ai_text_shapes_witness :
  extract_ai_text Sample.structured = Ret (VStr "leaf") /\
  extract_ai_text Sample.text_only = Ret (VStr "direct").
Proof.
  split.
  - destruct (extract_ai_text_shapes Sample.structured) as (_ & _ & Hnested & _).
    apply Hnested. do 5 eexists. repeat (split; [reflexivity |]). reflexivity.
  - destruct (extract_ai_text_shapes Sample.text_only) as (_ & _ & _ & Hdirect).
    apply Hdirect; [reflexivity | | reflexivity]. left. left. reflexivity.
Defined.

(** ** C3: the context *)

Section Context.

Lemma append_assoc (a b c : string) : (a +:+ b) +:+ c = a +:+ (b +:+ c).
Proof. induction a as [| x a IH]; [reflexivity |]. rewrite !app_cons, IH. reflexivity. Qed.

Lemma append_nil_r (a : string) : a +:+ EmptyString = a.
Proof. induction a as [| x a IH]; [reflexivity |]. rewrite app_cons, IH. reflexivity. Qed.

Lemma occurs_here (needle after : string) : occurs needle (needle +:+ after).
Proof. exists EmptyString, after. reflexivity. Qed.

Lemma occurs_self (needle : string) : occurs needle needle.
Proof. exists EmptyString, EmptyString. rewrite append_nil_r. reflexivity. Qed.

Lemma occurs_after (needle before hay : string) :
  occurs needle hay -> occurs needle (before +:+ hay).
Proof.
  intros (b & c & ->). exists (before +:+ b), c. rewrite append_assoc. reflexivity.
Qed.

Lemma occurs_before (needle hay after : string) :
  occurs needle hay -> occurs needle (hay +:+ after).
Proof.
  intros (b & c & ->). exists b, (c +:+ after). rewrite !append_assoc. reflexivity.
Qed.

Lemma context_line_text w s (emp : employee) :
  numeric_score emp = true ->
  context_line emp w s = (Ret (nl +:+ "- " +:+ record_text w emp), s, []).
Proof.
  intros H. unfold context_line, fstr, ask, lift, mbind, UI_bind.
  rewrite (format_1f_numeric _ H). reflexivity.
Qed.

Lemma context_loop_text w s (emps : list employee) (context : string) :
  Forall (fun emp => numeric_score emp = true) emps ->
  context_loop emps context w s = (Ret (context +:+ record_lines w emps), s, []).
Proof.
  intros H. revert context. induction H as [| emp emps Hemp _ IH]; intros context.
  - simpl. rewrite append_nil_r. reflexivity.
  - simpl context_loop. unfold mbind, UI_bind. rewrite (context_line_text w s emp Hemp).
    rewrite IH. simpl record_lines. rewrite !append_assoc. reflexivity.
Qed.

Lemma record_lines_occurs w (emps : list employee) (emp : employee) :
  In emp emps -> occurs (record_text w emp) (record_lines w emps).
Proof.
  induction emps as [| e emps IH]; intros Hin; [destruct Hin |].
  simpl record_lines. destruct Hin as [-> | Hin].
  - apply occurs_before. apply occurs_after. apply occurs_after. apply occurs_self.
  - apply occurs_after. apply IH. exact Hin.
Qed.

Lemma join_occurs (sep part : string) (parts : list string) :
  In part parts -> occurs part (join sep parts).
Proof.
  induction parts as [| p parts IH]; intros Hin; [destruct Hin |].
  destruct parts as [| p' parts].
  - destruct Hin as [-> | []]. apply occurs_self.
  - change (join sep (p :: p' :: parts)) with (p +:+ sep +:+ join sep (p' :: parts)).
    destruct Hin as [-> | Hin].
    + apply occurs_here.
    + do 2 apply occurs_after. apply IH. exact Hin.
Qed.

Lemma context_loop_fault w s (good rest : list employee) (bad : employee)
    (context : string) (e : exn) :
  Forall (fun emp => numeric_score emp = true) good ->
  Py.format_1f (dict_get bad "sentiment_score" (VInt 0)) = Raise e ->
  context_loop (good ++ bad :: rest) context w s = (Raise e, s, []).
Proof.
  intros Hgood He. revert context.
  induction Hgood as [| emp good Hemp _ IH]; intros context.
  - simpl. unfold context_line, fstr, ask, lift, mbind, UI_bind. rewrite He. reflexivity.
  - simpl app. simpl context_loop. unfold mbind, UI_bind.
    rewrite (context_line_text w s emp Hemp). rewrite IH. reflexivity.
Qed.

Lemma build_context_text w s (a : HRAnalyzer) (d : list employee) :
  data a = Some d ->
  Forall (fun emp => numeric_score emp = true) (firstn 21 d) ->
  build_context a w s
  = (Ret (context_head (get_analytics_summary w a) +:+ record_lines w (firstn 21 d)),
     s, [Call m_get_analytics_summary]).
Proof.
  intros Hd Hnum.
  unfold build_context, call_get_analytics_summary, attr_data, log, ask, lift,
    mbind, UI_bind.
  rewrite Hd. rewrite (context_loop_text w s _ _ Hnum). reflexivity.
Qed.

Lemma build_context_fault w s (a : HRAnalyzer) (d good rest : list employee)
    (bad : employee) (e : exn) :
  data a = Some d ->
  firstn 21 d = (good ++ bad :: rest)%list ->
  Forall (fun emp => numeric_score emp = true) good ->
  Py.format_1f (dict_get bad "sentiment_score" (VInt 0)) = Raise e ->
  build_context a w s = (Raise e, s, [Call m_get_analytics_summary]).
Proof.
  intros Hd Htake Hgood He.
  unfold build_context, call_get_analytics_summary, attr_data, log, ask, lift,
    mbind, UI_bind.
  rewrite Hd, Htake. rewrite (context_loop_fault w s good _ bad _ e Hgood He).
  reflexivity.
Qed.

Lemma record_lines_world (w w' : world) (emps : list employee) :
  str_other w' = str_other w -> record_lines w' emps = record_lines w emps.
Proof.
  intros Hstr. induction emps as [| emp emps IH]; [reflexivity |].
  simpl. unfold record_text. rewrite Hstr, IH. reflexivity.
Qed.

End Context.

(** C3, as stated, fails: not every analyzer state has a context string.
    The second record of this analyzer has the score [None]; [build_context]
    raises the [TypeError] of the format on it, after the summary call. *)
Lemma build_context_counterexample :
  build_context Scenario.half_scored
    (Sample.run EmptyString "none" NothingLoaded) (Scenario.holding Scenario.half_scored)
  = (Raise (Exn "TypeError" "unsupported format string passed to NoneType.__format__"),
     Scenario.holding Scenario.half_scored, [Call m_get_analytics_summary]).
Proof. reflexivity. Qed.

(** C3, amended.  For an analyzer with its records in [data]: let the
    records shown be the first min(21, length) loaded records, in load
    order.  When the sentiment score of each of them is absent or a value
    the format accepts, [build_context] returns the context, with
    [get_analytics_summary] its only call: the head written from the summary
    followed by one line per record shown, each in the format
    [name (role): score%, quadrant].  The head carries the total count, the
    average sentiment, every entry of the quadrant distribution and every
    per-role sentiment.  When one of the records shown has another score,
    [build_context] raises the format fault of such a record after the
    summary call.  Either way the outcome
    is a function of the summary and of the loaded records: it is the same
    in every session, and in every run that gives the same summary and the
    same text for values. *)
Theorem build_context_deterministic
    (w : world) (s : session) (a : HRAnalyzer) (d : list employee) :
  data a = Some d ->
  let sm := get_analytics_summary w a in
  let shown := firstn 21 d in
  let context := context_head sm +:+ record_lines w shown in
  length shown = Nat.min 21 (length d) /\
  (forall (i : nat) (emp : employee),
      shown !! i = Some emp <-> d !! i = Some emp /\ (i < 21)%nat) /\
  (Forall (fun emp => numeric_score emp = true) shown ->
   build_context a w s = (Ret context, s, [Call m_get_analytics_summary])) /\
  (forall emp : employee,
      In emp shown -> numeric_score emp = false ->
      exists bad e,
        In bad shown /\
        Py.format_1f (dict_get bad "sentiment_score" (VInt 0)) = Raise e /\
        build_context a w s = (Raise e, s, [Call m_get_analytics_summary])) /\
  (forall (w' : world) (s' : session),
      get_analytics_summary w' a = sm -> str_other w' = str_other w ->
      result_of (build_context a w' s') = result_of (build_context a w s)) /\
  occurs ("Total Employees: " +:+ str_int (total_employees sm)) context /\
  occurs ("Average Sentiment: " +:+ Text.format_1f (average_sentiment sm) +:+ "%") context /\
  occurs ("Quadrant Distribution: " +:+
          join ", " (map (fun '(k, v) => k +:+ ": " +:+ str_int v)
                         (quadrant_distribution sm))) context /\
  (forall (k : string) (v : Z),
      In (k, v) (quadrant_distribution sm) -> occurs (k +:+ ": " +:+ str_int v) context) /\
  occurs ("Sentiment by Role: " +:+
          join ", " (map (fun '(role, sent) => role +:+ ": " +:+ Text.format_1f sent +:+ "%")
                         (sentiment_by_role sm))) context /\
  (forall (role : string) (sent : Q),
      In (role, sent) (sentiment_by_role sm) ->
      occurs (role +:+ ": " +:+ Text.format_1f sent +:+ "%") context) /\
  (forall emp, In emp shown -> occurs (record_text w emp) context).
Proof.
  intros Hd sm shown context.
  assert (Hquadrants :
    occurs ("Quadrant Distribution: " +:+
            join ", " (map (fun '(k, v) => k +:+ ": " +:+ str_int v)
                           (quadrant_distribution sm))) context).
  { apply occurs_before. unfold context_head.
    do 8 apply occurs_after.
    exists "    ", (nl +:+ "    Sentiment by Role: " +:+
      join ", " (map (fun '(role, sent) => role +:+ ": " +:+ Text.format_1f sent +:+ "%")
                     (sentiment_by_role sm)) +:+
      nl +:+ nl +:+ "    Example Employee Records:" +:+ nl +:+ "    ").
    rewrite !append_assoc. reflexivity. }
  assert (Hroles :
    occurs ("Sentiment by Role: " +:+
            join ", " (map (fun '(role, sent) => role +:+ ": " +:+ Text.format_1f sent +:+ "%")
                           (sentiment_by_role sm))) context).
  { apply occurs_before. unfold context_head.
    do 11 apply occurs_after.
    exists "    ", (nl +:+ nl +:+ "    Example Employee Records:" +:+ nl +:+ "    ").
    rewrite !append_assoc. reflexivity. }
  assert (Hfault : forall (w0 : world) (s0 : session) (emp : employee),
            In emp shown -> numeric_score emp = false ->
            exists good bad rest e,
              shown = (good ++ bad :: rest)%list /\
              Forall (fun emp => numeric_score emp = true) good /\
              Py.format_1f (dict_get bad "sentiment_score" (VInt 0)) = Raise e /\
              build_context a w0 s0 = (Raise e, s0, [Call m_get_analytics_summary])).
  { intros w0 s0 emp Hin Hbad.
    destruct (first_bad_score shown emp Hin Hbad) as (good & bad & rest & Htake & Hgood & Hb).
    destruct (format_1f_fault bad Hb) as [e He].
    exists good, bad, rest, e. split; [exact Htake |]. split; [exact Hgood |].
    split; [exact He |].
    apply (build_context_fault w0 s0 a d good rest bad e Hd Htake Hgood He). }
  split; [apply length_take |].
  split; [intros i emp; apply lookup_take_Some |].
  split; [apply (build_context_text w s a d Hd) |].
  split.
  { intros emp Hin Hbad.
    destruct (Hfault w s emp Hin Hbad) as (good & bad & rest & e & Htake & _ & He & Hrun).
    exists bad, e. split; [rewrite Htake; apply in_elt |]. split; [exact He | exact Hrun]. }
  split.
  { intros w' s' Hsm Hstr.
    destruct (List.Forall_Exists_dec (fun emp => numeric_score emp = true)
                (fun emp => bool_dec (numeric_score emp) true) shown) as [Hnum | Hex].
    - rewrite (build_context_text w s a d Hd Hnum), (build_context_text w' s' a d Hd Hnum).
      unfold result_of. cbn [fst]. rewrite Hsm. fold sm. fold shown.
      rewrite (record_lines_world w w' shown Hstr). reflexivity.
    - apply List.Exists_exists in Hex as (emp & Hin & Hbad).
      apply not_true_is_false in Hbad.
      destruct (first_bad_score shown emp Hin Hbad) as (good & bad & rest & Htake & Hgood & Hb).
      destruct (format_1f_fault bad Hb) as [e He].
      rewrite (build_context_fault w s a d good rest bad e Hd Htake Hgood He).
      rewrite (build_context_fault w' s' a d good rest bad e Hd Htake Hgood He).
      reflexivity. }
  split.
  { apply occurs_before. unfold context_head.
    exists (nl +:+ "    "), (nl +:+ "    Average Sentiment: " +:+
      Text.format_1f (average_sentiment sm) +:+ "%" +:+
      nl +:+ "    Quadrant Distribution: " +:+
      join ", " (map (fun '(k, v) => k +:+ ": " +:+ str_int v) (quadrant_distribution sm)) +:+
      nl +:+ "    Sentiment by Role: " +:+
      join ", " (map (fun '(role, sent) => role +:+ ": " +:+ Text.format_1f sent +:+ "%")
                     (sentiment_by_role sm)) +:+
      nl +:+ nl +:+ "    Example Employee Records:" +:+ nl +:+ "    ").
    rewrite !append_assoc. reflexivity. }
  split.
  { apply occurs_before. unfold context_head.
    do 4 apply occurs_after.
    exists "    ", (nl +:+ "    Quadrant Distribution: " +:+
      join ", " (map (fun '(k, v) => k +:+ ": " +:+ str_int v) (quadrant_distribution sm)) +:+
      nl +:+ "    Sentiment by Role: " +:+
      join ", " (map (fun '(role, sent) => role +:+ ": " +:+ Text.format_1f sent +:+ "%")
                     (sentiment_by_role sm)) +:+
      nl +:+ nl +:+ "    Example Employee Records:" +:+ nl +:+ "    ").
    rewrite !append_assoc. reflexivity. }
  split; [exact Hquadrants |].
  split.
  { intros k v Hin. apply occurs_before. unfold context_head.
    do 9 apply occurs_after. apply occurs_before.
    apply join_occurs.
    apply (in_map (fun '(k, v) => k +:+ ": " +:+ str_int v) _ (k, v)). exact Hin. }
  split; [exact Hroles |].
  split.
  { intros role sent Hin. apply occurs_before. unfold context_head.
    do 12 apply occurs_after. apply occurs_before.
    apply join_occurs.
    apply (in_map (fun '(role, sent) => role +:+ ": " +:+ Text.format_1f sent +:+ "%")
                  _ (role, sent)). exact Hin. }
  intros emp Hin. apply occurs_after. apply record_lines_occurs. exact Hin.
Qed.

(** The context of the sample analyzer: the numbers of the summary, its
    two mappings and the records, each in its format. *)
Lemma build_context_deterministic_witness :
  exists context : string,
    build_context Sample.hr (Sample.run EmptyString "none" NothingLoaded) Sample.loaded
    = (Ret context, Sample.loaded, [Call m_get_analytics_summary]) /\
    occurs "Total Employees: 3" context /\
    occurs "Average Sentiment: 55.0%" context /\
    occurs "Quadrant Distribution: Champion: 1, At Risk: 1, Concerned but active: 1"
           context /\
    occurs "Sentiment by Role: Engineer: 67.5%, Analyst: 30.0%" context /\
    occurs "Ann (Engineer): 80.5%, Champion" context /\
    occurs "Bob (Analyst): 30.0%, At Risk" context /\
    occurs "Cho (Engineer): 54.5%, Concerned but active" context.
Proof.
  destruct (build_context_deterministic
              (Sample.run EmptyString "none" NothingLoaded) Sample.loaded
              Sample.hr Sample.records eq_refl)
    as (_ & _ & Hrun & _ & _ & Htotal & Haverage & Hquadrants & _ & Hroles & _ & Hrecords).
  eexists. split; [apply Hrun; repeat constructor |].
  split; [exact Htotal |]. split; [exact Haverage |].
  split; [exact Hquadrants |]. split; [exact Hroles |].
  split; [| split].
  - apply (Hrecords Sample.ann). simpl. tauto.
  - apply (Hrecords Sample.bob). simpl. tauto.
  - apply (Hrecords Sample.cho). simpl. tauto.
Defined.

(** ** Letter case *)

Section Case.

Lemma lower_cons_plain (c : ascii) (t : string) :
  (nat_of_ascii c < 128)%nat -> lower (String c t) = String (lower_char c) (lower t).
Proof.
  intros Hc.
  assert (H196 : is_byte c 196 = false) by (apply Nat.eqb_neq; lia).
  assert (H226 : is_byte c 226 = false) by (apply Nat.eqb_neq; lia).
  destruct t as [| c2 [| c3 t3]]; simpl; rewrite ?H196, ?H226; reflexivity.
Qed.

Lemma lower_app_plain (x : string) (c : ascii) (t : string) :
  (nat_of_ascii c < 128)%nat ->
  lower (x +:+ String c t) = lower x +:+ lower (String c t).
Proof.
  intros Hc.
  assert (H176 : is_byte c 176 = false) by (apply Nat.eqb_neq; lia).
  assert (H132 : is_byte c 132 = false) by (apply Nat.eqb_neq; lia).
  assert (H170 : is_byte c 170 = false) by (apply Nat.eqb_neq; lia).
  assert (H : forall n x, (String.length x <= n)%nat ->
            lower (x +:+ String c t) = lower x +:+ lower (String c t)).
  { clear x. induction n as [| n IH]; intros x Hlen.
    - destruct x; [reflexivity | simpl in Hlen; lia].
    - destruct x as [| c1 [| c2 [| c3 x3]]]; [reflexivity | | |].
      + rewrite app_cons, app_empty.
        change (lower (String c1 (String c t)))
          with (if is_byte c1 196 && is_byte c 176
                then String "i" (String (byte 204) (String (byte 135) (lower t)))
                else match t with
                     | EmptyString => String (lower_char c1) (lower (String c t))
                     | String c3 t3 =>
                         if is_byte c1 226 && is_byte c 132 && is_byte c3 170
                         then String "k" (lower t3)
                         else String (lower_char c1) (lower (String c t))
                     end).
        rewrite H176, H132, andb_false_r.
        change (lower (String c1 EmptyString)) with (String (lower_char c1) EmptyString).
        rewrite app_cons, app_empty.
        destruct t; rewrite ?andb_false_r; cbn [andb]; reflexivity.
      + rewrite !app_cons, app_empty.
        change (lower (String c1 (String c2 (String c t))))
          with (if is_byte c1 196 && is_byte c2 176
                then String "i" (String (byte 204) (String (byte 135) (lower (String c t))))
                else if is_byte c1 226 && is_byte c2 132 && is_byte c 170
                     then String "k" (lower t)
                     else String (lower_char c1) (lower (String c2 (String c t)))).
        change (lower (String c1 (String c2 EmptyString)))
          with (if is_byte c1 196 && is_byte c2 176
                then String "i" (String (byte 204) (String (byte 135) EmptyString))
                else String (lower_char c1) (lower (String c2 EmptyString))).
        rewrite H170, andb_false_r.
        destruct (is_byte c1 196 && is_byte c2 176).
        * rewrite !app_cons, app_empty. reflexivity.
        * rewrite app_cons. f_equal.
          rewrite <- (IH (String c2 EmptyString)) by (simpl in *; lia).
          rewrite app_cons, app_empty. reflexivity.
      + rewrite !app_cons.
        change (lower (String c1 (String c2 (String c3 (x3 +:+ String c t)))))
          with (if is_byte c1 196 && is_byte c2 176
                then String "i" (String (byte 204) (String (byte 135)
                       (lower (String c3 (x3 +:+ String c t)))))
                else if is_byte c1 226 && is_byte c2 132 && is_byte c3 170
                     then String "k" (lower (x3 +:+ String c t))
                     else String (lower_char c1)
                            (lower (String c2 (String c3 (x3 +:+ String c t))))).
        change (lower (String c1 (String c2 (String c3 x3))))
          with (if is_byte c1 196 && is_byte c2 176
                then String "i" (String (byte 204) (String (byte 135)
                       (lower (String c3 x3))))
                else if is_byte c1 226 && is_byte c2 132 && is_byte c3 170
                     then String "k" (lower x3)
                     else String (lower_char c1) (lower (String c2 (String c3 x3)))).
        rewrite <- !app_cons.
        rewrite (IH (String c3 x3)) by (simpl in *; lia).
        rewrite (IH x3) by (simpl in *; lia).
        rewrite (IH (String c2 (String c3 x3))) by (simpl in *; lia).
        destruct (is_byte c1 196 && is_byte c2 176); [rewrite !app_cons; reflexivity |].
        destruct (is_byte c1 226 && is_byte c2 132 && is_byte c3 170);
          rewrite !app_cons; reflexivity. }
  apply (H (String.length x)). lia.
Qed.

Lemma same_letter_lower (x y : ascii) :
  same_letter x y = true ->
  (nat_of_ascii y < 128)%nat ->
  (65 <=? nat_of_ascii y)%nat && (nat_of_ascii y <=? 90)%nat = false ->
  lower_char x = y /\ (nat_of_ascii x < 128)%nat.
Proof.
  unfold same_letter, lower_char. intros H Hy Hlow.
  apply orb_true_iff in H as [H | H].
  - apply Ascii.eqb_eq in H as ->. rewrite Hlow. split; [reflexivity | exact Hy].
  - apply andb_true_iff in H as [H Hx]. apply andb_true_iff in H as [H1 H2].
    apply Nat.leb_le in H1, H2. apply Nat.eqb_eq in Hx.
    assert (H65 : (65 <=? nat_of_ascii x)%nat = true) by (apply Nat.leb_le; lia).
    assert (H90 : (nat_of_ascii x <=? 90)%nat = true) by (apply Nat.leb_le; lia).
    rewrite H65, H90. simpl. rewrite Hx, ascii_nat_embedding. split; [reflexivity | lia].
Qed.

Lemma spells_lower (word kw after : string) :
  spells word kw = true -> plain kw = true ->
  lower (word +:+ after) = kw +:+ lower after.
Proof.
  revert kw. induction word as [| x word IH]; intros [| y kw] Hs Hp;
    try discriminate; [reflexivity |].
  simpl in Hs, Hp.
  apply andb_true_iff in Hs as [Hxy Hs].
  apply andb_true_iff in Hp as [Hp Hkw]. apply andb_true_iff in Hp as [Hy Hlow].
  apply Nat.ltb_lt in Hy. apply negb_true_iff in Hlow.
  destruct (same_letter_lower x y Hxy Hy Hlow) as [Hx Hbound].
  rewrite !app_cons, (lower_cons_plain x _ Hbound), Hx, (IH kw Hs Hkw). reflexivity.
Qed.

Lemma spells_occurs (word kw hay : string) :
  spells word kw = true -> plain kw = true ->
  occurs word hay -> occurs kw (lower hay).
Proof.
  intros Hs Hp (before & after & ->).
  destruct word as [| x word].
  - destruct kw; [| discriminate]. exists EmptyString, (lower (before +:+ after)).
    reflexivity.
  - destruct kw as [| y kw]; [discriminate |].
    pose proof (spells_lower _ _ after Hs Hp) as Hl.
    simpl in Hs, Hp.
    apply andb_true_iff in Hs as [Hxy _].
    apply andb_true_iff in Hp as [Hp _]. apply andb_true_iff in Hp as [Hy Hlow].
    apply Nat.ltb_lt in Hy. apply negb_true_iff in Hlow.
    destruct (same_letter_lower x y Hxy Hy Hlow) as [_ Hbound].
    exists (lower before), (lower after).
    rewrite app_cons in *. rewrite (lower_app_plain before x _ Hbound), Hl. reflexivity.
Qed.


End Case.

(** ** C1: routing of the free-text query *)

Section Routing.

Variables (w : world) (s : session) (a : HRAnalyzer) (d : list employee).
Hypothesis Hd : data a = Some d.
Hypothesis Hnum : Forall (fun emp => numeric_score emp = true) d.

Lemma ai_calls_app (l1 l2 : list event) :
  ai_calls (l1 ++ l2) = (ai_calls l1 + ai_calls l2)%nat.
Proof. unfold ai_calls. rewrite List.filter_app, length_app. reflexivity. Qed.

Lemma ai_calls_table (emps : list employee) : ai_calls (table w emps) = 0%nat.
Proof.
  unfold table. induction emps as [| emp emps IH]; [reflexivity |].
  change (concat (map (table_row w) (emp :: emps)))
    with (table_row w emp ++ concat (map (table_row w) emps))%list.
  rewrite ai_calls_app, IH. reflexivity.
Qed.

Lemma ai_calls_employee_view (emps : list employee) : ai_calls (employee_view w emps) = 0%nat.
Proof. destruct emps; [reflexivity | apply ai_calls_table]. Qed.

Lemma found_numeric (q : string) :
  Forall (fun emp => numeric_score emp = true) (get_employees_by_quadrant (Some a) q).
Proof.
  rewrite (filter_quadrant a d q Hd).
  apply List.Forall_forall. intros emp Hin. apply filter_In in Hin as [Hin _].
  revert emp Hin. apply List.Forall_forall. exact Hnum.
Qed.

Lemma display_employees_view (q : string) :
  display_employees (get_employees_by_quadrant (Some a) q) w s
  = (Ret tt, s, employee_view w (get_employees_by_quadrant (Some a) q)).
Proof.
  pose proof (found_numeric q) as Hf.
  destruct (get_employees_by_quadrant (Some a) q) as [| e l] eqn:E.
  - apply display_employees_empty.
  - apply display_employees_table; [discriminate | exact Hf].
Qed.

Lemma show_quadrant_run (heading q : string) :
  show_quadrant a heading q w s
  = (Ret tt, s,
     Draw Page (Subheader (heading +:+ " Employees (" +:+
                           str_int (Z.of_nat (length (get_employees_by_quadrant (Some a) q)))
                           +:+ ")"))
     :: employee_view w (get_employees_by_quadrant (Some a) q)).
Proof.
  unfold show_quadrant, draw, log, mbind, UI_bind.
  rewrite display_employees_view. reflexivity.
Qed.

Lemma keyword_loop_first (query : string) (before after : list (string * string))
    (kw quad : string) :
  Forall (fun p => contains (lower p.1) (lower query) = false) before ->
  contains (lower kw) (lower query) = true ->
  keyword_loop a (before ++ (kw, quad) :: after) query w s
  = (Ret true, s,
     Draw Page (Subheader (("📌 " +:+ quad) +:+ " Employees (" +:+
                           str_int (Z.of_nat (length (get_employees_by_quadrant (Some a) quad)))
                           +:+ ")"))
     :: employee_view w (get_employees_by_quadrant (Some a) quad)).
Proof.
  intros Hbefore Hkw. induction Hbefore as [| [k q] before Hk _ IH].
  - simpl. rewrite Hkw. unfold mbind, UI_bind. rewrite show_quadrant_run.
    simpl. rewrite app_nil_r. reflexivity.
  - simpl in *. rewrite Hk. exact IH.
Qed.

Lemma keyword_loop_none (query : string) (items : list (string * string)) :
  Forall (fun p => contains (lower p.1) (lower query) = false) items ->
  keyword_loop a items query w s = (Ret false, s, []).
Proof.
  induction 1 as [| [k q] items Hk _ IH]; [reflexivity |].
  simpl in *. rewrite Hk. exact IH.
Qed.

Lemma extract_ai_text_returns (response : pyval) :
  exists v, extract_ai_text response = Ret v.
Proof.
  pose proof (settled_try response) as Hs. unfold extract_ai_text.
  destruct (extract_ai_text_try response); [eauto | eauto | contradiction].
Qed.

Lemma ai_answer_run (query context title : string) :
  ai_answer a query context title w s
  = (Ret tt, s,
     Call (m_analyze_with_ai query context)
     :: answer_view w title (analyze_with_ai w a query context)).
Proof.
  unfold ai_answer, try_except, call_analyze_with_ai, fstr, draw, log, ask, lift,
    mbind, UI_bind, mret, UI_ret, answer_view.
  destruct (analyze_with_ai w a query context) as [response | e]; [| reflexivity].
  destruct (extract_ai_text_returns response) as [v ->].
  destruct (Py.truthy v); reflexivity.
Qed.

Lemma ai_calls_answer_view (title : string) (reply : ai_reply) :
  ai_calls (answer_view w title reply) = 0%nat.
Proof.
  unfold answer_view. destruct reply as [response | e]; [| reflexivity].
  destruct (extract_ai_text response) as [v | |]; try reflexivity.
  destruct (Py.truthy v); reflexivity.
Qed.

End Routing.

Section Submission.

Variables (w : world) (s : session) (a : HRAnalyzer) (d : list employee).
Hypothesis Ha : analyzer s = Some a.
Hypothesis Hd : data a = Some d.
Hypothesis Hne : d <> [].
Hypothesis Hnum : Forall (fun emp => numeric_score emp = true) d.
Hypothesis Hquery : text_area_value w <> EmptyString.
Hypothesis Hpressed : pressed_only w "custom_analysis".

Lemma build_context_run :
  build_context a w s
  = (Ret (context_head (get_analytics_summary w a) +:+ record_lines w (firstn 21 d)),
     s, [Call m_get_analytics_summary]).
Proof.
  assert (H21 : Forall (fun emp => numeric_score emp = true) (firstn 21 d)).
  { apply Forall_take. exact Hnum. }
  unfold build_context, call_get_analytics_summary, attr_data, log, ask, lift,
    mbind, UI_bind.
  rewrite Hd. rewrite (context_loop_text w s _ _ H21). reflexivity.
Qed.

Lemma ai_guard_passed : ai_analysis_interface w s = ai_analysis_interface_body a w s.
Proof.
  unfold ai_analysis_interface.
  unfold mbind at 1, UI_bind at 1. unfold session_get_analyzer at 1. rewrite Ha.
  unfold mbind at 1, UI_bind at 1. rewrite (has_records_loaded a d w s Hd Hne).
  destruct (ai_analysis_interface_body a w s) as [[r s'] ev]. reflexivity.
Qed.

(** The tab, up to the routing of the query. *)
Lemma ai_tab_run :
  ai_analysis_interface w s
  = (let '(r, s', ev) :=
       (quadrant_found ← keyword_loop a quadrant_keywords (text_area_value w);
        if negb quadrant_found then
          draw Page (Spinner "🤖 Generating AI insights...") ;;
          ai_answer a (text_area_value w)
            (context_head (get_analytics_summary w a) +:+ record_lines w (firstn 21 d))
            "🎯 AI Analysis Results"
        else mret tt) w s in
     (r, s', (ai_tab_frame ++ ev)%list)).
Proof.
  rewrite ai_guard_passed.
  unfold ai_analysis_interface_body, custom_query_section, st_button, st_text_area,
    draw, log, ask, mbind, UI_bind, mret, UI_ret.
  rewrite build_context_run, !Hpressed. cbn [String.eqb Ascii.eqb Bool.eqb andb].
  destruct (text_area_value w) as [| c q] eqn:Eq; [congruence |].
  cbn [nonempty]. cbv beta. rewrite ?Hpressed.
  cbn [String.eqb Ascii.eqb Bool.eqb andb].
  destruct (keyword_loop a quadrant_keywords (String c q) w s) as [[[found | e |] s1] ev1];
    [destruct found; cbn [negb] | |]; try reflexivity.
  destruct (ai_answer a (String c q)
              (context_head (get_analytics_summary w a) +:+ record_lines w (firstn 21 d))
              "🎯 AI Analysis Results" w s1) as [[r s2] ev2].
  reflexivity.
Qed.

End Submission.

Lemma keywords_lower : Forall (fun p : string * string => lower p.1 = p.1) quadrant_keywords.
Proof. repeat constructor. Qed.

Lemma keyword_loop_returns w s (a : HRAnalyzer) (d : list employee)
    (items : list (string * string)) (query : string) :
  data a = Some d ->
  Forall (fun emp => numeric_score emp = true) d ->
  exists found ev, keyword_loop a items query w s = (Ret found, s, ev).
Proof.
  intros Hd Hnum. induction items as [| [kw quad] items IH]; simpl.
  - eexists _, _. reflexivity.
  - destruct (contains (lower kw) (lower query)); [| exact IH].
    unfold mbind, UI_bind. rewrite (show_quadrant_run w s a d Hd Hnum).
    eexists _, _. reflexivity.
Qed.



(** * Further properties of the script *)

(** ** The AI tab, whatever is pressed *)

Section Tab.

Variables (w : world) (s : session) (a : HRAnalyzer) (d : list employee).
Hypothesis Ha : analyzer s = Some a.
Hypothesis Hd : data a = Some d.
Hypothesis Hne : d <> [].
Hypothesis Hnum : Forall (fun emp => numeric_score emp = true) d.

Lemma st_button_run (p : place) (label ident : string) :
  st_button p label ident w s = (Ret (clicked w ident), s, [Draw p (Button label)]).
Proof. reflexivity. Qed.

Lemma when_run (c : bool) (m : UI unit) (ev : list event) :
  m w s = (Ret tt, s, ev) ->
  (if c then m else mret tt) w s = (Ret tt, s, if c then ev else []).
Proof. intros H. destruct c; [exact H | reflexivity]. Qed.

Lemma context_of_records : context_of w a
  = context_head (get_analytics_summary w a) +:+ record_lines w (firstn 21 d).
Proof. unfold context_of, records_of. rewrite Hd. reflexivity. Qed.

Lemma spinner_answer_run (spinner question context title : string) :
  (draw Page (Spinner spinner) ;; ai_answer a question context title) w s
  = (Ret tt, s,
     Draw Page (Spinner spinner) :: Call (m_analyze_with_ai question context)
     :: answer_view w title (analyze_with_ai w a question context)).
Proof.
  unfold mbind, UI_bind, draw, log. rewrite ai_answer_run. reflexivity.
Qed.

(** The tab up to the free-text box, for any buttons. *)
Lemma ai_tab_blocks :
  ai_analysis_interface w s
  = (let '(r, s', ev) := custom_query_section a (context_of w a) w s in
     (r, s',
      (quick_buttons ++
       quick_filter_view w a "qa_champions" "🏆 Champion" "Champion" ++
       quick_filter_view w a "qa_at_risk" "⚠️ At Risk" "At Risk" ++
       quick_answer_view w a (context_of w a) "qa_engagement" "🧠 Analyzing engagement..."
         "What is the overall employee engagement status and key factors affecting it?"
         "📈 Engagement Analysis" ++
       quick_answer_view w a (context_of w a) "qa_retention"
         "🧠 Analyzing retention factors..."
         "What factors might affect employee retention and what are your recommendations?"
         "🎯 Retention Analysis" ++
       ev)%list)).
Proof.
  rewrite (ai_guard_passed w s a d Ha Hd Hne). unfold ai_analysis_interface_body.
  rewrite context_of_records.
  erewrite bind_ret by reflexivity.
  erewrite bind_ret by apply (build_context_run w s a d Hd Hnum).
  erewrite bind_ret by reflexivity.
  erewrite bind_ret by apply st_button_run.
  erewrite bind_ret by apply st_button_run.
  erewrite bind_ret by apply st_button_run.
  erewrite bind_ret by apply st_button_run.
  erewrite bind_ret by (apply when_run; apply (show_quadrant_run w s a d Hd Hnum)).
  erewrite bind_ret by (apply when_run; apply (show_quadrant_run w s a d Hd Hnum)).
  erewrite bind_ret by (apply when_run; apply spinner_answer_run).
  erewrite bind_ret by (apply when_run; apply spinner_answer_run).
  unfold quick_filter_view, quick_answer_view, quadrant_heading.
  destruct (custom_query_section a _ w s) as [[r s'] ev]. reflexivity.
Qed.

(** The free-text box and what the submission adds. *)
Lemma custom_query_section_run (context : string) :
  exists routed,
    custom_query_section a context w s = (Ret tt, s, (custom_query_box w ++ routed)%list) /\
    (clicked w "custom_analysis" && nonempty (text_area_value w) = false -> routed = []) /\
    (ai_calls routed <= 1)%nat.
Proof.
  unfold custom_query_section, custom_query_box, st_text_area, st_button, draw, log, ask,
    mbind, UI_bind, mret, UI_ret.
  destruct (nonempty (text_area_value w)) eqn:Eq; cbv beta iota zeta.
  - destruct (clicked w "custom_analysis") eqn:Ec; cbv beta iota zeta.
    + destruct (keyword_loop_returns w s a d quadrant_keywords (text_area_value w) Hd Hnum)
        as (found & ev & Hloop).
      rewrite Hloop. destruct found; cbn [negb].
      * exists ev. split; [cbn [app]; rewrite ?app_nil_r; reflexivity |].
        split; [discriminate |].
        revert Hloop. generalize quadrant_keywords. intros items. revert ev.
        induction items as [| [kw quad] items IH]; intros ev Hloop; simpl in Hloop.
        -- discriminate Hloop.
        -- destruct (contains (lower kw) (lower (text_area_value w))).
           ++ unfold mbind, UI_bind in Hloop.
              rewrite (show_quadrant_run w s a d Hd Hnum) in Hloop.
              injection Hloop as <-. rewrite app_nil_r.
              change (ai_calls (?e :: ?l)) with (ai_calls l).
              rewrite ai_calls_employee_view. lia.
           ++ apply (IH ev Hloop).
      * rewrite ai_answer_run. cbv beta iota zeta.
        assert (Hev : ev = []).
        { revert Hloop. generalize quadrant_keywords. intros items.
          induction items as [| [kw quad] items IH]; intros Hloop; simpl in Hloop.
          - unfold mret, UI_ret in Hloop. congruence.
          - destruct (contains (lower kw) (lower (text_area_value w))).
            + unfold mbind, UI_bind in Hloop.
              rewrite (show_quadrant_run w s a d Hd Hnum) in Hloop. discriminate Hloop.
            + apply (IH Hloop). }
        subst ev. eexists. split; [cbn [app]; reflexivity |]. split; [discriminate |].
        change (ai_calls (?e1 :: ?e2 :: ?l)) with (S (ai_calls l)).
        rewrite ai_calls_answer_view. lia.
    + exists []. split; [reflexivity |]. split; [reflexivity | cbn; lia].
  - exists []. split; [reflexivity |]. split; [reflexivity | cbn; lia].
Qed.

End Tab.

Section TabCounts.

Variables (w : world) (a : HRAnalyzer).

Lemma ai_calls_quick_filter_view (key heading quadrant : string) :
  ai_calls (quick_filter_view w a key heading quadrant) = 0%nat.
Proof.
  unfold quick_filter_view, quadrant_heading. destruct (clicked w key); [| reflexivity].
  change (ai_calls (?e :: ?l)) with (ai_calls l). apply ai_calls_employee_view.
Qed.

Lemma ai_calls_quick_answer_view (context key spinner question title : string) :
  ai_calls (quick_answer_view w a context key spinner question title)
  = if clicked w key then 1%nat else 0%nat.
Proof.
  unfold quick_answer_view. destruct (clicked w key); [| reflexivity].
  change (ai_calls (?e1 :: ?e2 :: ?l)) with (S (ai_calls l)).
  rewrite ai_calls_answer_view. reflexivity.
Qed.

Lemma ai_calls_quick_buttons : ai_calls quick_buttons = 0%nat.
Proof. reflexivity. Qed.

Lemma ai_calls_custom_query_box : ai_calls (custom_query_box w) = 0%nat.
Proof. unfold custom_query_box. destruct (nonempty (text_area_value w)); reflexivity. Qed.

End TabCounts.

(** X1.  With records loaded whose sentiment scores are absent or values
    the format accepts, the AI tab returns
    normally and leaves the session as it is, whatever is pressed and
    whatever the AI answers or raises; [analyze_with_ai] is called at most
    three times, and at most once when a single button is the one pressed. *)
Theorem ai_tab_returns_normally
    (w : world) (s : session) (a : HRAnalyzer) (d : list employee) :
  analyzer s = Some a -> data a = Some d -> d <> [] ->
  Forall (fun emp => numeric_score emp = true) d ->
  let r := ai_analysis_interface w s in
  result_of r = Ret tt /\
  session_of r = s /\
  (ai_calls (log_of r) <= 3)%nat /\
  (forall k, pressed_only w k -> (ai_calls (log_of r) <= 1)%nat).
Proof.
  intros Ha Hd Hne Hnum r. subst r.
  rewrite (ai_tab_blocks w s a d Ha Hd Hne Hnum).
  destruct (custom_query_section_run w s a d Hd Hnum (context_of w a))
    as (routed & -> & Hidle & Hone).
  unfold result_of, session_of, log_of. cbn [fst snd].
  split; [reflexivity |]. split; [reflexivity |].
  rewrite !ai_calls_app, ai_calls_quick_buttons, !ai_calls_quick_filter_view,
    !ai_calls_quick_answer_view, ai_calls_custom_query_box.
  split.
  - destruct (clicked w "qa_engagement"), (clicked w "qa_retention"); lia.
  - intros k Hk. specialize (Hidle). rewrite !(Hk _) in *.
    destruct (String.eqb_spec "qa_engagement" k) as [<- | _];
      [cbn [String.eqb Ascii.eqb Bool.eqb andb] in *;
       rewrite (Hidle eq_refl); cbn; lia |].
    destruct (String.eqb_spec "qa_retention" k) as [<- | _];
      [cbn [String.eqb Ascii.eqb Bool.eqb andb] in *;
       rewrite (Hidle eq_refl); cbn; lia |].
    lia.
Qed.

(** The AI times out on the engagement query: the tab still returns. *)
Lemma ai_tab_returns_normally_witness :
  result_of (ai_analysis_interface
               (Scenario.run EmptyString "qa_engagement" Scenario.timeout NothingLoaded)
               Sample.loaded) = Ret tt /\
  session_of (ai_analysis_interface
                (Scenario.run EmptyString "qa_engagement" Scenario.timeout NothingLoaded)
                Sample.loaded) = Sample.loaded.
Proof.
  destruct (ai_tab_returns_normally
              (Scenario.run EmptyString "qa_engagement" Scenario.timeout NothingLoaded)
              Sample.loaded Sample.hr Sample.records
              eq_refl eq_refl ltac:(discriminate) ltac:(repeat constructor))
    as (Hr & Hs & _).
  split; [exact Hr | exact Hs].
Defined.

(** ** The quick buttons *)

(** X2.  With records loaded whose sentiment scores are absent or values
    the format accepts, and the Champions or the At Risk button the one
    pressed, the tab draws, between the button row and the free-text box, the heading with
    the number of employees of that quadrant and their table (or the notice
    for none), and [analyze_with_ai] is not called, whatever stands in the
    text area. *)
Theorem quick_filter_bypasses_ai
    (w : world) (s : session) (a : HRAnalyzer) (d : list employee)
    (key heading quadrant : string) :
  analyzer s = Some a -> data a = Some d -> d <> [] ->
  Forall (fun emp => numeric_score emp = true) d ->
  In (key, heading, quadrant) quick_filters ->
  pressed_only w key ->
  let found := get_employees_by_quadrant (Some a) quadrant in
  exists rows,
    display_employees found w s = (Ret tt, s, rows) /\
    ai_analysis_interface w s
    = (Ret tt, s,
       (quick_buttons ++ quadrant_heading heading found :: rows ++ custom_query_box w)%list) /\
    ai_calls (log_of (ai_analysis_interface w s)) = 0%nat.
Proof.
  intros Ha Hd Hne Hnum Hin Hp found.
  exists (employee_view w found).
  split; [apply (display_employees_view w s a d Hd Hnum) |].
  assert (Hrun : ai_analysis_interface w s
            = (Ret tt, s,
               (quick_buttons ++ quadrant_heading heading found
                :: employee_view w found ++ custom_query_box w)%list)).
  { rewrite (ai_tab_blocks w s a d Ha Hd Hne Hnum).
    destruct (custom_query_section_run w s a d Hd Hnum (context_of w a))
      as (routed & -> & Hidle & _).
    unfold quick_filter_view, quick_answer_view in *. rewrite !(Hp _) in *.
    destruct Hin as [Hk | [Hk | []]]; injection Hk as <- <- <-;
      cbn [String.eqb Ascii.eqb Bool.eqb andb] in *;
      rewrite (Hidle eq_refl), app_nil_r; reflexivity. }
  split; [exact Hrun |].
  rewrite Hrun. unfold log_of. cbn [snd].
  rewrite ai_calls_app, ai_calls_quick_buttons.
  change (ai_calls (?e :: ?l)) with (ai_calls l).
  rewrite ai_calls_app, ai_calls_employee_view, ai_calls_custom_query_box. reflexivity.
Qed.

(** The Champions button on the sample: one champion, no AI call, even
    with a question left in the text area. *)
Lemma quick_filter_bypasses_ai_witness :
  ai_analysis_interface (Sample.run "Who is at risk?" "qa_champions" NothingLoaded)
                        Sample.loaded
  = (Ret tt, Sample.loaded,
     (quick_buttons ++
      Draw Page (Subheader "🏆 Champion Employees (1)")
      :: table (Sample.run "Who is at risk?" "qa_champions" NothingLoaded) [Sample.ann] ++
      custom_query_box (Sample.run "Who is at risk?" "qa_champions" NothingLoaded))%list).
Proof.
  destruct (quick_filter_bypasses_ai
              (Sample.run "Who is at risk?" "qa_champions" NothingLoaded)
              Sample.loaded Sample.hr Sample.records
              "qa_champions" "🏆 Champion" "Champion"
              eq_refl eq_refl ltac:(discriminate) ltac:(repeat constructor)
              ltac:(left; reflexivity) (fun i => eq_refl))
    as (rows & Hrows & Hrun & _).
  rewrite Hrun. injection Hrows as <-. reflexivity.
Defined.

(** X3.  With records loaded whose sentiment scores are absent or values
    the format accepts, and the Engagement or the Retention button the one
    pressed, the tab calls [analyze_with_ai] exactly once, with that button's fixed
    question and the context [build_context] returns, never with the text
    of the text area.  Under the button's title it then draws: the
    unwrapped text as markdown; or the notice that the analysis returned no
    content when the unwrapped value is false; or, when the call raises,
    the notice that the analysis failed with the text of the fault.  The
    free-text box is drawn all the same. *)
Theorem quick_question_goes_to_ai
    (w : world) (s : session) (a : HRAnalyzer) (d : list employee)
    (key spinner question title : string) :
  analyzer s = Some a -> data a = Some d -> d <> [] ->
  Forall (fun emp => numeric_score emp = true) d ->
  In (key, spinner, question, title) quick_questions ->
  pressed_only w key ->
  exists context shown,
    build_context a w s = (Ret context, s, [Call m_get_analytics_summary]) /\
    ai_analysis_interface w s
    = (Ret tt, s,
       (quick_buttons ++
        Draw Page (Spinner spinner) :: Call (m_analyze_with_ai question context)
        :: Draw Page (Subheader title) :: shown :: custom_query_box w)%list) /\
    ai_calls (log_of (ai_analysis_interface w s)) = 1%nat /\
    match analyze_with_ai w a question context with
    | Failure e => shown = Draw Page (Error ("❌ AI analysis failed: " +:+ exn_msg e))
    | Answer response =>
        exists result,
          extract_ai_text response = Ret result /\
          shown = if Py.truthy result
                  then Draw Page (Markdown (Py.str (str_other w) result))
                  else Draw Page (Error "❌ AI analysis returned no content.")
    end.
Proof.
  intros Ha Hd Hne Hnum Hin Hp.
  exists (context_of w a).
  assert (Hview : exists shown,
             answer_view w title (analyze_with_ai w a question (context_of w a))
             = [Draw Page (Subheader title); shown] /\
             match analyze_with_ai w a question (context_of w a) with
             | Failure e => shown = Draw Page (Error ("❌ AI analysis failed: " +:+ exn_msg e))
             | Answer response =>
                 exists result,
                   extract_ai_text response = Ret result /\
                   shown = if Py.truthy result
                           then Draw Page (Markdown (Py.str (str_other w) result))
                           else Draw Page (Error "❌ AI analysis returned no content.")
             end).
  { unfold answer_view.
    destruct (analyze_with_ai w a question (context_of w a)) as [response | e].
    - destruct (extract_ai_text_returns response) as [v Hv]. rewrite Hv.
      eexists. split; [reflexivity |]. exists v. split; reflexivity.
    - eexists. split; reflexivity. }
  destruct Hview as (shown & Hview & Hshown). exists shown.
  split.
  { rewrite (context_of_records w a d Hd). apply (build_context_run w s a d Hd Hnum). }
  assert (Hrun : ai_analysis_interface w s
            = (Ret tt, s,
               (quick_buttons ++
                Draw Page (Spinner spinner)
                :: Call (m_analyze_with_ai question (context_of w a))
                :: Draw Page (Subheader title) :: shown :: custom_query_box w)%list)).
  { rewrite (ai_tab_blocks w s a d Ha Hd Hne Hnum).
    destruct (custom_query_section_run w s a d Hd Hnum (context_of w a))
      as (routed & -> & Hidle & _).
    unfold quick_filter_view, quick_answer_view in *. rewrite !(Hp _) in *.
    destruct Hin as [Hk | [Hk | []]]; injection Hk as <- <- <- <-;
      cbn [String.eqb Ascii.eqb Bool.eqb andb] in *;
      rewrite (Hidle eq_refl), app_nil_r, Hview; reflexivity. }
  split; [exact Hrun |]. split; [| exact Hshown].
  rewrite Hrun. unfold log_of. cbn [snd].
  rewrite ai_calls_app, ai_calls_quick_buttons.
  change (ai_calls (?e1 :: ?e2 :: ?e3 :: ?e4 :: ?l)) with (S (ai_calls (e4 :: l))).
  assert (Hz : ai_calls [shown] = 0%nat).
  { pose proof (ai_calls_answer_view w title
                  (analyze_with_ai w a question (context_of w a))) as H0.
    rewrite Hview in H0. exact H0. }
  change (shown :: custom_query_box w) with ([shown] ++ custom_query_box w)%list.
  rewrite ai_calls_app, Hz, ai_calls_custom_query_box. reflexivity.
Qed.

(** The Retention button while the AI times out: one call, and the fault
    under the title. *)
Lemma quick_question_goes_to_ai_witness :
  exists context,
    log_of (ai_analysis_interface
              (Scenario.run "ignored text" "qa_retention" Scenario.timeout NothingLoaded)
              Sample.loaded)
    = (quick_buttons ++
       [ Draw Page (Spinner "🧠 Analyzing retention factors...");
         Call (m_analyze_with_ai
                 "What factors might affect employee retention and what are your recommendations?"
                 context);
         Draw Page (Subheader "🎯 Retention Analysis");
         Draw Page (Error "❌ AI analysis failed: deadline exceeded");
         Draw Page (Subheader "💬 Ask Custom Questions");
         Draw Page (TextArea "Enter your question:");
         Draw Page (Button "🤖 Analyze") ])%list.
Proof.
  destruct (quick_question_goes_to_ai
              (Scenario.run "ignored text" "qa_retention" Scenario.timeout NothingLoaded)
              Sample.loaded Sample.hr Sample.records
              "qa_retention" "🧠 Analyzing retention factors..."
              "What factors might affect employee retention and what are your recommendations?"
              "🎯 Retention Analysis"
              eq_refl eq_refl ltac:(discriminate) ltac:(repeat constructor)
              ltac:(right; left; reflexivity) (fun i => eq_refl))
    as (context & shown & _ & Hrun & _ & Hshown).
  exists context. rewrite Hrun. simpl in Hshown. rewrite Hshown. reflexivity.
Defined.

(** ** The free-text box *)


(** X4.  An empty text area submits nothing: with records loaded whose
    sentiment scores are absent or values the format accepts, the Analyze
    button is not even drawn, so with no quick button pressed the tab is its
    button row and the empty box, and [analyze_with_ai] is not called. *)
Theorem empty_query_is_ignored
    (w : world) (s : session) (a : HRAnalyzer) (d : list employee) :
  analyzer s = Some a -> data a = Some d -> d <> [] ->
  Forall (fun emp => numeric_score emp = true) d ->
  text_area_value w = EmptyString ->
  (forall k, In k ["qa_champions"; "qa_at_risk"; "qa_engagement"; "qa_retention"] ->
             clicked w k = false) ->
  ai_analysis_interface w s
  = (Ret tt, s,
     (quick_buttons ++
      [ Draw Page (Subheader "💬 Ask Custom Questions");
        Draw Page (TextArea "Enter your question:") ])%list) /\
  ai_calls (log_of (ai_analysis_interface w s)) = 0%nat.
Proof.
  intros Ha Hd Hne Hnum Hq Hquick.
  assert (Hrun : ai_analysis_interface w s
            = (Ret tt, s,
               (quick_buttons ++
                [ Draw Page (Subheader "💬 Ask Custom Questions");
                  Draw Page (TextArea "Enter your question:") ])%list)).
  { rewrite (ai_tab_blocks w s a d Ha Hd Hne Hnum).
    destruct (custom_query_section_run w s a d Hd Hnum (context_of w a))
      as (routed & -> & Hidle & _).
    unfold quick_filter_view, quick_answer_view, custom_query_box in *.
    rewrite Hq in *. cbn [nonempty] in *. rewrite andb_false_r in Hidle.
    rewrite (Hidle eq_refl).
    rewrite !Hquick by (simpl; tauto). reflexivity. }
  split; [exact Hrun |]. rewrite Hrun. reflexivity.
Qed.

Lemma empty_query_is_ignored_witness :
  ai_analysis_interface (Sample.run EmptyString "custom_analysis" NothingLoaded) Sample.loaded
  = (Ret tt, Sample.loaded,
     (quick_buttons ++
      [ Draw Page (Subheader "💬 Ask Custom Questions");
        Draw Page (TextArea "Enter your question:") ])%list).
Proof.
  apply (empty_query_is_ignored
           (Sample.run EmptyString "custom_analysis" NothingLoaded)
           Sample.loaded Sample.hr Sample.records
           eq_refl eq_refl ltac:(discriminate) ltac:(repeat constructor) eq_refl).
  intros k [<- | [<- | [<- | [<- | []]]]]; reflexivity.
Defined.

(** X5.  The keyword match ignores letter case, and "champion" has
    priority: with records loaded whose sentiment scores are absent or
    values the format accepts, a submitted
    query that contains the word champion in any mix of cases is answered
    with the Champion table and no AI call, whatever else it mentions. *)
Theorem keyword_match_ignores_case
    (w : world) (s : session) (a : HRAnalyzer) (d : list employee) (word : string) :
  analyzer s = Some a -> data a = Some d -> d <> [] ->
  Forall (fun emp => numeric_score emp = true) d ->
  pressed_only w "custom_analysis" ->
  spells word "champion" = true ->
  occurs word (text_area_value w) ->
  let found := get_employees_by_quadrant (Some a) "Champion" in
  exists rows,
    display_employees found w s = (Ret tt, s, rows) /\
    ai_analysis_interface w s
    = (Ret tt, s, (ai_tab_frame ++ quadrant_heading "📌 Champion" found :: rows)%list) /\
    ai_calls (log_of (ai_analysis_interface w s)) = 0%nat.
Proof.
  intros Ha Hd Hne Hnum Hp Hword Hocc found.
  assert (Hquery : text_area_value w <> EmptyString).
  { destruct Hocc as (before & after & Heq). rewrite Heq. intros Hempty.
    destruct before; [| discriminate Hempty]. rewrite app_empty in Hempty.
    destruct word; [discriminate Hword | discriminate Hempty]. }
  exists (employee_view w found).
  split; [apply (display_employees_view w s a d Hd Hnum) |].
  assert (Hhit : contains (lower "champion") (lower (text_area_value w)) = true).
  { apply contains_occurs. change (lower "champion") with "champion".
    apply (spells_occurs word "champion" _ Hword eq_refl Hocc). }
  assert (Hrun : ai_analysis_interface w s
            = (Ret tt, s,
               (ai_tab_frame ++ quadrant_heading "📌 Champion" found
                :: employee_view w found)%list)).
  { rewrite (ai_tab_run w s a d Ha Hd Hne Hnum Hquery Hp).
    unfold mbind, UI_bind.
    change quadrant_keywords
      with ([] ++ ("champion", "Champion")
               :: [("at risk", "At Risk"); ("concerned", "Concerned but active");
                   ("isolated", "Potentially Isolated")])%list.
    rewrite (keyword_loop_first w s a d Hd Hnum (text_area_value w) [] _
               "champion" "Champion" (List.Forall_nil _) Hhit).
    cbn [negb]. unfold mret, UI_ret. cbv beta iota zeta.
    rewrite app_nil_r. reflexivity. }
  split; [exact Hrun |]. rewrite Hrun. unfold log_of. cbn [snd].
  rewrite ai_calls_app. unfold quadrant_heading.
  change (ai_calls (?e :: ?l)) with (ai_calls l).
  rewrite ai_calls_employee_view. reflexivity.
Qed.

(** "Compare our CHAMPIONS to the at risk group" goes to the Champion
    table. *)
Lemma keyword_match_ignores_case_witness :
  ai_analysis_interface
    (Sample.run "Compare our CHAMPIONS to the at risk group" "custom_analysis" NothingLoaded)
    Sample.loaded
  = (Ret tt, Sample.loaded,
     (ai_tab_frame ++
      Draw Page (Subheader "📌 Champion Employees (1)")
      :: table (Sample.run "Compare our CHAMPIONS to the at risk group"
                           "custom_analysis" NothingLoaded) [Sample.ann])%list).
Proof.
  destruct (keyword_match_ignores_case
              (Sample.run "Compare our CHAMPIONS to the at risk group"
                          "custom_analysis" NothingLoaded)
              Sample.loaded Sample.hr Sample.records "CHAMPION"
              eq_refl eq_refl ltac:(discriminate) ltac:(repeat constructor)
              (fun i => eq_refl) eq_refl)
    as (rows & Hrows & Hrun & _).
  - exists "Compare our ", "S to the at risk group". reflexivity.
  - rewrite Hrun. injection Hrows as <-. reflexivity.
Defined.

(** X6.  How the unwrapping and the free-text path compose: with records
    loaded whose sentiment scores are absent or values the format accepts,
    when the AI answers a submitted query (no keyword in its lower case)
    with a response on which
    the probing of [extract_ai_text] raises, the extraction-failure message
    is a non-empty text, so it is drawn as the markdown answer under
    "AI Analysis Results", and no error notice is drawn. *)
Theorem extraction_fault_is_drawn_as_answer
    (w : world) (s : session) (a : HRAnalyzer) (d : list employee)
    (response : pyval) (e : exn) :
  analyzer s = Some a -> data a = Some d -> d <> [] ->
  Forall (fun emp => numeric_score emp = true) d ->
  text_area_value w <> EmptyString ->
  pressed_only w "custom_analysis" ->
  Forall (fun p : string * string => ~ occurs p.1 (lower (text_area_value w)))
         quadrant_keywords ->
  analyze_with_ai w a (text_area_value w) (context_of w a) = Answer response ->
  extract_ai_text_try response = Raise e ->
  ai_analysis_interface w s
  = (Ret tt, s,
     (ai_tab_frame ++
      [ Draw Page (Spinner "🤖 Generating AI insights...");
        Call (m_analyze_with_ai (text_area_value w) (context_of w a));
        Draw Page (Subheader "🎯 AI Analysis Results");
        Draw Page (Markdown ("⚠️ Extraction failed: " +:+ exn_msg e)) ])%list) /\
  existsb is_page_error (log_of (ai_analysis_interface w s)) = false.
Proof.
  intros Ha Hd Hne Hnum Hquery Hp Hnone Hreply Htry.
  assert (Hmiss : Forall (fun p : string * string =>
                            contains (lower p.1) (lower (text_area_value w)) = false)
                         quadrant_keywords).
  { pose proof keywords_lower as Hlower.
    apply List.Forall_forall. intros p Hin.
    rewrite List.Forall_forall in Hlower, Hnone.
    rewrite (Hlower p Hin). apply contains_not_occurs. apply Hnone. exact Hin. }
  assert (Hrun : ai_analysis_interface w s
            = (Ret tt, s,
               (ai_tab_frame ++
                [ Draw Page (Spinner "🤖 Generating AI insights...");
                  Call (m_analyze_with_ai (text_area_value w) (context_of w a));
                  Draw Page (Subheader "🎯 AI Analysis Results");
                  Draw Page (Markdown ("⚠️ Extraction failed: " +:+ exn_msg e)) ])%list)).
  { rewrite (ai_tab_run w s a d Ha Hd Hne Hnum Hquery Hp).
    unfold mbind, UI_bind.
    rewrite (keyword_loop_none w s a (text_area_value w) quadrant_keywords Hmiss).
    cbn [negb]. unfold draw, log. rewrite ai_answer_run.
    rewrite <- (context_of_records w a d Hd), Hreply.
    unfold answer_view, extract_ai_text. rewrite Htry. reflexivity. }
  split; [exact Hrun |]. rewrite Hrun. reflexivity.
Qed.

(** A response whose only candidate has no content, in answer to
    "How is morale?". *)
Lemma extraction_fault_is_drawn_as_answer_witness :
  In (Draw Page
        (Markdown "⚠️ Extraction failed: 'Candidate' object has no attribute 'content'"))
     (log_of (ai_analysis_interface
                (Scenario.run "How is morale?" "custom_analysis"
                              (Answer Sample.broken) NothingLoaded)
                Sample.loaded)).
Proof.
  destruct (extraction_fault_is_drawn_as_answer
              (Scenario.run "How is morale?" "custom_analysis"
                            (Answer Sample.broken) NothingLoaded)
              Sample.loaded Sample.hr Sample.records Sample.broken
              (Exn "AttributeError" "'Candidate' object has no attribute 'content'")
              eq_refl eq_refl ltac:(discriminate) ltac:(repeat constructor)
              ltac:(discriminate) (fun i => eq_refl))
    as (Hrun & _).
  - repeat (constructor; [apply contains_not_occurs; reflexivity |]). constructor.
  - reflexivity.
  - reflexivity.
  - rewrite Hrun. unfold log_of. cbn [snd]. apply in_or_app. right. simpl. tauto.
Defined.

(** ** Records the script cannot format, and records without keys *)

(** X7.  [display_employees] stops at the first record whose sentiment
    score is present and not a value the format accepts (not a float, a
    bool or an int that converts to a float): the rows before it are drawn, then
    the new row's columns with its id and role, and the format fault leaves
    the function; nothing of the later records is drawn. *)
Theorem display_employees_stops_at_bad_score
    (w : world) (s : session) (good rest : list employee) (bad : employee) :
  Forall (fun emp => numeric_score emp = true) good ->
  numeric_score bad = false ->
  exists e,
    Py.format_1f (dict_get bad "sentiment_score" (VInt 0)) = Raise e /\
    display_employees (good ++ bad :: rest) w s
    = (Raise e, s,
       (table w good ++
        [ Draw Page (Columns [1; 2; 1; 6]%nat);
          Draw (Column 0)
               (Markdown ("**ID:** " +:+ Py.str (str_other w) (dict_get bad "id" (VStr "-"))));
          Draw (Column 1)
               (Markdown ("**Role:** " +:+
                          Py.str (str_other w) (dict_get bad "role" (VStr "-")))) ])%list).
Proof.
  intros Hgood Hbad.
  destruct (format_1f_fault bad Hbad) as [e He]. exists e. split; [exact He |].
  apply display_employees_fault; assumption.
Qed.

(** Bob is drawn, then the row of a record whose score is [None] breaks
    off with a [TypeError]. *)
Lemma display_employees_stops_at_bad_score_witness :
  result_of (display_employees [Sample.bob; Scenario.unscored; Sample.ann]
               (Sample.run EmptyString "qa_at_risk" NothingLoaded) Sample.loaded)
  = Raise (Exn "TypeError" "unsupported format string passed to NoneType.__format__").
Proof.
  destruct (display_employees_stops_at_bad_score
              (Sample.run EmptyString "qa_at_risk" NothingLoaded) Sample.loaded
              [Sample.bob] [Sample.ann] Scenario.unscored
              ltac:(repeat constructor) eq_refl)
    as (e & He & Hrun).
  change ([Sample.bob; Scenario.unscored; Sample.ann])
    with ([Sample.bob] ++ Scenario.unscored :: [Sample.ann])%list.
  rewrite Hrun. injection He as <-. reflexivity.
Defined.

(** X8.  A record without the keys the script reads is shown with the
    fallbacks of its [.get] calls: in the table as id "-", role "-",
    sentiment "0.0%" and content "-"; in the context as
    "Unknown (-): 0.0%, -". *)
Theorem missing_fields_fall_back (w : world) (s : session) (emp : employee) :
  emp !! "id" = None -> emp !! "employee_name" = None -> emp !! "role" = None ->
  emp !! "sentiment_score" = None -> emp !! "quadrant" = None -> emp !! "content" = None ->
  display_employees [emp] w s
  = (Ret tt, s,
     [ Draw Page (Columns [1; 2; 1; 6]%nat);
       Draw (Column 0) (Markdown "**ID:** -");
       Draw (Column 1) (Markdown "**Role:** -");
       Draw (Column 2) (Markdown "**Sentiment:** 0.0%");
       Draw (Column 3) (Write (VStr "-")) ]) /\
  context_line emp w s = (Ret (nl +:+ "- Unknown (-): 0.0%, -"), s, []).
Proof.
  intros Hid Hname Hrole Hscore Hquadrant Hcontent.
  unfold display_employees, context_line, for_each, fstr, ask, draw, log, lift,
    mbind, UI_bind, mret, UI_ret, dict_get.
  rewrite Hid, Hname, Hrole, Hscore, Hquadrant, Hcontent. split; reflexivity.
Qed.

Lemma missing_fields_fall_back_witness :
  context_line Scenario.blank (Sample.run EmptyString "none" NothingLoaded) Sample.loaded
  = (Ret (nl +:+ "- Unknown (-): 0.0%, -"), Sample.loaded, []).
Proof.
  apply (missing_fields_fall_back (Sample.run EmptyString "none" NothingLoaded)
           Sample.loaded Scenario.blank); reflexivity.
Defined.


(** X9.  The first record whose sentiment score is present and not a value
    the format accepts, when it is among the first 21, breaks the whole AI
    tab: [build_context] raises the format fault of that record, so the tab stops after its heading and the summary call,
    before any button is drawn.  The dashboard, which formats no record,
    still returns normally for the same session. *)
Theorem bad_record_breaks_ai_tab
    (w : world) (s : session) (a : HRAnalyzer)
    (good rest : list employee) (bad : employee) :
  analyzer s = Some a -> data a = Some (good ++ bad :: rest)%list ->
  (length good < 21)%nat ->
  Forall (fun emp => numeric_score emp = true) good ->
  numeric_score bad = false ->
  exists e,
    Py.format_1f (dict_get bad "sentiment_score" (VInt 0)) = Raise e /\
    ai_analysis_interface w s
    = (Raise e, s, [Draw Page (Header "🤖 AI-Powered Analysis"); Call m_get_analytics_summary]) /\
    result_of (analytics_dashboard w s) = Ret tt.
Proof.
  intros Ha Hd Hlen Hgood Hbad.
  assert (Hne : (good ++ bad :: rest)%list <> []) by (destruct good; discriminate).
  destruct (format_1f_fault bad Hbad) as [e He]. exists e. split; [exact He |]. split.
  - rewrite (ai_guard_passed w s a _ Ha Hd Hne).
    unfold ai_analysis_interface_body.
    erewrite bind_ret by reflexivity.
    assert (Hctx : build_context a w s = (Raise e, s, [Call m_get_analytics_summary])).
    { assert (Htake : firstn 21 (good ++ bad :: rest)
                      = (good ++ bad :: firstn (21 - S (length good)) rest)%list).
      { rewrite firstn_app.
        rewrite (firstn_all2 good) by lia.
        replace (21 - length good)%nat with (S (21 - S (length good))) by lia.
        reflexivity. }
      apply (build_context_fault w s a _ good _ bad e Hd Htake Hgood He). }
    unfold mbind at 1, UI_bind at 1. rewrite Hctx. reflexivity.
  - rewrite (dashboard_guard_passed a _ w s Ha Hd Hne).
    unfold analytics_dashboard_body, call_get_analytics_summary, draw, log, ask,
      mbind, UI_bind, result_of.
    destruct (quadrant_distribution (get_analytics_summary w a));
      destruct (sentiment_by_role (get_analytics_summary w a)); reflexivity.
Qed.

(** The second of three records has [None] for a score. *)
Lemma bad_record_breaks_ai_tab_witness :
  ai_analysis_interface (Sample.run EmptyString "qa_champions" NothingLoaded)
    (Scenario.with_records [Sample.ann; Scenario.unscored; Sample.bob])
  = (Raise (Exn "TypeError" "unsupported format string passed to NoneType.__format__"),
     Scenario.with_records [Sample.ann; Scenario.unscored; Sample.bob],
     [Draw Page (Header "🤖 AI-Powered Analysis"); Call m_get_analytics_summary]).
Proof.
  destruct (bad_record_breaks_ai_tab
              (Sample.run EmptyString "qa_champions" NothingLoaded)
              (Scenario.with_records [Sample.ann; Scenario.unscored; Sample.bob])
              _ [Sample.ann] [Sample.bob] Scenario.unscored
              eq_refl eq_refl ltac:(simpl; lia) ltac:(repeat constructor) eq_refl)
    as (e & He & Hrun & _).
  rewrite Hrun. injection He as <-. reflexivity.
Defined.

(** ** The quadrant filter again *)

Section FilterTwice.

Context {A : Type}.

Lemma filter_same (f : A -> bool) (l : list A) :
  List.filter f (List.filter f l) = List.filter f l.
Proof.
  induction l as [| x l IH]; [reflexivity |]. simpl.
  destruct (f x) eqn:E; [simpl; rewrite E, IH; reflexivity | exact IH].
Qed.

Lemma filter_apart (f g : A -> bool) (l : list A) :
  (forall x, f x = true -> g x = false) ->
  List.filter g (List.filter f l) = [].
Proof.
  intros H. induction l as [| x l IH]; [reflexivity |]. simpl.
  destruct (f x) eqn:E; [simpl; rewrite (H x E); exact IH | exact IH].
Qed.

End FilterTwice.

(** X10.  The tables of two different quadrants never share a record, and
    filtering composes: the employees found for one quadrant, filtered
    again, are all kept for the same quadrant and all dropped for any
    other; a filter never returns more records than are loaded. *)
Theorem quadrant_filters_compose (a : HRAnalyzer) (q1 q2 : string) :
  let found := get_employees_by_quadrant (Some a) q1 in
  let again := get_employees_by_quadrant
                 (Some {| data := Some found;
                          gemini_client := gemini_client a;
                          qdrant_client := qdrant_client a |}) q2 in
  again = (if String.eqb q1 q2 then found else []) /\
  (q1 <> q2 ->
   forall emp : employee,
     In emp found -> ~ In emp (get_employees_by_quadrant (Some a) q2)) /\
  (length found <= length (records_of a))%nat.
Proof.
  intros found again.
  assert (Hfound : found =
            List.filter (fun emp => Py.eq_str (dict_get emp "quadrant" VNone) q1) (records_of a)).
  { subst found. unfold records_of, get_employees_by_quadrant.
    destruct (data a) as [[| e d] |]; reflexivity. }
  assert (Hagain : again =
            List.filter (fun emp => Py.eq_str (dict_get emp "quadrant" VNone) q2) found).
  { subst again. unfold get_employees_by_quadrant. simpl data.
    destruct found; reflexivity. }
  split; [| split].
  - rewrite Hagain, Hfound. destruct (String.eqb_spec q1 q2) as [<- | Hne].
    + apply filter_same.
    + apply filter_apart. intros emp H1.
      apply eq_str_spec in H1. rewrite H1. simpl.
      apply String.eqb_neq. exact Hne.
  - intros Hne emp Hin1 Hin2.
    assert (Hq2 : get_employees_by_quadrant (Some a) q2 =
              List.filter (fun emp => Py.eq_str (dict_get emp "quadrant" VNone) q2)
                          (records_of a)).
    { unfold records_of, get_employees_by_quadrant.
      destruct (data a) as [[| e d] |]; reflexivity. }
    rewrite Hfound in Hin1. rewrite Hq2 in Hin2.
    apply filter_In in Hin1 as [_ H1]. apply filter_In in Hin2 as [_ H2].
    apply eq_str_spec in H1. apply eq_str_spec in H2. congruence.
  - rewrite Hfound. apply List.filter_length_le.
Qed.

(** ** The dashboard and the data view at their edges *)

(** X11.  With records loaded, the dashboard always returns normally,
    leaves the session as it is and calls the analyzer exactly once (for the
    summary).  It draws the pie chart exactly when the quadrant distribution
    is non-empty and the bar chart exactly when there are roles; a quadrant
    missing from the distribution is counted as 0 in the Champions and
    At Risk metrics. *)
Theorem dashboard_tolerates_empty_maps
    (w : world) (s : session) (a : HRAnalyzer) (d : list employee) :
  analyzer s = Some a -> data a = Some d -> d <> [] ->
  let sm := get_analytics_summary w a in
  let r := analytics_dashboard w s in
  result_of r = Ret tt /\
  session_of r = s /\
  analyzer_calls (log_of r) = 1%nat /\
  existsb is_pie (log_of r) = nonempty_list (quadrant_distribution sm) /\
  existsb is_bar (log_of r) = nonempty_list (sentiment_by_role sm) /\
  (Py.assoc "Champion" (quadrant_distribution sm) = None ->
   In (Draw (Column 2) (Metric "🏆 Champions" "0" None)) (log_of r)) /\
  (Py.assoc "At Risk" (quadrant_distribution sm) = None ->
   In (Draw (Column 3) (Metric "⚠️ At Risk" "0" None)) (log_of r)).
Proof.
  intros Ha Hd Hne sm r. subst r sm.
  rewrite (dashboard_guard_passed a d w s Ha Hd Hne).
  unfold analytics_dashboard_body, call_get_analytics_summary, draw, log, ask,
    mbind, UI_bind, result_of, session_of, log_of, count_get.
  destruct (quadrant_distribution (get_analytics_summary w a)) as [| q qs] eqn:Eq;
    destruct (sentiment_by_role (get_analytics_summary w a)) as [| x xs] eqn:Er;
    cbn [fst snd nonempty_list];
    (split; [reflexivity |]); (split; [reflexivity |]); (split; [reflexivity |]);
    (split; [reflexivity |]); (split; [reflexivity |]);
    split; intros Hnone; rewrite Hnone; simpl; tauto.
Qed.

(** A summary without any quadrant or role: metrics and headings only. *)
Lemma dashboard_tolerates_empty_maps_witness :
  existsb is_pie (log_of (analytics_dashboard
    {| clicked := fun _ => false; text_area_value := EmptyString;
       get_analytics_summary := fun _ => Scenario.no_charts;
       get_average_sentiment := fun _ => 0%Q;
       analyze_with_ai := fun _ _ _ => Scenario.timeout;
       mysql := NothingLoaded; str_other := fun _ => "?";
       resource_cache := None |} Sample.loaded)) = false /\
  In (Draw (Column 2) (Metric "🏆 Champions" "0" None))
     (log_of (analytics_dashboard
    {| clicked := fun _ => false; text_area_value := EmptyString;
       get_analytics_summary := fun _ => Scenario.no_charts;
       get_average_sentiment := fun _ => 0%Q;
       analyze_with_ai := fun _ _ _ => Scenario.timeout;
       mysql := NothingLoaded; str_other := fun _ => "?";
       resource_cache := None |} Sample.loaded)).
Proof.
  destruct (dashboard_tolerates_empty_maps
    {| clicked := fun _ => false; text_area_value := EmptyString;
       get_analytics_summary := fun _ => Scenario.no_charts;
       get_average_sentiment := fun _ => 0%Q;
       analyze_with_ai := fun _ _ _ => Scenario.timeout;
       mysql := NothingLoaded; str_other := fun _ => "?";
       resource_cache := None |}
    Sample.loaded Sample.hr Sample.records eq_refl eq_refl ltac:(discriminate))
    as (_ & _ & _ & Hpie & _ & Hchampions & _).
  split; [exact Hpie | apply Hchampions; reflexivity].
Defined.

(** X12.  The data view reloads only on request: in a session without an
    analyzer, or with one that has a [data] attribute, a run in which the
    reload button is not pressed returns normally, leaves the session as it
    is and does not call [load_data].  Without an analyzer no method is
    called at all, and pressing the button only draws the error
    "Analyzer not initialized". *)
Theorem reload_needs_press_and_analyzer (w : world) (s : session) :
  (analyzer s = None \/ exists a d, analyzer s = Some a /\ data a = Some d) ->
  let r := data_management_section w s in
  (clicked w "🔄 Reload Data" = false ->
   result_of r = Ret tt /\ session_of r = s /\ existsb is_load_call (log_of r) = false) /\
  (analyzer s = None ->
   result_of r = Ret tt /\ session_of r = s /\ analyzer_calls (log_of r) = 0%nat /\
   (clicked w "🔄 Reload Data" = true ->
    log_of r = [ Draw Page (Header "📂 Data Management");
                 Draw Page (Subheader "🔄 Refresh Data from MySQL");
                 Draw Page (Button "🔄 Reload Data");
                 Draw Page (Error "❌ Analyzer not initialized") ])).
Proof.
  intros Hs r. subst r.
  unfold data_management_section, session_get_analyzer, has_records, attr_data,
    call_get_average_sentiment, call_get_quadrant_distribution, st_button,
    try_except, call_load_data, set_data_loaded, st_rerun, draw, log, ask, lift,
    mbind, UI_bind, mret, UI_ret, result_of, session_of, log_of.
  destruct Hs as [Hnone | (a & d & Ha & Hd)].
  - rewrite Hnone. split.
    + intros Hc. rewrite Hc. repeat split.
    + intros _. destruct (clicked w "🔄 Reload Data"); repeat split; discriminate.
  - rewrite Ha, Hd. split; [| intros H; discriminate H].
    intros Hc. rewrite Hc. destruct d; repeat split.
Qed.

Lemma reload_needs_press_and_analyzer_witness :
  log_of (data_management_section
            (Sample.run EmptyString "🔄 Reload Data" (Loaded Sample.records))
            Sample.uninitialized)
  = [ Draw Page (Header "📂 Data Management");
      Draw Page (Subheader "🔄 Refresh Data from MySQL");
      Draw Page (Button "🔄 Reload Data");
      Draw Page (Error "❌ Analyzer not initialized") ].
Proof.
  destruct (reload_needs_press_and_analyzer
              (Sample.run EmptyString "🔄 Reload Data" (Loaded Sample.records))
              Sample.uninitialized (or_introl eq_refl))
    as (_ & Hnone).
  destruct (Hnone eq_refl) as (_ & _ & _ & Hlog). exact (Hlog eq_refl).
Defined.

(** ** A faulty [text] accessor *)

(** X13.  For an object without candidates whose [text] accessor raises:
    an [AttributeError], or an exception of a class derived from it, counts
    as a missing attribute and gives the no-content sentinel, while any other
    exception gives the extraction-failure message with its text. *)
Theorem text_accessor_fault (cls : string) (attrs : list (string * pyattr)) (e : exn) :
  Py.assoc "candidates" attrs = None ->
  Py.assoc "text" attrs = Some (Faulty e) ->
  extract_ai_text (VObj cls attrs)
  = Ret (if is_a e "AttributeError" then VNone else extraction_failure e).
Proof.
  intros Hc Ht.
  unfold extract_ai_text, extract_ai_text_try, Py.hasattr, Py.getattr,
    mbind, outcome_bind, mret, outcome_ret.
  cbn [Py.truthy Py.isinstance_str negb]. rewrite Hc, Ht.
  change (is_a (Py.AttributeError (VObj cls attrs) "candidates") "AttributeError")
    with true.
  cbv beta iota.
  destruct (is_a e "AttributeError"); reflexivity.
Qed.

(** A [ValueError] of the accessor is reported; an [AttributeError] and an
    exception of a subclass of it are taken for a missing attribute. *)
Lemma text_accessor_fault_witness :
  extract_ai_text Sample.blocked
  = Ret (VStr "⚠️ Extraction failed: response has no valid part") /\
  extract_ai_text (VObj "Reply" [("text", Faulty (Exn "AttributeError" "no text yet"))])
  = Ret VNone /\
  extract_ai_text
    (VObj "Reply"
       [("text", Faulty (Exception "IncompleteReply" ["AttributeError"] "no text yet"))])
  = Ret VNone.
Proof.
  split; [| split].
  - apply (text_accessor_fault "GenerateContentResponse" _
             (Exn "ValueError" "response has no valid part")); reflexivity.
  - apply (text_accessor_fault "Reply" _ (Exn "AttributeError" "no text yet")); reflexivity.
  - apply (text_accessor_fault "Reply" _
             (Exception "IncompleteReply" ["AttributeError"] "no text yet")); reflexivity.
Defined.

(** ** Initialization and the entry point *)

Section Entry.

Lemma initialize_cases (made : construction) (w : world) (s : session) :
  initialize_analyzer made w s =
  match made with
  | ConstructionFault e =>
      (Ret (None, false), s,
       [Draw Sidebar (Error ("❌ Failed to initialize: " +:+ exn_msg e))])
  | Built a =>
      match mysql w with
      | Loaded rows =>
          (Ret (Some {| data := Some rows;
                        gemini_client := gemini_client a;
                        qdrant_client := qdrant_client a |}, true), s,
           [Call m_load_data;
            Draw Sidebar (Success "✅ Data loaded from MySQL successfully")])
      | NothingLoaded =>
          (Ret (Some a, false), s,
           [Call m_load_data; Draw Sidebar (Info "ℹ️ No data found in MySQL database")])
      | StoreFault e =>
          (Ret (None, false), s,
           [Call m_load_data;
            Draw Sidebar (Error ("❌ Failed to initialize: " +:+ exn_msg e))])
      end
  end.
Proof.
  unfold initialize_analyzer, try_except, call_load_data_on, load_data, draw, log, lift,
    mbind, UI_bind, mret, UI_ret.
  destruct made as [a | e]; [| reflexivity]. destruct (mysql w); reflexivity.
Qed.

Lemma initialize_returns (made : construction) (w : world) (s : session) :
  exists analyzer loaded ev,
    initialize_analyzer made w s = (Ret (analyzer, loaded), s, ev).
Proof.
  rewrite initialize_cases. destruct made as [a | e]; [destruct (mysql w) |];
    eexists _, _, _; reflexivity.
Qed.

Lemma status_returns (w : world) (s : session) :
  exists ev, show_environment_status w s = (Ret tt, s, ev).
Proof.
  unfold show_environment_status, session_get_analyzer, draw, log, mbind, UI_bind,
    mret, UI_ret.
  destruct (analyzer s) as [a |]; [| eexists; reflexivity].
  destruct (Py.truthy (getattr_or_None (gemini_client a)));
    destruct (Py.truthy (getattr_or_None (qdrant_client a))); eexists; reflexivity.
Qed.

Lemma script_bind_ret {A B : Type} (m : Script A) (f : A -> Script B) w b x b1 ev1 :
  m w b = (Ret x, b1, ev1) ->
  (m ≫= f) w b = (let '(r, b2, ev2) := f x w b1 in (r, b2, (ev1 ++ ev2)%list)).
Proof. intros H. unfold mbind, Script_bind. rewrite H. reflexivity. Qed.


Lemma embed_run {A : Type} (wrap : event -> page_event) (m : UI A) w b :
  embed wrap m w b
  = (result_of (m w (state b)),
     {| initialized := initialized b; state := session_of (m w (state b)) |},
     map wrap (log_of (m w (state b)))).
Proof.
  unfold embed, result_of, session_of, log_of.
  destruct (m w (state b)) as [[r s'] ev]. reflexivity.
Qed.

End Entry.

(** X14.  [initialize_analyzer] never raises and does not touch the
    session.  It returns the flag true only together with an analyzer, after
    the success line; it returns no analyzer exactly when the constructor or
    the first load raised, and then the sidebar shows the error with the
    text of the fault; when the constructor raised, [load_data] is never
    called. *)
Theorem initialize_analyzer_contained (made : construction) (w : world) (s : session) :
  let r := initialize_analyzer made w s in
  session_of r = s /\
  exists analyzer loaded,
    result_of r = Ret (analyzer, loaded) /\
    (loaded = true ->
     (exists a, analyzer = Some a) /\
     In (Draw Sidebar (Success "✅ Data loaded from MySQL successfully")) (log_of r)) /\
    (analyzer = None <->
     (exists e, made = ConstructionFault e) \/
     ((exists a, made = Built a) /\ exists e, mysql w = StoreFault e)) /\
    (analyzer = None ->
     loaded = false /\
     exists e, In (Draw Sidebar (Error ("❌ Failed to initialize: " +:+ exn_msg e))) (log_of r)) /\
    ((exists e, made = ConstructionFault e) -> analyzer_calls (log_of r) = 0%nat).
Proof.
  intros r. subst r. rewrite initialize_cases.
  destruct made as [a | e]; [destruct (mysql w) as [rows | | e] eqn:Em |];
    unfold session_of, result_of, log_of; cbn [fst snd];
    (split; [reflexivity |]); eexists _, _; (split; [reflexivity |]).
  - split; [intros _; split; [eauto | simpl; tauto] |].
    split; [split; [discriminate | intros [[e H] | [_ [e H]]]; discriminate] |].
    split; [discriminate | intros [e H]; discriminate].
  - split; [discriminate |].
    split; [split; [discriminate | intros [[e H] | [_ [e H]]]; discriminate] |].
    split; [discriminate | intros [e H]; discriminate].
  - split; [discriminate |].
    split; [split; [intros _; right; eauto | reflexivity] |].
    split; [intros _; split; [reflexivity | exists e; simpl; tauto] |].
    intros [e' H]; discriminate.
  - split; [discriminate |].
    split; [split; [intros _; left; eauto | reflexivity] |].
    split; [intros _; split; [reflexivity | exists e; simpl; tauto] |].
    reflexivity.
Qed.

Section Composition.

Lemma embed_ret {A : Type} (wrap : event -> page_event) (m : UI A) w b x s' ev :
  m w (state b) = (Ret x, s', ev) ->
  embed wrap m w b = (Ret x, {| initialized := initialized b; state := s' |}, map wrap ev).
Proof. intros H. unfold embed. rewrite H. reflexivity. Qed.

Lemma ai_tab_quiet (w : world) (s : session) (a : HRAnalyzer) (d : list employee) :
  analyzer s = Some a -> data a = Some d -> d <> [] ->
  Forall (fun emp => numeric_score emp = true) d ->
  exists ev, ai_analysis_interface w s = (Ret tt, s, ev).
Proof.
  intros Ha Hd Hne Hnum. rewrite (ai_tab_blocks w s a d Ha Hd Hne Hnum).
  destruct (custom_query_section_run w s a d Hd Hnum (context_of w a))
    as (routed & -> & _). eexists. reflexivity.
Qed.

Lemma dashboard_quiet (w : world) (s : session) (a : HRAnalyzer) (d : list employee) :
  analyzer s = Some a -> data a = Some d -> d <> [] ->
  exists ev, analytics_dashboard w s = (Ret tt, s, ev).
Proof.
  intros Ha Hd Hne. rewrite (dashboard_guard_passed a d w s Ha Hd Hne).
  unfold analytics_dashboard_body, call_get_analytics_summary, draw, log, ask,
    mbind, UI_bind.
  destruct (quadrant_distribution (get_analytics_summary w a));
    destruct (sentiment_by_role (get_analytics_summary w a)); eexists; reflexivity.
Qed.

End Composition.

(** X15.  A run of [main] in which the reload button is not pressed, on an
    initialized session with records loaded whose sentiment scores are
    absent or values the format accepts, returns normally and
    leaves the session as it is; its page is the title and the tagline, the
    status panel, the tab bar, then the data view, the dashboard and the AI
    tab in this order, each run on that same session, and the footer. *)
Theorem main_page_composition
    (made : construction) (w : world) (b : browser) (a : HRAnalyzer) (d : list employee) :
  initialized b = true ->
  analyzer (state b) = Some a -> data a = Some d -> d <> [] ->
  Forall (fun emp => numeric_score emp = true) d ->
  clicked w "🔄 Reload Data" = false ->
  main made w b
  = (Ret tt, b,
     ([ PageTitle "📊 HR Sentiment Analysis with AI";
        Outside (Draw Page (Markdown
          "**Advanced employee feedback analysis using AI-powered insights**")) ] ++
      map Outside (log_of (show_environment_status w (state b))) ++
      [ Tabs ["📂 Data Management"; "📊 Analytics Dashboard"; "🤖 AI Analysis"] ] ++
      map (InTab 0) (log_of (data_management_section w (state b))) ++
      map (InTab 1) (log_of (analytics_dashboard w (state b))) ++
      map (InTab 2) (log_of (ai_analysis_interface w (state b))) ++
      [ Outside (Draw Page (Markdown "---"));
        Html ("<div style='text-align: center; color: #666; padding: 20px;'>" +:+
              "💡 Load SQL • 📊 View Analytics • 🤖 Get AI Insights • 🎯 Make Data-Driven Decisions" +:+
              "</div>") ])%list).
Proof.
  intros Hi Ha Hd Hne Hnum Hc. destruct b as [i s]. simpl in Hi, Ha. subst i.
  cbn [state].
  destruct (status_returns w s) as [ev_status Hstatus].
  pose proof (reload_run w s a d Ha Hd Hne) as Hdata. rewrite Hc in Hdata.
  destruct (dashboard_quiet w s a d Ha Hd Hne) as [ev_dash Hdash].
  destruct (ai_tab_quiet w s a d Ha Hd Hne Hnum) as [ev_tab Htab].
  rewrite Hstatus, Hdata, Hdash, Htab. unfold log_of. cbn [snd].
  unfold main.
  erewrite script_bind_ret by reflexivity.
  erewrite script_bind_ret by reflexivity.
  erewrite script_bind_ret by reflexivity.
  cbn [negb initialized].
  erewrite script_bind_ret by reflexivity.
  erewrite script_bind_ret by (apply embed_ret; exact Hstatus).
  erewrite script_bind_ret by reflexivity.
  erewrite script_bind_ret by (apply embed_ret; exact Hdata).
  erewrite script_bind_ret by (apply embed_ret; exact Hdash).
  erewrite script_bind_ret by (apply embed_ret; exact Htab).
  erewrite script_bind_ret by reflexivity.
  cbv beta iota zeta. cbn [initialized state app map]. unfold put.
  rewrite ?app_nil_r. reflexivity.
Qed.

(** A run on the sample session: the session is kept and the page ends
    with the footer. *)
Lemma main_page_composition_witness :
  page_result (main (Built Scenario.bare)
                    (Sample.run "Who is at risk?" "custom_analysis" NothingLoaded)
                    Scenario.started) = Ret tt /\
  page_browser (main (Built Scenario.bare)
                     (Sample.run "Who is at risk?" "custom_analysis" NothingLoaded)
                     Scenario.started) = Scenario.started.
Proof.
  rewrite (main_page_composition (Built Scenario.bare)
             (Sample.run "Who is at risk?" "custom_analysis" NothingLoaded)
             Scenario.started Sample.hr Sample.records
             eq_refl eq_refl eq_refl ltac:(discriminate) ltac:(repeat constructor) eq_refl).
  split; reflexivity.
Defined.

Section FirstRun.

Variables (made : construction) (w : world).

Lemma main_started (s : session) :
  main made w {| initialized := true; state := s |}
  = (let '(r, bf, evs) := page_body w {| initialized := true; state := s |} in
     (r, bf,
      PageTitle "📊 HR Sentiment Analysis with AI"
      :: Outside (Draw Page (Markdown
           "**Advanced employee feedback analysis using AI-powered insights**"))
      :: evs)).
Proof.
  unfold main. fold page_body.
  erewrite script_bind_ret by reflexivity.
  erewrite script_bind_ret by reflexivity.
  erewrite script_bind_ret by reflexivity.
  cbn [negb initialized].
  erewrite script_bind_ret by reflexivity.
  destruct (page_body w _) as [[r bf] evs]. reflexivity.
Qed.

Lemma cached_initialize_run (s : session) :
  cached_initialize_analyzer made w s
  = match resource_cache w with
    | Some kept =>
        (Ret (cached_result kept), s, map (Draw Sidebar) (cached_elements kept))
    | None => initialize_analyzer made w s
    end.
Proof.
  unfold cached_initialize_analyzer, ask. unfold mbind at 1, UI_bind at 1.
  destruct (resource_cache w) as [kept |].
  - assert (Hreplay : forall elements,
              for_each elements (draw Sidebar) w s
              = (Ret tt, s, map (Draw Sidebar) elements)).
    { induction elements as [| x elements IH]; [reflexivity |].
      simpl for_each. unfold mbind, UI_bind, draw, log in *. rewrite IH. reflexivity. }
    unfold mbind, UI_bind. rewrite Hreplay. unfold mret, UI_ret.
    rewrite app_nil_r. reflexivity.
  - destruct (initialize_analyzer made w s) as [[r s'] ev]. reflexivity.
Qed.

Lemma main_fresh (s : session) (an : option HRAnalyzer) (fl : bool) (ev : list event) :
  cached_initialize_analyzer made w s = (Ret (an, fl), s, ev) ->
  main made w {| initialized := false; state := s |}
  = (let '(r, bf, evs) :=
       page_body w {| initialized := true;
                      state := {| analyzer := an; data_loaded := fl |} |} in
     (r, bf,
      (PageTitle "📊 HR Sentiment Analysis with AI"
       :: Outside (Draw Page (Markdown
            "**Advanced employee feedback analysis using AI-powered insights**"))
       :: map Outside ev ++ evs)%list)).
Proof.
  intros Hinit. unfold main. fold page_body.
  erewrite script_bind_ret by reflexivity.
  erewrite script_bind_ret by reflexivity.
  erewrite script_bind_ret by reflexivity.
  cbn [negb initialized].
  erewrite (script_bind_ret (_ ≫= _))
    by (erewrite script_bind_ret by (apply embed_ret; exact Hinit); reflexivity).
  cbn [state initialized].
  destruct (page_body w _) as [[r bf] evs].
  cbn [app]. rewrite app_nil_r. reflexivity.
Qed.

End FirstRun.

(** X16.  On its first run in a browser session [main] calls the cached
    [initialize_analyzer].  When the resource cache holds no result, the
    body runs; when it holds one, the cached tuple is taken, the recorded
    sidebar elements are drawn again, and no method of the analyzer is
    called.  The sidebar lines come right after the tagline, and from there
    on the run is the one [main] makes on a session that already holds the
    analyzer and the flag the call returned. *)
Theorem main_initializes_on_first_run (made : construction) (w : world) (b : browser) :
  initialized b = false ->
  exists analyzer loaded ev,
    match resource_cache w with
    | None => initialize_analyzer made w (state b) = (Ret (analyzer, loaded), state b, ev)
    | Some kept =>
        cached_result kept = (analyzer, loaded) /\
        ev = map (Draw Sidebar) (cached_elements kept) /\
        analyzer_calls ev = 0%nat
    end /\
    let b' := {| initialized := true;
                 state := {| analyzer := analyzer; data_loaded := loaded |} |} in
    exists rest,
      page_log (main made w b') =
        PageTitle "📊 HR Sentiment Analysis with AI"
        :: Outside (Draw Page (Markdown
             "**Advanced employee feedback analysis using AI-powered insights**"))
        :: rest /\
      page_log (main made w b) =
        (PageTitle "📊 HR Sentiment Analysis with AI"
         :: Outside (Draw Page (Markdown
              "**Advanced employee feedback analysis using AI-powered insights**"))
         :: map Outside ev ++ rest)%list /\
      page_result (main made w b) = page_result (main made w b') /\
      page_browser (main made w b) = page_browser (main made w b').
Proof.
  intros Hi. destruct b as [i s]. simpl in Hi. subst i. cbn [state].
  assert (Hcall : exists an fl ev,
            cached_initialize_analyzer made w s = (Ret (an, fl), s, ev) /\
            match resource_cache w with
            | None => initialize_analyzer made w s = (Ret (an, fl), s, ev)
            | Some kept =>
                cached_result kept = (an, fl) /\
                ev = map (Draw Sidebar) (cached_elements kept) /\
                analyzer_calls ev = 0%nat
            end).
  { rewrite cached_initialize_run.
    destruct (resource_cache w) as [kept |].
    - destruct (cached_result kept) as [an fl] eqn:Hkept.
      exists an, fl, (map (Draw Sidebar) (cached_elements kept)).
      split; [reflexivity |]. split; [reflexivity |]. split; [reflexivity |].
      unfold analyzer_calls. induction (cached_elements kept); [reflexivity | assumption].
    - destruct (initialize_returns made w s) as (an & fl & ev & Hinit).
      exists an, fl, ev. split; exact Hinit. }
  destruct Hcall as (an & fl & ev & Hinit & Hcase).
  exists an, fl, ev. split; [exact Hcase |]. cbv zeta.
  rewrite (main_started made w {| analyzer := an; data_loaded := fl |}).
  rewrite (main_fresh made w s an fl ev Hinit).
  destruct (page_body w _) as [[r bf] evs].
  exists evs. unfold page_log, page_result, page_browser. cbn [fst snd].
  split; [reflexivity |]. split; [reflexivity |]. split; reflexivity.
Qed.

(** The first session of the process loads the records; a later session,
    whose run finds the result in the cache, gets the same analyzer without
    the constructor, which would now fail, being run at all. *)
Lemma main_initializes_on_first_run_witness :
  page_browser (main (Built Scenario.bare)
                     (Sample.run EmptyString "none" (Loaded Sample.records))
                     Scenario.fresh)
  = Scenario.started /\
  page_browser (main (ConstructionFault (Exn "ConnectionError" "database unreachable"))
                     Scenario.later Scenario.fresh)
  = Scenario.started.
Proof.
  split.
  - destruct (main_initializes_on_first_run (Built Scenario.bare)
                (Sample.run EmptyString "none" (Loaded Sample.records))
                Scenario.fresh eq_refl)
      as (an & fl & ev & Hinit & rest & _ & _ & _ & Hb).
    rewrite Hb. injection Hinit as <- <- _. reflexivity.
  - destruct (main_initializes_on_first_run
                (ConstructionFault (Exn "ConnectionError" "database unreachable"))
                Scenario.later Scenario.fresh eq_refl)
      as (an & fl & ev & (Hkept & _ & _) & rest & _ & _ & _ & Hb).
    rewrite Hb. injection Hkept as <- <-. reflexivity.
Defined.

Section Initialized.

Lemma bind_keeps_flag {A B : Type} (m : Script A) (f : A -> Script B) :
  (forall w b, initialized (page_browser (m w b)) = initialized b) ->
  (forall x w b, initialized (page_browser (f x w b)) = initialized b) ->
  forall w b, initialized (page_browser ((m ≫= f) w b)) = initialized b.
Proof.
  intros Hm Hf w b. unfold mbind, Script_bind. specialize (Hm w b).
  destruct (m w b) as [[[x | e |] b1] ev1]; unfold page_browser in *; cbn [fst snd] in *;
    try exact Hm.
  specialize (Hf x w b1). destruct (f x w b1) as [[r b2] ev2].
  unfold page_browser in Hf. cbn [fst snd] in *. congruence.
Qed.

Lemma embed_keeps_flag {A : Type} (wrap : event -> page_event) (m : UI A) w b :
  initialized (page_browser (embed wrap m w b)) = initialized b.
Proof. rewrite embed_run. reflexivity. Qed.

Lemma page_body_keeps_flag w b : initialized (page_browser (page_body w b)) = initialized b.
Proof.
  unfold page_body.
  repeat first [ apply bind_keeps_flag; [| intros ?] | intros; apply embed_keeps_flag
               | intros; reflexivity ].
Qed.

End Initialized.

(** X17.  Once the key [analyzer] is in the session state, [main] never
    initializes again: its run does not depend on what the constructor
    would yield, and the key stays set however the views end. *)
Theorem main_never_reinitializes (made made' : construction) (w : world) (b : browser) :
  initialized b = true ->
  main made w b = main made' w b /\
  initialized (page_browser (main made w b)) = true.
Proof.
  intros Hi. destruct b as [i s]. simpl in Hi. subst i.
  rewrite !main_started.
  pose proof (page_body_keeps_flag w {| initialized := true; state := s |}) as Hflag.
  destruct (page_body w {| initialized := true; state := s |}) as [[r bf] evs].
  unfold page_browser in *. cbn [fst snd] in *.
  split; [reflexivity | exact Hflag].
Qed.

Lemma main_never_reinitializes_witness :
  main (Built Scenario.bare) (Sample.run EmptyString "none" (Loaded Sample.records))
       Scenario.failed
  = main (ConstructionFault (Exn "ConnectionError" "database unreachable"))
         (Sample.run EmptyString "none" (Loaded Sample.records)) Scenario.failed.
Proof.
  apply (main_never_reinitializes (Built Scenario.bare)
           (ConstructionFault (Exn "ConnectionError" "database unreachable"))
           (Sample.run EmptyString "none" (Loaded Sample.records)) Scenario.failed eq_refl).
Defined.

(** X18.  A session whose initialization failed stays without an analyzer:
    every later run of [main] returns normally with the session unchanged
    and calls no method, showing the warning in the status panel, the data
    view with its reload button, and the placeholders of the dashboard and
    the AI tab; pressing the reload button only adds the error
    "Analyzer not initialized". *)
Theorem main_without_analyzer (made : construction) (w : world) (b : browser) :
  initialized b = true -> analyzer (state b) = None ->
  main made w b
  = (Ret tt, b,
     ([ PageTitle "📊 HR Sentiment Analysis with AI";
        Outside (Draw Page (Markdown
          "**Advanced employee feedback analysis using AI-powered insights**"));
        Outside (Draw Sidebar (Subheader "🔧 System Status"));
        Outside (Draw Sidebar (Warning "ℹ️ Analyzer not initialized"));
        Tabs ["📂 Data Management"; "📊 Analytics Dashboard"; "🤖 AI Analysis"];
        InTab 0 (Draw Page (Header "📂 Data Management"));
        InTab 0 (Draw Page (Subheader "🔄 Refresh Data from MySQL"));
        InTab 0 (Draw Page (Button "🔄 Reload Data")) ] ++
      (if clicked w "🔄 Reload Data"
       then [InTab 0 (Draw Page (Error "❌ Analyzer not initialized"))] else []) ++
      [ InTab 1 (Draw Page (Info "📊 Load data from MySQL to see analytics dashboard"));
        InTab 2 (Draw Page (Info "🤖 Load data from MySQL to enable AI analysis"));
        Outside (Draw Page (Markdown "---"));
        Html ("<div style='text-align: center; color: #666; padding: 20px;'>" +:+
              "💡 Load SQL • 📊 View Analytics • 🤖 Get AI Insights • 🎯 Make Data-Driven Decisions" +:+
              "</div>") ])%list).
Proof.
  intros Hi Hnone. destruct b as [i [an fl]]. simpl in Hi, Hnone. subst i an.
  rewrite main_started. unfold page_body.
  erewrite script_bind_ret by reflexivity.
  erewrite script_bind_ret by reflexivity.
  cbn [state initialized].
  destruct (clicked w "🔄 Reload Data") eqn:Hc.
  - erewrite script_bind_ret
      by (apply embed_ret; cbn [state];
          unfold data_management_section, session_get_analyzer, has_records, st_button,
            draw, log, ask, mbind, UI_bind, mret, UI_ret; cbn [analyzer];
          rewrite Hc; reflexivity).
    reflexivity.
  - erewrite script_bind_ret
      by (apply embed_ret; cbn [state];
          unfold data_management_section, session_get_analyzer, has_records, st_button,
            draw, log, ask, mbind, UI_bind, mret, UI_ret; cbn [analyzer];
          rewrite Hc; reflexivity).
    reflexivity.
Qed.

Lemma main_without_analyzer_witness :
  page_browser (main (Built Scenario.bare)
                     (Sample.run EmptyString "🔄 Reload Data" (Loaded Sample.records))
                     Scenario.failed)
  = Scenario.failed.
Proof.
  rewrite (main_without_analyzer (Built Scenario.bare)
             (Sample.run EmptyString "🔄 Reload Data" (Loaded Sample.records))
             Scenario.failed eq_refl eq_refl).
  reflexivity.
Defined.



(** ** The flag [data_loaded] *)

Section Flag.

Lemma ignores_ret {A : Type} (x : A) : ignores_flag (mret x).
Proof. intros w s1 s2 H. repeat split. exact H. Qed.

Lemma ignores_bind {A B : Type} (m : UI A) (f : A -> UI B) :
  ignores_flag m -> (forall x, ignores_flag (f x)) -> ignores_flag (m ≫= f).
Proof.
  intros Hm Hf w s1 s2 H. unfold mbind, UI_bind.
  destruct (Hm w s1 s2 H) as (Hr & Hl & Ha).
  unfold result_of, log_of, session_of in *.
  destruct (m w s1) as [[r1 t1] ev1], (m w s2) as [[r2 t2] ev2]. cbn [fst snd] in *.
  subst r2 ev2. destruct r1 as [x | e |]; [| repeat split; exact Ha ..].
  destruct (Hf x w t1 t2 Ha) as (Hr & Hl & Ha').
  unfold result_of, log_of, session_of in *.
  destruct (f x w t1) as [[r1 u1] ev3], (f x w t2) as [[r2 u2] ev4]. cbn [fst snd] in *.
  subst r2 ev4. repeat split. exact Ha'.
Qed.

Lemma ignores_try {A : Type} (m : UI A) (h : exn -> UI A) :
  ignores_flag m -> (forall e, ignores_flag (h e)) -> ignores_flag (try_except m h).
Proof.
  intros Hm Hh w s1 s2 H. unfold try_except.
  destruct (Hm w s1 s2 H) as (Hr & Hl & Ha).
  unfold result_of, log_of, session_of in *.
  destruct (m w s1) as [[r1 t1] ev1], (m w s2) as [[r2 t2] ev2]. cbn [fst snd] in *.
  subst r2 ev2. destruct r1 as [x | e |]; [repeat split; exact Ha | | repeat split; exact Ha].
  destruct (Hh e w t1 t2 Ha) as (Hr & Hl & Ha').
  unfold result_of, log_of, session_of in *.
  destruct (h e w t1) as [[r1 u1] ev3], (h e w t2) as [[r2 u2] ev4]. cbn [fst snd] in *.
  subst r2 ev4. repeat split. exact Ha'.
Qed.

Lemma ignores_lift {A : Type} (r : outcome A) : ignores_flag (lift r).
Proof. intros w s1 s2 H. repeat split. exact H. Qed.

Lemma ignores_ask {A : Type} (f : world -> A) : ignores_flag (ask f).
Proof. intros w s1 s2 H. repeat split. exact H. Qed.

Lemma ignores_log (e : event) : ignores_flag (log e).
Proof. intros w s1 s2 H. repeat split. exact H. Qed.

Lemma ignores_session_get_analyzer : ignores_flag session_get_analyzer.
Proof.
  intros w s1 s2 H. unfold session_get_analyzer, result_of, log_of, session_of.
  cbn [fst snd]. rewrite H. repeat split.
Qed.

Lemma ignores_set_data_loaded (b : bool) : ignores_flag (set_data_loaded b).
Proof. intros w s1 s2 H. unfold set_data_loaded. repeat split. exact H. Qed.

Lemma ignores_st_rerun : ignores_flag st_rerun.
Proof. intros w s1 s2 H. repeat split. exact H. Qed.

Lemma ignores_call_load_data (a : HRAnalyzer) : ignores_flag (call_load_data a).
Proof.
  intros w s1 s2 H. unfold call_load_data.
  destruct (load_data (mysql w) a) as [r a']. repeat split.
Qed.

Lemma ignores_for_each {A : Type} (xs : list A) (body : A -> UI unit) :
  (forall x, ignores_flag (body x)) -> ignores_flag (for_each xs body).
Proof.
  intros Hb. induction xs as [| x xs IH]; [apply ignores_ret |].
  simpl. apply ignores_bind; [apply Hb | intros _; exact IH].
Qed.

End Flag.

Ltac ignores_step :=
  first
    [ apply ignores_ret | apply ignores_lift | apply ignores_ask | apply ignores_log
    | apply ignores_session_get_analyzer | apply ignores_set_data_loaded
    | apply ignores_st_rerun | apply ignores_call_load_data
    | apply ignores_try; [| intros ?]
    | apply ignores_for_each; intros ?
    | apply ignores_bind; [| intros ?]
    | match goal with
      | |- ignores_flag (if ?c then _ else _) => destruct c
      | |- ignores_flag (match ?x with Some _ => _ | None => _ end) => destruct x
      | |- ignores_flag (match ?x with Answer _ => _ | Failure _ => _ end) => destruct x
      | |- ignores_flag (match ?x with [] => _ | _ :: _ => _ end) => destruct x
      end ].

Section FlagViews.

Lemma ignores_display_employees (emps : list employee) :
  ignores_flag (display_employees emps).
Proof.
  unfold display_employees, fstr, draw. destruct emps; repeat ignores_step.
Qed.

Lemma ignores_show_quadrant (a : HRAnalyzer) (heading q : string) :
  ignores_flag (show_quadrant a heading q).
Proof.
  unfold show_quadrant, draw. apply ignores_bind; [apply ignores_log | intros _].
  apply ignores_display_employees.
Qed.

Lemma ignores_context_loop (emps : list employee) (context : string) :
  ignores_flag (context_loop emps context).
Proof.
  revert context. induction emps as [| emp emps IH]; intros context; simpl.
  - apply ignores_ret.
  - apply ignores_bind; [| intros line; apply IH].
    unfold context_line, fstr. repeat ignores_step.
Qed.

Lemma ignores_build_context (a : HRAnalyzer) : ignores_flag (build_context a).
Proof.
  unfold build_context, call_get_analytics_summary.
  apply ignores_bind; [repeat ignores_step | intros sm].
  apply ignores_bind; [apply ignores_lift | intros d]. apply ignores_context_loop.
Qed.

Lemma ignores_ai_answer (a : HRAnalyzer) (query context title : string) :
  ignores_flag (ai_answer a query context title).
Proof.
  unfold ai_answer, call_analyze_with_ai, fstr, draw. repeat ignores_step.
Qed.

Lemma ignores_keyword_loop (a : HRAnalyzer) (items : list (string * string))
    (query : string) :
  ignores_flag (keyword_loop a items query).
Proof.
  induction items as [| [kw quad] items IH]; simpl; [apply ignores_ret |].
  destruct (contains (lower kw) (lower query)); [| exact IH].
  apply ignores_bind; [apply ignores_show_quadrant | intros _; apply ignores_ret].
Qed.

Lemma ignores_has_records (analyzer : option HRAnalyzer) :
  ignores_flag (has_records analyzer).
Proof. unfold has_records. destruct analyzer; repeat ignores_step. Qed.

End FlagViews.

(** X20.  No view reads the flag [data_loaded]: in two sessions that hold
    the same analyzer and differ only in the flag, the status panel, the
    data view, the dashboard and the AI tab return the same outcome, draw
    and call the same, and leave the same analyzer behind. *)
Theorem views_ignore_data_loaded :
  ignores_flag show_environment_status /\
  ignores_flag data_management_section /\
  ignores_flag analytics_dashboard /\
  ignores_flag ai_analysis_interface.
Proof.
  split; [| split; [| split]].
  - unfold show_environment_status, draw. repeat ignores_step.
  - unfold data_management_section, call_get_average_sentiment,
      call_get_quadrant_distribution, st_button, draw.
    apply ignores_bind; [apply ignores_log | intros _].
    apply ignores_bind; [apply ignores_session_get_analyzer | intros an].
    apply ignores_bind; [apply ignores_has_records | intros loaded].
    repeat ignores_step.
  - unfold analytics_dashboard.
    apply ignores_bind; [apply ignores_session_get_analyzer | intros an].
    apply ignores_bind; [apply ignores_has_records | intros loaded].
    destruct an as [a |]; [destruct loaded |]; unfold draw; try apply ignores_log.
    unfold analytics_dashboard_body, call_get_analytics_summary, draw.
    repeat ignores_step.
  - unfold ai_analysis_interface.
    apply ignores_bind; [apply ignores_session_get_analyzer | intros an].
    apply ignores_bind; [apply ignores_has_records | intros loaded].
    destruct an as [a |]; [destruct loaded |]; unfold draw; try apply ignores_log.
    unfold ai_analysis_interface_body, custom_query_section, st_button, st_text_area, draw.
    apply ignores_bind; [apply ignores_log | intros _].
    apply ignores_bind; [apply ignores_build_context | intros context].
    repeat first
      [ apply ignores_show_quadrant | apply ignores_ai_answer | apply ignores_keyword_loop
      | ignores_step ].
Qed.
